(** * First-order update rules of [cs231n/optim.py]

    A shallow embedding of the five update rules [sgd], [sgd_momentum],
    [nesterov_momentum], [rmsprop] and [adam], and of the part of Python and
    numpy they run on.

    Modelling decisions.
    - Numbers are real numbers: a Python float and a float64 array element
      are an [R] and arithmetic is exact.  Rounding, [inf] and [nan] are not
      represented.  The formulas proved below are the expressions of the
      source, operation by operation; what holds of real numbers only and
      not of the floats is not claimed, and one such identity is refuted on
      binary64 numbers ([Float64] below).
    - Python's [**] on numbers raises OverflowError when the power is too
      large for a float, and ZeroDivisionError on [0.0 ** n] for negative
      [n]; both are modelled.
    - numpy divides an array by zero, and takes the square root of a
      negative number, in one of two ways, chosen by [np.seterr]: with the
      default setting the result is [inf] or [nan] with a RuntimeWarning and
      the code runs on; with [divide='raise', invalid='raise'] the operation
      raises FloatingPointError.  Both are modelled ([errstate]).  With the
      default setting the model has, for the element that numpy makes [inf]
      or [nan], the value of the total [Rdiv] and [sqrt] of the Standard
      Library, which means nothing; that a call divides by no zero is
      stated as: the call returns under the raising setting.
    - A Python int is kept apart from a float only where the source needs
      it: the Adam counter [t], used as an exponent and incremented.
    - A numpy array is a shape together with its elements in row-major
      order.  Binary operations broadcast with numpy's rule.
    - Arrays are objects in a store: a rule receives references, an
      arithmetic expression allocates its result, [w -= ...] writes through
      the reference.  Nothing is ever freed, so the intermediate arrays of a
      call can be looked at afterwards.
    - The configuration is a Python dict from option names to values; it is
      passed in and returned (no statement below depends on its identity as
      an object). *)

From Stdlib Require Import Floats.
Set Warnings "-inexact-float".
From Stdlib Require Import Reals Lra ZArith.
From stdpp Require Import gmap strings list fin_maps.

(** ** numpy arrays *)

Record ndarray := NdArray { shape : list nat; data : list R }.

(** Number of elements of an array of shape [s]. *)
Definition size_of (s : list nat) : nat := foldr Nat.mul 1 s.

(** The element list has as many entries as the shape says. *)
Definition wf_array (a : ndarray) : Prop := length (data a) = size_of (shape a).

(** numpy's broadcasting rule on shapes written innermost dimension first:
    two dimensions are compatible when they are equal or one of them is 1;
    a missing dimension counts as 1. *)
Fixpoint broadcast_rev (s1 s2 : list nat) : option (list nat) :=
  match s1, s2 with
  | [], s => Some s
  | s, [] => Some s
  | a :: s1', b :: s2' =>
      if decide (a = b) then cons a <$> broadcast_rev s1' s2'
      else if decide (a = 1) then cons b <$> broadcast_rev s1' s2'
      else if decide (b = 1) then cons a <$> broadcast_rev s1' s2'
      else None
  end.

Definition broadcast_shapes (s1 s2 : list nat) : option (list nat) :=
  reverse <$> broadcast_rev (reverse s1) (reverse s2).

(** Row-major position, in an array of (reversed) shape [s], of the element
    shown at position [i] of its broadcast to (reversed) shape [t]: a
    dimension of extent 1 is read at index 0 throughout. *)
Fixpoint src_index (s t : list nat) (i : nat) : nat :=
  match s, t with
  | d :: s', n :: t' =>
      (if decide (d = 1) then 0 else i mod n) + d * src_index s' t' (i / n)
  | _, _ => 0
  end.

Definition broadcast_to (a : ndarray) (s : list nat) : list R :=
  (λ i, nth (src_index (reverse (shape a)) (reverse s) i) (data a) 0%R) <$> seq 0 (size_of s).

(** An elementwise binary ufunc: [None] when the operands cannot be
    broadcast together (numpy raises ValueError). *)
Definition np_binop (f : R → R → R) (a b : ndarray) : option ndarray :=
  s ← broadcast_shapes (shape a) (shape b);
  Some (NdArray s (zip_with f (broadcast_to a s) (broadcast_to b s))).

(** The same ufunc with [out=a], as the augmented assignments [a -= b] run
    it: the broadcast shape has to be the shape of [a]. *)
Definition np_binop_out (f : R → R → R) (a b : ndarray) : option ndarray :=
  s ← broadcast_shapes (shape a) (shape b);
  if decide (s = shape a)
  then Some (NdArray s (zip_with f (broadcast_to a s) (broadcast_to b s)))
  else None.

(** A Python scalar enters a ufunc as an array of shape (). *)
Definition scalar_array (x : R) : ndarray := NdArray [] [x].

Definition np_map (f : R → R) (a : ndarray) : ndarray :=
  NdArray (shape a) (f <$> data a).

(** The array of zeros of shape [s]. *)
Definition zeros (s : list nat) : ndarray := NdArray s (replicate (size_of s) 0%R).

(** ** Python values, the store and the evaluation monad *)

(** A reference to an array object. *)
Definition loc := nat.

(** What a variable or a dict entry can hold here: a float (or an int used
    as a real number), a Python int, or a reference to an array. *)
Inductive value :=
  | VNum (x : R)
  | VInt (n : Z)
  | VArr (l : loc).

Inductive exn :=
  | ValueError | KeyError | ZeroDivisionError | AttributeError
  | OverflowError | FloatingPointError.

(** How a piece of code ends.  [OutOfModel] marks the expressions this
    development does not give a meaning to (a power with an exponent that is
    not a Python int, numpy scalar objects, a dangling reference); it is not
    a Python exception. *)
Inductive outcome (A : Type) :=
  | Ok (a : A)
  | Raise (e : exn)
  | OutOfModel.
Arguments Ok {A} a.
Arguments Raise {A} e.
Arguments OutOfModel {A}.

(** The store: the array objects allocated so far, a reference being the
    position of its object. *)
Definition heap := list ndarray.

Definition M (A : Type) : Type := heap → outcome A * heap.

#[global] Instance M_ret : MRet M := λ A a h, (Ok a, h).
#[global] Instance M_bind : MBind M := λ A B f m h,
  match m h with
  | (Ok a, h') => f a h'
  | (Raise e, h') => (Raise e, h')
  | (OutOfModel, h') => (OutOfModel, h')
  end.

Definition raise {A} (e : exn) : M A := λ h, (Raise e, h).
Definition out_of_model {A} : M A := λ h, (OutOfModel, h).

Definition alloc (a : ndarray) : M loc := λ h, (Ok (length h), h ++ [a]).
Definition load (l : loc) : M ndarray := λ h,
  match h !! l with
  | Some a => (Ok a, h)
  | None => (OutOfModel, h)
  end.
Definition store (l : loc) (a : ndarray) : M unit := λ h, (Ok tt, <[l := a]> h).

(** The real number a scalar stands for. *)
Definition num (v : value) : R :=
  match v with
  | VNum x => x
  | VInt n => IZR n
  | VArr _ => 0
  end.

(** The operand of a ufunc as an array. *)
Definition as_array (v : value) : M ndarray :=
  match v with
  | VArr l => load l
  | _ => mret (scalar_array (num v))
  end.

(** A binary ufunc call: a new array, or ValueError. *)
Definition ufunc (f : R → R → R) (a b : value) : M value :=
  x ← as_array a;
  y ← as_array b;
  match np_binop f x y with
  | Some r => l ← alloc r; mret (VArr l)
  | None => raise ValueError
  end.

(** [a + b], [a - b], [a * b]: on two ints an int, on two scalars a float,
    with an array operand the ufunc. *)
Definition arith (fZ : Z → Z → Z) (fR : R → R → R) (a b : value) : M value :=
  match a, b with
  | VInt x, VInt y => mret (VInt (fZ x y))
  | VArr _, _ | _, VArr _ => ufunc fR a b
  | _, _ => mret (VNum (fR (num a) (num b)))
  end.

Definition py_add : value → value → M value := arith Z.add Rplus.
Definition py_sub : value → value → M value := arith Z.sub Rminus.
Definition py_mul : value → value → M value := arith Z.mul Rmult.

(** How numpy treats a floating-point error in an array operation
    ([np.seterr], [np.errstate]).  [Warn] is the default setting: a division
    by zero or an invalid operation ([0 / 0], the square root of a negative
    number) gives [inf] or [nan] and a RuntimeWarning, and the code runs
    on.  [Strict] is [divide='raise', invalid='raise']: the operation raises
    FloatingPointError. *)
Inductive errstate := Warn | Strict.

(** Some element of [l] is zero. *)
Fixpoint any_zero (l : list R) : bool :=
  match l with
  | [] => false
  | d :: l' => if Req_dec_T d 0 then true else any_zero l'
  end.

(** Some element of [l] is negative. *)
Fixpoint any_negative (l : list R) : bool :=
  match l with
  | [] => false
  | y :: l' => if Rlt_dec y 0 then true else any_negative l'
  end.

(** The floating-point error check of an array operation, [bad] telling
    whether some element signals one. *)
Definition fp_check (mode : errstate) (bad : bool) : M unit :=
  match mode with
  | Strict => if bad then raise FloatingPointError else mret ()
  | Warn => mret ()
  end.

(** [a / b]: scalars raise ZeroDivisionError on a zero divisor; with an
    array operand the ufunc divides element by element, and a zero among the
    divisors is a floating-point error. *)
Definition py_truediv_in (mode : errstate) (a b : value) : M value :=
  match a, b with
  | VArr _, _ | _, VArr _ =>
      x ← as_array a;
      y ← as_array b;
      match np_binop Rdiv x y with
      | Some r =>
          _ ← fp_check mode (any_zero (broadcast_to y (shape r)));
          l ← alloc r;
          mret (VArr l)
      | None => raise ValueError
      end
  | _, _ =>
      if Req_dec_T (num b) 0 then raise ZeroDivisionError
      else mret (VNum (num a / num b))
  end.

Definition py_truediv : value → value → M value := py_truediv_in Warn.

(** The least integer that is too large for a float: [2^1024 - 2^970],
    halfway between the largest float and [2^1024].  A number of this
    magnitude or more rounds to infinity. *)
Definition float_overflow : Z := (2 ^ 1024 - 2 ^ 970)%Z.

(** [x ** n] on floats (float_pow of CPython), for an exponent that is an
    integer: ZeroDivisionError on [0.0 ** n] with [n] negative,
    OverflowError when the power is too large for a float. *)
Definition float_pow (x : R) (n : Z) : M value :=
  if Req_dec_T x 0 then
    (if decide (n < 0)%Z then raise ZeroDivisionError
     else mret (VNum (powerRZ x n)))
  else if Rlt_dec (Rabs (powerRZ x n)) (IZR float_overflow)
       then mret (VNum (powerRZ x n))
       else raise OverflowError.

(** [a ** b] for an int exponent.  An int operand of a float power is
    converted to a float first, which raises OverflowError when it is too
    large; an int to a negative int power is a float power; an int to a
    non-negative int power is an int. *)
Definition py_pow (a b : value) : M value :=
  match b with
  | VInt n =>
      match a with
      | VNum x =>
          if decide (Z.abs n < float_overflow)%Z then float_pow x n
          else raise OverflowError
      | VInt k =>
          if decide (n < 0)%Z
          then (if decide (Z.abs k < float_overflow ∧ Z.abs n < float_overflow)%Z
                then float_pow (IZR k) n
                else raise OverflowError)
          else mret (VInt (k ^ n)%Z)
      | VArr l =>
          if decide (- 2 ^ 63 ≤ n < 2 ^ 63)%Z
          then (x ← load l;
                l' ← alloc (np_map (λ y, powerRZ y n) x);
                mret (VArr l'))
          else out_of_model
      end
  | _ => out_of_model
  end.

(** The power [x ** n] of a float and an int is a float: neither error of
    [float_pow] occurs. *)
Definition pow_defined (x : R) (n : Z) : Prop :=
  (Z.abs n < float_overflow)%Z ∧
  ((n < 0)%Z → x ≠ 0%R) ∧
  (Rabs (powerRZ x n) < IZR float_overflow)%R.

(** [w -= x] on an array [w]: the ufunc writes into the object of [w]. *)
Definition np_isub (w : loc) (x : value) : M unit :=
  a ← load w;
  b ← as_array x;
  match np_binop_out Rminus a b with
  | Some r => store w r
  | None => raise ValueError
  end.

(** [np.power(a, n)] for an array [a] and an int literal [n]. *)
Definition np_power (a : loc) (n : Z) : M value :=
  x ← load a;
  l ← alloc (np_map (λ y, powerRZ y n) x);
  mret (VArr l).

(** [np.sqrt(a)]; a negative element is a floating-point error. *)
Definition np_sqrt_in (mode : errstate) (a : value) : M value :=
  match a with
  | VArr l =>
      x ← load l;
      _ ← fp_check mode (any_negative (data x));
      l' ← alloc (np_map sqrt x);
      mret (VArr l')
  | _ => out_of_model
  end.

Definition np_sqrt : value → M value := np_sqrt_in Warn.

(** [np.zeros_like(w)]. *)
Definition np_zeros_like (w : loc) : M value :=
  a ← load w;
  l ← alloc (zeros (shape a));
  mret (VArr l).

(** [v.copy()]: only arrays have the method. *)
Definition ndarray_copy (v : value) : M value :=
  match v with
  | VArr l => a ← load l; l' ← alloc a; mret (VArr l')
  | _ => raise AttributeError
  end.

(** ** The configuration dict *)

Abbreviation dict := (gmap string value).

(** [config.setdefault(k, d)]. *)
Definition setdefault (k : string) (d : value) (config : dict) : dict :=
  match config !! k with
  | Some _ => config
  | None => <[k := d]> config
  end.

(** [config[k]]. *)
Definition getitem (config : dict) (k : string) : M value :=
  match config !! k with
  | Some v => mret v
  | None => raise KeyError
  end.

(** ** The update rules *)

Definition sgd (w dw : loc) (config : option dict) : M (value * dict) :=
  let config := default ∅ config in
  let config := setdefault "learning_rate" (VNum 1e-2) config in
  lr ← getitem config "learning_rate";
  step ← py_mul lr (VArr dw);
  _ ← np_isub w step;
  mret (VArr w, config).

Definition sgd_momentum (w dw : loc) (config : option dict) : M (value * dict) :=
  let config := default ∅ config in
  let config := setdefault "learning_rate" (VNum 1e-2) config in
  let config := setdefault "momentum" (VNum 0.9) config in
  z ← np_zeros_like w;
  let config := setdefault "velocity" z config in
  mu ← getitem config "momentum";
  lr ← getitem config "learning_rate";
  v ← getitem config "velocity";
  a ← py_mul mu v;
  b ← py_mul lr (VArr dw);
  v ← py_sub a b;
  next_w ← py_add (VArr w) v;
  let config := <["velocity" := v]> config in
  mret (next_w, config).

Definition nesterov_momentum (w dw : loc) (config : option dict) : M (value * dict) :=
  let config := default ∅ config in
  let config := setdefault "learning_rate" (VNum 1e-2) config in
  let config := setdefault "momentum" (VNum 0.9) config in
  z ← np_zeros_like w;
  let config := setdefault "velocity" z config in
  mu ← getitem config "momentum";
  lr ← getitem config "learning_rate";
  v ← getitem config "velocity";
  prev_v ← ndarray_copy v;
  a ← py_mul mu prev_v;
  b ← py_mul lr (VArr dw);
  v ← py_sub a b;
  c ← py_mul mu prev_v;
  d ← py_sub (VArr w) c;
  e ← py_add (VInt 1) mu;
  f ← py_mul e v;
  next_w ← py_add d f;
  let config := <["velocity" := v]> config in
  mret (next_w, config).

(** [rmsprop] and [adam] divide and take square roots, so they are given
    under either setting of [errstate]; the names of the source stand for
    the rules under the default setting. *)
Definition rmsprop_in (mode : errstate) (w dw : loc) (config : option dict) :
    M (value * dict) :=
  let config := default ∅ config in
  let config := setdefault "learning_rate" (VNum 1e-2) config in
  let config := setdefault "decay_rate" (VNum 0.99) config in
  let config := setdefault "epsilon" (VNum 1e-8) config in
  z ← np_zeros_like w;
  let config := setdefault "cache" z config in
  eps ← getitem config "epsilon";
  lr ← getitem config "learning_rate";
  beta ← getitem config "decay_rate";
  cache ← getitem config "cache";
  a ← py_mul beta cache;
  b ← py_sub (VInt 1) beta;
  c ← np_power dw 2;
  d ← py_mul b c;
  cache ← py_add a d;
  e ← py_mul lr (VArr dw);
  f ← np_sqrt_in mode cache;
  g ← py_add f eps;
  step ← py_truediv_in mode e g;
  _ ← np_isub w step;
  let next_w := VArr w in
  let config := <["cache" := cache]> config in
  mret (next_w, config).

Definition rmsprop : loc → loc → option dict → M (value * dict) :=
  rmsprop_in Warn.

Definition adam_in (mode : errstate) (w dw : loc) (config : option dict) :
    M (value * dict) :=
  let config := default ∅ config in
  let config := setdefault "learning_rate" (VNum 1e-3) config in
  let config := setdefault "beta1" (VNum 0.9) config in
  let config := setdefault "beta2" (VNum 0.999) config in
  let config := setdefault "epsilon" (VNum 1e-8) config in
  zm ← np_zeros_like w;
  let config := setdefault "m" zm config in
  zv ← np_zeros_like w;
  let config := setdefault "v" zv config in
  let config := setdefault "t" (VInt 1) config in
  lr ← getitem config "learning_rate";
  beta1 ← getitem config "beta1";
  beta2 ← getitem config "beta2";
  m ← getitem config "m";
  v ← getitem config "v";
  t ← getitem config "t";
  eps ← getitem config "epsilon";
  a ← py_mul beta1 m;
  b ← py_sub (VInt 1) beta1;
  c ← py_mul b (VArr dw);
  m ← py_add a c;
  a ← py_mul beta2 v;
  b ← py_sub (VInt 1) beta2;
  c ← np_power dw 2;
  d ← py_mul b c;
  v ← py_add a d;
  p ← py_pow beta1 t;
  q ← py_sub (VInt 1) p;
  mt ← py_truediv_in mode m q;
  p ← py_pow beta2 t;
  q ← py_sub (VInt 1) p;
  vt ← py_truediv_in mode v q;
  e ← py_mul lr mt;
  f ← np_sqrt_in mode vt;
  g ← py_add f eps;
  step ← py_truediv_in mode e g;
  _ ← np_isub w step;
  let next_w := VArr w in
  let config := <["m" := m]> config in
  let config := <["v" := v]> config in
  t' ← getitem config "t";
  t'' ← py_add t' (VInt 1);
  let config := <["t" := t'']> config in
  mret (next_w, config).

Definition adam : loc → loc → option dict → M (value * dict) := adam_in Warn.

(** The configuration a rule works with once its defaults are filled in;
    [z], [zm], [zv] are the arrays [np.zeros_like(w)] has just made. *)

Definition sgd_defaults (config : option dict) : dict :=
  setdefault "learning_rate" (VNum 1e-2) (default ∅ config).

Definition momentum_defaults (z : value) (config : option dict) : dict :=
  setdefault "velocity" z
    (setdefault "momentum" (VNum 0.9)
       (setdefault "learning_rate" (VNum 1e-2) (default ∅ config))).

Definition rmsprop_defaults (z : value) (config : option dict) : dict :=
  setdefault "cache" z
    (setdefault "epsilon" (VNum 1e-8)
       (setdefault "decay_rate" (VNum 0.99)
          (setdefault "learning_rate" (VNum 1e-2) (default ∅ config)))).

Definition adam_defaults (zm zv : value) (config : option dict) : dict :=
  setdefault "t" (VInt 1)
    (setdefault "v" zv
       (setdefault "m" zm
          (setdefault "epsilon" (VNum 1e-8)
             (setdefault "beta2" (VNum 0.999)
                (setdefault "beta1" (VNum 0.9)
                   (setdefault "learning_rate" (VNum 1e-3) (default ∅ config))))))).

(** The hyperparameters a rule documents, with the default each
    [setdefault] gives, and the options that hold its running state. *)
Definition sgd_options : list (string * value) :=
  [("learning_rate", VNum 1e-2)].
Definition momentum_options : list (string * value) :=
  [("learning_rate", VNum 1e-2); ("momentum", VNum 0.9)].
Definition rmsprop_options : list (string * value) :=
  [("learning_rate", VNum 1e-2); ("decay_rate", VNum 0.99);
   ("epsilon", VNum 1e-8)].
Definition adam_options : list (string * value) :=
  [("learning_rate", VNum 1e-3); ("beta1", VNum 0.9); ("beta2", VNum 0.999);
   ("epsilon", VNum 1e-8)].

Definition momentum_state : list string := ["velocity"].
Definition rmsprop_state : list string := ["cache"].
Definition adam_state : list string := ["m"; "v"; "t"].

(** [cfg'] is [cfg] resolved for a rule with hyperparameters [hyper] and
    running state [state]: an option of [cfg] that is not running state is
    in [cfg'] with the value it had; a hyperparameter that [cfg] lacks is in
    [cfg'] with its default; the options of [cfg'] are those of [cfg]
    together with the hyperparameters and the running state. *)
Definition resolves (hyper : list (string * value)) (state : list string)
    (cfg cfg' : dict) : Prop :=
  (∀ k v, k ∉ state → cfg !! k = Some v → cfg' !! k = Some v) ∧
  (∀ k d, (k, d) ∈ hyper → cfg !! k = None → cfg' !! k = Some d) ∧
  dom cfg' = dom cfg ∪ list_to_set (hyper.*1 ++ state).

(** The shapes numpy computes along the array operations of each rule, in
    the order the rule runs them; [None] when one of them cannot broadcast
    its operands.  The arguments are the shapes of [w], of [dw] and of the
    state arrays; the results are the shapes of the state stored and, for
    the rules that build it, of [next_w]. *)

(** The target of an in-place operation is not grown. *)
Definition broadcast_into (sw s : list nat) : option (list nat) :=
  s' ← broadcast_shapes sw s;
  if decide (s' = sw) then Some sw else None.

(** [w -= learning_rate * dw]. *)
Definition sgd_shapes (sw sd : list nat) : option (list nat) :=
  broadcast_into sw sd.

(** [v = mu * v - lr * dw; next_w = w + v]. *)
Definition sgd_momentum_shapes (sw sd sv : list nat) :
    option (list nat * list nat) :=
  v ← broadcast_shapes sv sd;
  n ← broadcast_shapes sw v;
  Some (v, n).

(** [v = mu * prev_v - lr * dw; next_w = w - mu * prev_v + (1 + mu) * v]. *)
Definition nesterov_momentum_shapes (sw sd sv : list nat) :
    option (list nat * list nat) :=
  v ← broadcast_shapes sv sd;
  d ← broadcast_shapes sw sv;
  n ← broadcast_shapes d v;
  Some (v, n).

(** [cache = beta * cache + (1 - beta) * np.power(dw, 2);
     w -= lr * dw / (np.sqrt(cache) + eps)]. *)
Definition rmsprop_shapes (sw sd sc : list nat) : option (list nat) :=
  c ← broadcast_shapes sc sd;
  q ← broadcast_shapes sd c;
  _ ← broadcast_into sw q;
  Some c.

(** [m = beta1 * m + (1 - beta1) * dw;
     v = beta2 * v + (1 - beta2) * np.power(dw, 2);
     w -= lr * mt / (np.sqrt(vt) + eps)], [mt] and [vt] having the shapes
    of [m] and [v]. *)
Definition adam_shapes (sw sd sm sv : list nat) :
    option (list nat * list nat) :=
  m ← broadcast_shapes sm sd;
  v ← broadcast_shapes sv sd;
  q ← broadcast_shapes m v;
  _ ← broadcast_into sw q;
  Some (m, v).

(** The alternative expression for the Nesterov step that the source keeps
    in a comment next to the one it runs:
    [prev_v = v.copy(); v = mu * prev_v - lr * dw;
     next_w = w - lr * dw + mu * v]. *)
Definition nesterov_alternative (w dw : loc) (config : option dict) : M (value * dict) :=
  let config := default ∅ config in
  let config := setdefault "learning_rate" (VNum 1e-2) config in
  let config := setdefault "momentum" (VNum 0.9) config in
  z ← np_zeros_like w;
  let config := setdefault "velocity" z config in
  mu ← getitem config "momentum";
  lr ← getitem config "learning_rate";
  v ← getitem config "velocity";
  prev_v ← ndarray_copy v;
  a ← py_mul mu prev_v;
  b ← py_mul lr (VArr dw);
  v ← py_sub a b;
  c ← py_mul lr (VArr dw);
  d ← py_sub (VArr w) c;
  f ← py_mul mu v;
  next_w ← py_add d f;
  let config := <["velocity" := v]> config in
  mret (next_w, config).

(** ** Binary64 numbers

    The two statements of [adam] that make the bias-corrected first moment,
    [m = beta1 * m + (1 - beta1) * dw] and [mt = m / (1 - beta1 ** t)], on
    one element and with the float64 operations of the machine, to see what
    rounding does to them. *)
Module Float64.

(** [x ** n] by repeated multiplication; for the exponent 1, the only one
    it is used with, this is [x], as with the [pow] of C. *)
Definition pow (x : float) (n : nat) : float :=
  Nat.iter n (PrimFloat.mul x) 1%float.

Definition adam_m (beta1 m dw : float) : float :=
  PrimFloat.add (PrimFloat.mul beta1 m)
    (PrimFloat.mul (PrimFloat.sub 1 beta1) dw).

Definition adam_m_hat (m beta1 : float) (t : nat) : float :=
  PrimFloat.div m (PrimFloat.sub 1 (pow beta1 t)).

End Float64.

(** The store holds at [l] an array of shape [s] with elements [x]. *)
Definition array_at (h : heap) (l : loc) (s : list nat) (x : list R) : Prop :=
  h !! l = Some (NdArray s x) ∧ length x = size_of s.

(** ** What a piece of code may do to the store and how it may end *)

(** Running [m] never ends in a KeyError. *)
Definition no_key_error {A} (m : M A) : Prop :=
  ∀ h, (m h).1 ≠ Raise KeyError.

(** Running [m] only adds objects to the store, however it ends. *)
Definition extends_store {A} (m : M A) : Prop :=
  ∀ h, ∃ k, (m h).2 = h ++ k.

(** Running [m] removes no object and writes to no object that existed
    before, except possibly the one at [w], however it ends. *)
Definition writes_only {A} (w : loc) (m : M A) : Prop :=
  ∀ h, length h ≤ length (m h).2 ∧
       ∀ l a, l ≠ w → h !! l = Some a → (m h).2 !! l = Some a.

(** Running [m] leaves an array at [w] if there was one, and of the same
    shape, however it ends. *)
Definition keeps_shape {A} (w : loc) (m : M A) : Prop :=
  ∀ h a, h !! w = Some a →
         ∃ a', (m h).2 !! w = Some a' ∧ shape a' = shape a.

(** ** Sample inputs

    The parameter [w = [1.0, 2.0]] at reference 0, the gradient
    [dw = [0.1, -0.2]] at reference 1 and two arrays of zeros, for running
    state, at references 2 and 3. *)

Definition sample_heap : heap :=
  [NdArray [2] [1%R; 2%R]; NdArray [2] [0.1%R; (-0.2)%R];
   NdArray [2] [0%R; 0%R]; NdArray [2] [0%R; 0%R]].

(** The same parameter with a gradient of zeros at reference 1. *)
Definition sample_zero_heap : heap :=
  [NdArray [2] [1%R; 2%R]; NdArray [2] [0%R; 0%R]].

(** The same parameter with a gradient that is 0.5 everywhere at
    reference 1 and a cache of zeros at reference 2. *)
Definition sample_const_heap : heap :=
  [NdArray [2] [1%R; 2%R]; NdArray [2] [0.5%R; 0.5%R]; NdArray [2] [0%R; 0%R]].

(** A parameter of shape (2,) at reference 0 and a gradient of shape (1,)
    at reference 1. *)
Definition mismatch_heap : heap :=
  [NdArray [2] [1%R; 2%R]; NdArray [1] [1%R]].

(** A parameter of shape (2,) at reference 0, a gradient of shape (3,) at
    reference 1 and running state of shape (2,) at references 2 and 3. *)
Definition clash_heap : heap :=
  [NdArray [2] [1%R; 2%R]; NdArray [3] [1%R; 1%R; 1%R];
   NdArray [2] [0%R; 0%R]; NdArray [2] [0%R; 0%R]].

(** A parameter and a gradient of shape (2,) at references 0 and 1 and
    running state of shape (2, 2), (1,) and (3,) at references 2, 3
    and 4. *)
Definition odd_state_heap : heap :=
  [NdArray [2] [1%R; 2%R]; NdArray [2] [0.1%R; (-0.2)%R];
   NdArray [2; 2] [0%R; 0%R; 0%R; 0%R]; NdArray [1] [0%R];
   NdArray [3] [0%R; 0%R; 0%R]].

(** The parameter [w = [0.0]] at reference 0 and the gradient
    [dw = [1.0]] at reference 1. *)
Definition unit_heap : heap := [NdArray [1] [0%R]; NdArray [1] [1%R]].

Definition sample_sgd_config : dict :=
  <["learning_rate" := VNum 0.1]> ∅.

Definition sample_momentum_config : dict :=
  <["learning_rate" := VNum 1e-2]>
    (<["momentum" := VNum 0.9]> (<["velocity" := VArr 2]> ∅)).

Definition sample_plain_momentum_config : dict :=
  <["learning_rate" := VNum 1e-2]>
    (<["momentum" := VNum 0]> (<["velocity" := VArr 2]> ∅)).

(** A configuration whose velocity is the number 0.5, not an array. *)
Definition number_velocity_config : dict :=
  <["learning_rate" := VNum 1e-2]>
    (<["momentum" := VNum 0.9]> (<["velocity" := VNum 0.5]> ∅)).

(** Hyperparameters only: no velocity yet. *)
Definition fresh_momentum_config : dict :=
  <["learning_rate" := VNum 1e-2]> (<["momentum" := VNum 0.9]> ∅).

(** A parameter of shape (1,) at reference 0 and a gradient of shape (3,)
    at reference 1. *)
Definition grow_heap : heap :=
  [NdArray [1] [1%R]; NdArray [3] [1%R; 2%R; 3%R]].

(** A momentum and an option of the caller's own, nothing else. *)
Definition partial_momentum_config : dict :=
  <["momentum" := VNum 0.5]> (<["note" := VInt 7]> ∅).

Definition sample_rmsprop_config : dict :=
  <["learning_rate" := VNum 1e-2]>
    (<["decay_rate" := VNum 0.99]>
       (<["epsilon" := VNum 1e-8]> (<["cache" := VArr 2]> ∅))).

(** The cache is the array at reference 3, at reference 4. *)
Definition narrow_cache_config : dict :=
  <["cache" := VArr 3]> sample_rmsprop_config.
Definition clashing_cache_config : dict :=
  <["cache" := VArr 4]> sample_rmsprop_config.

Definition sample_adam_config : dict :=
  <["learning_rate" := VNum 1e-3]>
    (<["beta1" := VNum 0.9]>
       (<["beta2" := VNum 0.999]>
          (<["epsilon" := VNum 1e-8]>
             (<["m" := VArr 2]> (<["v" := VArr 3]> (<["t" := VInt 1]> ∅)))))).

(** A decay rate of 2 and the counter at 2000: [2.0 ** 2000] is too large
    for a float. *)
Definition overflow_adam_config : dict :=
  <["beta1" := VNum 2]> (<["t" := VInt 2000]> sample_adam_config).

(** ** Facts about broadcasting *)

Section Broadcasting.

Lemma size_of_app s1 s2 : size_of (s1 ++ s2) = size_of s1 * size_of s2.
Proof.
  induction s1 as [|d s1 IH]; simpl; [lia|].
  rewrite IH. lia.
Qed.

Lemma size_of_reverse s : size_of (reverse s) = size_of s.
Proof.
  induction s as [|d s IH]; [done|].
  rewrite reverse_cons, size_of_app, IH. simpl. lia.
Qed.

Lemma broadcast_rev_same s : broadcast_rev s s = Some s.
Proof.
  induction s as [|d s IH]; simpl; [done|].
  rewrite decide_True by done. by rewrite IH.
Qed.

Lemma broadcast_shapes_same s : broadcast_shapes s s = Some s.
Proof.
  unfold broadcast_shapes. rewrite broadcast_rev_same. simpl.
  by rewrite reverse_involutive.
Qed.

Lemma broadcast_shapes_scalar_l s : broadcast_shapes [] s = Some s.
Proof.
  unfold broadcast_shapes. simpl. by rewrite reverse_involutive.
Qed.

Lemma broadcast_shapes_scalar_r s : broadcast_shapes s [] = Some s.
Proof.
  unfold broadcast_shapes. rewrite <- (reverse_involutive s) at 2.
  by destruct (reverse s).
Qed.

Lemma src_index_same s i : i < size_of s → src_index s s i = i.
Proof.
  revert i. induction s as [|d s IH]; simpl; intros i Hi; [lia|].
  assert (d ≠ 0) by (intros ->; simpl in Hi; lia).
  rewrite IH.
  - case_decide as Hd.
    + subst d. rewrite Nat.div_1_r. lia.
    + pose proof (Nat.div_mod_eq i d). lia.
  - apply Nat.Div0.div_lt_upper_bound. lia.
Qed.

Lemma src_index_scalar t i : src_index [] t i = 0.
Proof. done. Qed.

Lemma fmap_nth_seq (l : list R) :
  (λ i, nth i l 0%R) <$> seq 0 (length l) = l.
Proof.
  apply list_eq. intros i. rewrite list_lookup_fmap.
  destruct (decide (i < length l)) as [Hi|Hi].
  - rewrite lookup_seq_lt by done. simpl.
    destruct (lookup_lt_is_Some_2 l i Hi) as [x Hx]. rewrite Hx.
    f_equal. by apply nth_lookup_Some with (d := 0%R) in Hx.
  - rewrite lookup_seq_ge by lia. simpl. symmetry. apply lookup_ge_None. lia.
Qed.

Lemma broadcast_to_same a : wf_array a → broadcast_to a (shape a) = data a.
Proof.
  unfold wf_array, broadcast_to. intros Hwf.
  etrans; [|apply fmap_nth_seq]. rewrite Hwf.
  apply list_fmap_ext. intros i j Hj.
  apply lookup_seq in Hj as [-> Hj]. simpl.
  rewrite src_index_same; [done|]. by rewrite size_of_reverse.
Qed.

Lemma broadcast_to_scalar x s : broadcast_to (scalar_array x) s = replicate (size_of s) x.
Proof.
  unfold broadcast_to. simpl.
  generalize (size_of s) 0. intros n. induction n as [|n IH]; intros k; simpl; [done|].
  by rewrite IH.
Qed.

Lemma zip_with_replicate_l (f : R → R → R) x (l : list R) n :
  n = length l → zip_with f (replicate n x) l = f x <$> l.
Proof.
  intros ->. induction l as [|y l IH]; simpl; [done|]. by rewrite IH.
Qed.

Lemma zip_with_replicate_r (f : R → R → R) x (l : list R) n :
  n = length l → zip_with f l (replicate n x) = (λ y, f y x) <$> l.
Proof.
  intros ->. induction l as [|y l IH]; simpl; [done|]. by rewrite IH.
Qed.

(** Operands of one shape: the ufunc is the pointwise operation. *)
Lemma np_binop_same f a b :
  shape b = shape a → wf_array a → wf_array b →
  np_binop f a b = Some (NdArray (shape a) (zip_with f (data a) (data b))).
Proof.
  intros Hs Ha Hb. unfold np_binop. rewrite Hs, broadcast_shapes_same. simpl.
  rewrite broadcast_to_same by done.
  rewrite <- Hs, broadcast_to_same by done. by rewrite Hs.
Qed.

Lemma np_binop_out_same f a b :
  shape b = shape a → wf_array a → wf_array b →
  np_binop_out f a b = Some (NdArray (shape a) (zip_with f (data a) (data b))).
Proof.
  intros Hs Ha Hb. unfold np_binop_out. rewrite Hs, broadcast_shapes_same. simpl.
  rewrite decide_True by done.
  rewrite broadcast_to_same by done.
  rewrite <- Hs, broadcast_to_same by done. by rewrite Hs.
Qed.

(** A scalar operand: the ufunc maps over the array. *)
Lemma np_binop_scalar_l f x b :
  wf_array b → np_binop f (scalar_array x) b = Some (np_map (f x) b).
Proof.
  intros Hb. unfold np_binop.
  change (shape (scalar_array x)) with (@nil nat).
  rewrite broadcast_shapes_scalar_l. simpl.
  rewrite broadcast_to_scalar, broadcast_to_same by done.
  by rewrite zip_with_replicate_l.
Qed.

Lemma np_binop_scalar_r f a x :
  wf_array a → np_binop f a (scalar_array x) = Some (np_map (λ y, f y x) a).
Proof.
  intros Ha. unfold np_binop.
  change (shape (scalar_array x)) with (@nil nat).
  rewrite broadcast_shapes_scalar_r. simpl.
  rewrite broadcast_to_scalar, broadcast_to_same by done.
  by rewrite zip_with_replicate_r.
Qed.

(** Broadcasting on small shapes, as numpy does it. *)

Example broadcast_row_over_matrix : broadcast_shapes [2; 3] [3] = Some [2; 3].
Proof. reflexivity. Qed.

Example broadcast_column_and_row : broadcast_shapes [2; 1] [1; 3] = Some [2; 3].
Proof. reflexivity. Qed.

Example broadcast_clash : broadcast_shapes [2] [3] = None.
Proof. reflexivity. Qed.

Example add_row_to_matrix :
  np_binop Rplus (NdArray [2; 1] [1; 2]%R) (NdArray [3] [10; 20; 30]%R)
  = Some (NdArray [2; 3] [1 + 10; 1 + 20; 1 + 30; 2 + 10; 2 + 20; 2 + 30]%R).
Proof. vm_compute. reflexivity. Qed.

Example out_operand_is_not_grown :
  np_binop_out Rminus (NdArray [1] [1%R]) (NdArray [3] [10; 20; 30]%R) = None.
Proof. reflexivity. Qed.

End Broadcasting.

(** ** Running the primitives *)

Section Steps.

Implicit Types (h : heap) (a b : ndarray) (l : loc) (config : dict).

Lemma bind_ok {A B} (m : M A) (f : A → M B) h x h' :
  m h = (Ok x, h') → (m ≫= f) h = f x h'.
Proof. unfold mbind, M_bind. by intros ->. Qed.

Lemma bind_raise {A B} (m : M A) (f : A → M B) h e h' :
  m h = (Raise e, h') → (m ≫= f) h = (Raise e, h').
Proof. unfold mbind, M_bind. by intros ->. Qed.

Lemma setdefault_present k d config v :
  config !! k = Some v → setdefault k d config = config.
Proof. unfold setdefault. by intros ->. Qed.

Lemma setdefault_absent k d config :
  config !! k = None → setdefault k d config = <[k := d]> config.
Proof. unfold setdefault. by intros ->. Qed.

Lemma getitem_ok config k v h :
  config !! k = Some v → getitem config k h = (Ok v, h).
Proof. unfold getitem. by intros ->. Qed.

Lemma load_ok l a h : h !! l = Some a → load l h = (Ok a, h).
Proof. unfold load. by intros ->. Qed.

Lemma ufunc_ok f (u v : value) x y r h :
  as_array u h = (Ok x, h) → as_array v h = (Ok y, h) →
  np_binop f x y = Some r →
  ufunc f u v h = (Ok (VArr (length h)), h ++ [r]).
Proof.
  intros Hu Hv Hr. unfold ufunc.
  rewrite (bind_ok _ _ _ _ _ Hu), (bind_ok _ _ _ _ _ Hv), Hr. done.
Qed.

Lemma arith_num_arr fZ f x l b h :
  h !! l = Some b → wf_array b →
  arith fZ f (VNum x) (VArr l) h = (Ok (VArr (length h)), h ++ [np_map (f x) b]).
Proof.
  intros Hl Hb. simpl. eapply ufunc_ok; [done|by apply load_ok|].
  by apply np_binop_scalar_l.
Qed.

Lemma arith_arr_num fZ f x l a h :
  h !! l = Some a → wf_array a →
  arith fZ f (VArr l) (VNum x) h
  = (Ok (VArr (length h)), h ++ [np_map (λ y, f y x) a]).
Proof.
  intros Hl Ha. simpl. eapply ufunc_ok; [by apply load_ok|done|].
  by apply np_binop_scalar_r.
Qed.

Lemma arith_arr_arr fZ f l1 l2 a b h :
  h !! l1 = Some a → h !! l2 = Some b →
  shape b = shape a → wf_array a → wf_array b →
  arith fZ f (VArr l1) (VArr l2) h
  = (Ok (VArr (length h)), h ++ [NdArray (shape a) (zip_with f (data a) (data b))]).
Proof.
  intros H1 H2 Hs Ha Hb. simpl. eapply ufunc_ok; [by apply load_ok..|].
  by apply np_binop_same.
Qed.

Lemma fp_check_ok mode bad h :
  (mode = Strict → bad = false) → fp_check mode bad h = (Ok (), h).
Proof. intros Hbad. destruct mode; [done|]. simpl. by rewrite Hbad. Qed.

Lemma fp_check_raise bad h :
  bad = true → fp_check Strict bad h = (Raise FloatingPointError, h).
Proof. by intros ->. Qed.

Lemma any_zero_false (xs : list R) :
  Forall (λ d, d ≠ 0%R) xs → any_zero xs = false.
Proof.
  induction 1 as [|d xs Hd _ IH]; simpl; [done|].
  by destruct (Req_dec_T d 0).
Qed.

Lemma any_zero_true (xs : list R) : 0%R ∈ xs → any_zero xs = true.
Proof.
  induction xs as [|d xs IH]; [by intros ?%elem_of_nil|].
  intros [<-|Hl]%elem_of_cons; simpl; destruct (Req_dec_T _ 0); auto; done.
Qed.

Lemma any_negative_false (xs : list R) :
  Forall (λ y, (0 <= y)%R) xs → any_negative xs = false.
Proof.
  induction 1 as [|y xs Hy _ IH]; simpl; [done|].
  destruct (Rlt_dec y 0); [lra|done].
Qed.

Lemma Forall_replicate_R (P : R → Prop) n x : P x → Forall P (replicate n x).
Proof. intros Hx. induction n; simpl; by constructor. Qed.

(** A division by an array or by a number, the operands of one shape. *)
Lemma truediv_ufunc_ok mode (u v : value) x y r h :
  match u, v with VArr _, _ | _, VArr _ => True | _, _ => False end →
  as_array u h = (Ok x, h) → as_array v h = (Ok y, h) →
  np_binop Rdiv x y = Some r →
  (mode = Strict → any_zero (broadcast_to y (shape r)) = false) →
  py_truediv_in mode u v h = (Ok (VArr (length h)), h ++ [r]).
Proof.
  intros Harr Hu Hv Hr Hz.
  assert (py_truediv_in mode u v
          = (x ← as_array u; y ← as_array v;
             match np_binop Rdiv x y with
             | Some r =>
                 _ ← fp_check mode (any_zero (broadcast_to y (shape r)));
                 l ← alloc r; mret (VArr l)
             | None => raise ValueError
             end)) as ->.
  { by destruct u, v. }
  rewrite (bind_ok _ _ _ _ _ Hu), (bind_ok _ _ _ _ _ Hv), Hr.
  by rewrite (bind_ok _ _ _ _ _ (fp_check_ok _ _ _ Hz)).
Qed.

Lemma truediv_arr_num mode x l a h :
  h !! l = Some a → wf_array a →
  (mode = Strict → x ≠ 0%R) →
  py_truediv_in mode (VArr l) (VNum x) h
  = (Ok (VArr (length h)), h ++ [np_map (λ y, y / x)%R a]).
Proof.
  intros Hl Ha Hx.
  eapply truediv_ufunc_ok; [done|by apply load_ok|done| |].
  - by apply (np_binop_scalar_r Rdiv).
  - intros Hm. cbn [np_map shape]. rewrite broadcast_to_scalar.
    apply any_zero_false, Forall_replicate_R. by apply Hx.
Qed.

Lemma truediv_arr_arr mode l1 l2 a b h :
  h !! l1 = Some a → h !! l2 = Some b →
  shape b = shape a → wf_array a → wf_array b →
  (mode = Strict → Forall (λ d, d ≠ 0%R) (data b)) →
  py_truediv_in mode (VArr l1) (VArr l2) h
  = (Ok (VArr (length h)), h ++ [NdArray (shape a) (zip_with Rdiv (data a) (data b))]).
Proof.
  intros H1 H2 Hs Ha Hb Hz.
  eapply truediv_ufunc_ok; [done|by apply load_ok..| |].
  - by apply np_binop_same.
  - intros Hm. cbn [shape]. rewrite <- Hs, broadcast_to_same by done.
    by apply any_zero_false, Hz.
Qed.

Lemma np_isub_ok w l a b h :
  h !! w = Some a → h !! l = Some b →
  shape b = shape a → wf_array a → wf_array b →
  np_isub w (VArr l) h
  = (Ok (), <[w := NdArray (shape a) (zip_with Rminus (data a) (data b))]> h).
Proof.
  intros Hw Hl Hs Ha Hb. unfold np_isub.
  rewrite (bind_ok _ _ _ _ _ (load_ok _ _ _ Hw)). simpl.
  rewrite (bind_ok _ _ _ _ _ (load_ok _ _ _ Hl)).
  by rewrite np_binop_out_same.
Qed.

Lemma np_power_ok l n a h :
  h !! l = Some a →
  np_power l n h = (Ok (VArr (length h)), h ++ [np_map (λ y, powerRZ y n) a]).
Proof.
  intros Hl. unfold np_power. by rewrite (bind_ok _ _ _ _ _ (load_ok _ _ _ Hl)).
Qed.

Lemma np_sqrt_ok mode l a h :
  h !! l = Some a →
  (mode = Strict → Forall (λ y, (0 <= y)%R) (data a)) →
  np_sqrt_in mode (VArr l) h = (Ok (VArr (length h)), h ++ [np_map sqrt a]).
Proof.
  intros Hl Hpos. simpl. rewrite (bind_ok _ _ _ _ _ (load_ok _ _ _ Hl)).
  rewrite (bind_ok _ _ _ _ _ (fp_check_ok mode _ _
             (λ Hm, any_negative_false _ (Hpos Hm)))).
  done.
Qed.

Lemma np_zeros_like_ok w a h :
  h !! w = Some a →
  np_zeros_like w h = (Ok (VArr (length h)), h ++ [zeros (shape a)]).
Proof.
  intros Hw. unfold np_zeros_like.
  by rewrite (bind_ok _ _ _ _ _ (load_ok _ _ _ Hw)).
Qed.

Lemma ndarray_copy_ok l a h :
  h !! l = Some a →
  ndarray_copy (VArr l) h = (Ok (VArr (length h)), h ++ [a]).
Proof.
  intros Hl. simpl. by rewrite (bind_ok _ _ _ _ _ (load_ok _ _ _ Hl)).
Qed.

Lemma py_pow_ok x n h :
  pow_defined x n →
  py_pow (VNum x) (VInt n) h = (Ok (VNum (powerRZ x n)), h).
Proof.
  intros (Hn & Hx & Hlt). simpl. rewrite decide_True by done.
  unfold float_pow. destruct (Req_dec_T x 0) as [->|Hne].
  - case_decide; [|done]. by destruct Hx.
  - by destruct (Rlt_dec _ _).
Qed.

(** A power that is too large: OverflowError. *)
Lemma py_pow_overflow x n h :
  (Z.abs n < float_overflow)%Z → x ≠ 0%R →
  (IZR float_overflow <= Rabs (powerRZ x n))%R →
  py_pow (VNum x) (VInt n) h = (Raise OverflowError, h).
Proof.
  intros Hn Hx Hge. simpl. rewrite decide_True by done.
  unfold float_pow. destruct (Req_dec_T x 0); [done|].
  destruct (Rlt_dec _ _); [lra|done].
Qed.

Lemma float_overflow_gt_1 : (1 < float_overflow)%Z.
Proof. reflexivity. Qed.

(** Powers of a number between -1 and 1 with an exponent that is not
    negative (and is itself a float) are defined. *)
Lemma pow_defined_unit x n :
  (Rabs x <= 1)%R → (0 ≤ n < float_overflow)%Z → pow_defined x n.
Proof.
  intros Hx [Hn0 Hn]. split_and!.
  - by rewrite Z.abs_eq.
  - lia.
  - apply Rle_lt_trans with 1%R; [|apply (IZR_lt 1), float_overflow_gt_1].
    destruct n as [|p|p]; [|clear Hn|lia]; simpl.
    + rewrite Rabs_R1. lra.
    + rewrite <- RPow_abs. rewrite <- (pow1 (Pos.to_nat p)).
      apply pow_incr. split; [apply Rabs_pos|done].
Qed.

(** Two arrays that cannot be broadcast together: ValueError. *)
Lemma arith_arr_arr_raise fZ f l1 l2 a b h :
  h !! l1 = Some a → h !! l2 = Some b →
  broadcast_shapes (shape a) (shape b) = None →
  arith fZ f (VArr l1) (VArr l2) h = (Raise ValueError, h).
Proof.
  intros H1 H2 Hs. simpl. unfold ufunc.
  rewrite (bind_ok _ _ _ _ _ (load_ok _ _ _ H1)).
  rewrite (bind_ok _ _ _ _ _ (load_ok _ _ _ H2)).
  unfold np_binop. by rewrite Hs.
Qed.

Lemma np_isub_raise w l a b h :
  h !! w = Some a → h !! l = Some b →
  broadcast_shapes (shape a) (shape b) ≠ Some (shape a) →
  np_isub w (VArr l) h = (Raise ValueError, h).
Proof.
  intros Hw Hl Hs. unfold np_isub.
  rewrite (bind_ok _ _ _ _ _ (load_ok _ _ _ Hw)). simpl.
  rewrite (bind_ok _ _ _ _ _ (load_ok _ _ _ Hl)).
  unfold np_binop_out. destruct (broadcast_shapes _ _) as [s|]; simpl; [|done].
  rewrite decide_False; [done|]. by intros ->.
Qed.

(** The in-place subtraction of an array that broadcasts to the target. *)
Lemma np_isub_broadcast w l a b h :
  h !! w = Some a → h !! l = Some b →
  broadcast_shapes (shape a) (shape b) = Some (shape a) →
  np_isub w (VArr l) h
  = (Ok (), <[w := NdArray (shape a)
                 (zip_with Rminus (broadcast_to a (shape a))
                    (broadcast_to b (shape a)))]> h).
Proof.
  intros Hw Hl Hs. unfold np_isub.
  rewrite (bind_ok _ _ _ _ _ (load_ok _ _ _ Hw)). simpl.
  rewrite (bind_ok _ _ _ _ _ (load_ok _ _ _ Hl)).
  unfold np_binop_out. rewrite Hs. simpl. by rewrite decide_True.
Qed.

(** A scalar times an array succeeds whatever the array. *)
Lemma arith_num_arr_any fZ f x l b h :
  h !! l = Some b →
  arith fZ f (VNum x) (VArr l) h
  = (Ok (VArr (length h)),
     h ++ [NdArray (shape b)
             (zip_with f (broadcast_to (scalar_array x) (shape b))
                (broadcast_to b (shape b)))]).
Proof.
  intros Hl. simpl. eapply ufunc_ok; [done|by apply load_ok|].
  unfold np_binop. change (shape (scalar_array x)) with (@nil nat).
  by rewrite broadcast_shapes_scalar_l.
Qed.

End Steps.

(** ** Proof tools: references in a store that has grown *)

Section Store.

Implicit Types (h k : heap) (a : ndarray) (l : loc).

Lemma heap_lookup_old h k l a : h !! l = Some a → (h ++ k) !! l = Some a.
Proof. apply lookup_app_l_Some. Qed.

Lemma heap_lookup_new h k i a :
  k !! i = Some a → (h ++ k) !! (length h + i) = Some a.
Proof. intros Hk. by rewrite lookup_app_r, Nat.add_comm, Nat.add_sub by lia. Qed.

Lemma heap_lookup_new0 h k a : k !! 0 = Some a → (h ++ k) !! length h = Some a.
Proof. intros Hk. by rewrite lookup_app_r, Nat.sub_diag by lia. Qed.

Lemma heap_lookup_pre h k1 k l a :
  (h ++ k1) !! l = Some a → take (length k1) k = k1 → (h ++ k) !! l = Some a.
Proof.
  intros Hl Hk. rewrite <- (take_drop (length k1) k), Hk, app_assoc.
  by apply lookup_app_l_Some.
Qed.

Lemma heap_lookup_store_eq h l a a' :
  h !! l = Some a → <[l := a']> h !! l = Some a'.
Proof. intros Hl. apply list_lookup_insert_eq. by eapply lookup_lt_Some. Qed.

Lemma heap_lookup_store_ne h l l' a a' :
  l ≠ l' → h !! l' = Some a → <[l := a']> h !! l' = Some a.
Proof. intros Hne <-. by apply list_lookup_insert_ne. Qed.

Lemma heap_old_lt h l a : h !! l = Some a → l < length h.
Proof. apply lookup_lt_Some. Qed.

End Store.

Ltac heap_lookup :=
  first
    [ eassumption
    | apply heap_lookup_old; eassumption
    | apply heap_lookup_new0; reflexivity
    | apply heap_lookup_new; reflexivity
    | eapply heap_lookup_pre; [eassumption|reflexivity] ].

Ltac solve_wf :=
  unfold wf_array, np_map, zeros in *; cbn [shape data] in *;
  repeat first
    [ rewrite length_zip_with | rewrite length_fmap | rewrite length_replicate ];
  lia.

Ltac norm_heap :=
  rewrite <- ?app_assoc, ?length_app; unfold np_map;
  cbn [app length shape data num].

(** Run the next statement of a rule with the equation [lem] for it; the
    premises of [lem] come first, the rest of the rule last. *)
Ltac run lem :=
  etrans; [eapply bind_ok; eapply lem|cbv beta zeta; norm_heap].

(** Run a statement that raises, with the equation [lem] for it. *)
Ltac run_raise lem :=
  etrans; [eapply bind_raise; eapply lem|].

(** Run a statement on scalars only. *)
Ltac run_pure :=
  etrans; [eapply bind_ok; reflexivity|cbv beta zeta; cbn [num]].

(** The element at one position of a list built by ufuncs. *)
Ltac list_at :=
  cbn [shape data];
  repeat first
    [ match goal with H : _ !! _ = Some _ |- _ => rewrite H end
    | rewrite lookup_zip_with
    | rewrite list_lookup_fmap ];
  simpl.

Ltac solve_len :=
  try unfold array_at in *; cbn [shape data];
  repeat first
    [ rewrite length_zip_with | rewrite length_fmap | rewrite length_replicate ];
  lia.

Ltac holds_array := split; [heap_lookup|solve_len].

(** The same in a store whose array at [w] has been overwritten; needs
    [w < length h] in the context. *)
Ltac stored_lookup :=
  first
    [ eapply heap_lookup_store_eq; heap_lookup
    | apply heap_lookup_store_ne; [lia|heap_lookup] ].

Ltac holds_stored := split; [stored_lookup|solve_len].

Ltac dom_config := rewrite !dom_insert_L, dom_empty_L; set_solver.

Ltac cfg_lookup :=
  repeat first [rewrite lookup_insert_eq | rewrite lookup_insert_ne by done];
  done.

(** The parts of what a rule returns on an empty configuration. *)
Ltac finish_defaults :=
  first
    [ cfg_lookup
    | dom_config
    | holds_array
    | holds_stored
    | let i := fresh "i" in
      let d := fresh "d" in
      let Hd := fresh "Hd" in
      intros i d Hd;
      rewrite lookup_zip_with, !list_lookup_fmap, lookup_replicate_2, Hd
        by eauto;
      done ].

(** ** Running the rules

    One equation per rule: on arrays of one shape [s] the call returns, and
    the equation gives the value returned, the configuration returned and
    the whole store afterwards, the arrays the call has allocated listed in
    the order of their allocation. *)

Section Runs.

Context (h : heap) (w dw : loc) (config : option dict).
Context (s : list nat) (xw xd : list R).
Hypothesis Hw : h !! w = Some (NdArray s xw).
Hypothesis Hdw : h !! dw = Some (NdArray s xd).
Hypothesis Lw : length xw = size_of s.
Hypothesis Ld : length xd = size_of s.

Lemma sgd_run lr :
  sgd_defaults config !! "learning_rate" = Some (VNum lr) →
  sgd w dw config h
  = (Ok (VArr w, sgd_defaults config),
     <[w := NdArray s (zip_with Rminus xw (Rmult lr <$> xd))]>
       (h ++ [NdArray s (Rmult lr <$> xd)])).
Proof.
  intros Hlr. unfold sgd.
  change (setdefault "learning_rate" _ _) with (sgd_defaults config).
  run getitem_ok; [exact Hlr|].
  unfold py_mul.
  run arith_num_arr; [heap_lookup|solve_wf|].
  run np_isub_ok; [heap_lookup|heap_lookup|done|solve_wf|solve_wf|].
  reflexivity.
Qed.

Lemma sgd_momentum_run lv xv mu lr :
  let cfg := momentum_defaults (VArr (length h)) config in
  (h ++ [zeros s]) !! lv = Some (NdArray s xv) → length xv = size_of s →
  cfg !! "learning_rate" = Some (VNum lr) →
  cfg !! "momentum" = Some (VNum mu) →
  cfg !! "velocity" = Some (VArr lv) →
  let v' := zip_with Rminus (Rmult mu <$> xv) (Rmult lr <$> xd) in
  sgd_momentum w dw config h
  = (Ok (VArr (length h + 4), <["velocity" := VArr (length h + 3)]> cfg),
     h ++ [zeros s; NdArray s (Rmult mu <$> xv); NdArray s (Rmult lr <$> xd);
           NdArray s v'; NdArray s (zip_with Rplus xw v')]).
Proof.
  intros cfg Hlv Lv Hlr Hmu Hv v'. unfold sgd_momentum.
  run np_zeros_like_ok; [heap_lookup|].
  change (setdefault "velocity" _ _) with cfg.
  run getitem_ok; [exact Hmu|].
  run getitem_ok; [exact Hlr|].
  run getitem_ok; [exact Hv|].
  unfold py_mul, py_sub, py_add.
  run arith_num_arr; [heap_lookup|solve_wf|].
  run arith_num_arr; [heap_lookup|solve_wf|].
  run arith_arr_arr; [heap_lookup|heap_lookup|done|solve_wf|solve_wf|].
  run arith_arr_arr; [heap_lookup|heap_lookup|done|solve_wf|solve_wf|].
  reflexivity.
Qed.

Lemma nesterov_momentum_run lv xv mu lr :
  let cfg := momentum_defaults (VArr (length h)) config in
  (h ++ [zeros s]) !! lv = Some (NdArray s xv) → length xv = size_of s →
  cfg !! "learning_rate" = Some (VNum lr) →
  cfg !! "momentum" = Some (VNum mu) →
  cfg !! "velocity" = Some (VArr lv) →
  let v' := zip_with Rminus (Rmult mu <$> xv) (Rmult lr <$> xd) in
  let d := zip_with Rminus xw (Rmult mu <$> xv) in
  let f := Rmult (1 + mu) <$> v' in
  nesterov_momentum w dw config h
  = (Ok (VArr (length h + 8), <["velocity" := VArr (length h + 4)]> cfg),
     h ++ [zeros s; NdArray s xv; NdArray s (Rmult mu <$> xv);
           NdArray s (Rmult lr <$> xd); NdArray s v';
           NdArray s (Rmult mu <$> xv); NdArray s d; NdArray s f;
           NdArray s (zip_with Rplus d f)]).
Proof.
  intros cfg Hlv Lv Hlr Hmu Hv v' d f. unfold nesterov_momentum.
  run np_zeros_like_ok; [heap_lookup|].
  change (setdefault "velocity" _ _) with cfg.
  run getitem_ok; [exact Hmu|].
  run getitem_ok; [exact Hlr|].
  run getitem_ok; [exact Hv|].
  run ndarray_copy_ok; [heap_lookup|].
  unfold py_mul, py_sub, py_add.
  run arith_num_arr; [heap_lookup|solve_wf|].
  run arith_num_arr; [heap_lookup|solve_wf|].
  run arith_arr_arr; [heap_lookup|heap_lookup|done|solve_wf|solve_wf|].
  run arith_num_arr; [heap_lookup|solve_wf|].
  run arith_arr_arr; [heap_lookup|heap_lookup|done|solve_wf|solve_wf|].
  run_pure.
  run arith_num_arr; [heap_lookup|solve_wf|].
  run arith_arr_arr; [heap_lookup|heap_lookup|done|solve_wf|solve_wf|].
  reflexivity.
Qed.

Lemma nesterov_alternative_run lv xv mu lr :
  let cfg := momentum_defaults (VArr (length h)) config in
  (h ++ [zeros s]) !! lv = Some (NdArray s xv) → length xv = size_of s →
  cfg !! "learning_rate" = Some (VNum lr) →
  cfg !! "momentum" = Some (VNum mu) →
  cfg !! "velocity" = Some (VArr lv) →
  let v' := zip_with Rminus (Rmult mu <$> xv) (Rmult lr <$> xd) in
  let d := zip_with Rminus xw (Rmult lr <$> xd) in
  let f := Rmult mu <$> v' in
  nesterov_alternative w dw config h
  = (Ok (VArr (length h + 8), <["velocity" := VArr (length h + 4)]> cfg),
     h ++ [zeros s; NdArray s xv; NdArray s (Rmult mu <$> xv);
           NdArray s (Rmult lr <$> xd); NdArray s v';
           NdArray s (Rmult lr <$> xd); NdArray s d; NdArray s f;
           NdArray s (zip_with Rplus d f)]).
Proof.
  intros cfg Hlv Lv Hlr Hmu Hv v' d f. unfold nesterov_alternative.
  run np_zeros_like_ok; [heap_lookup|].
  change (setdefault "velocity" _ _) with cfg.
  run getitem_ok; [exact Hmu|].
  run getitem_ok; [exact Hlr|].
  run getitem_ok; [exact Hv|].
  run ndarray_copy_ok; [heap_lookup|].
  unfold py_mul, py_sub, py_add.
  run arith_num_arr; [heap_lookup|solve_wf|].
  run arith_num_arr; [heap_lookup|solve_wf|].
  run arith_arr_arr; [heap_lookup|heap_lookup|done|solve_wf|solve_wf|].
  run arith_num_arr; [heap_lookup|solve_wf|].
  run arith_arr_arr; [heap_lookup|heap_lookup|done|solve_wf|solve_wf|].
  run arith_num_arr; [heap_lookup|solve_wf|].
  run arith_arr_arr; [heap_lookup|heap_lookup|done|solve_wf|solve_wf|].
  reflexivity.
Qed.

(** Under [Strict] the call returns when the new cache has no negative
    element and the divisor [sqrt cache + epsilon] no zero. *)
Lemma rmsprop_in_run mode lc xc lr beta eps :
  let cfg := rmsprop_defaults (VArr (length h)) config in
  (h ++ [zeros s]) !! lc = Some (NdArray s xc) → length xc = size_of s →
  cfg !! "learning_rate" = Some (VNum lr) →
  cfg !! "decay_rate" = Some (VNum beta) →
  cfg !! "epsilon" = Some (VNum eps) →
  cfg !! "cache" = Some (VArr lc) →
  let sq := (λ y, powerRZ y 2) <$> xd in
  let c' := zip_with Rplus (Rmult beta <$> xc) (Rmult (1 - beta) <$> sq) in
  let g := (λ y, y + eps)%R <$> (sqrt <$> c') in
  let step := zip_with Rdiv (Rmult lr <$> xd) g in
  (mode = Strict →
   Forall (λ y, (0 <= y)%R) c' ∧ Forall (λ d, d ≠ 0%R) g) →
  rmsprop_in mode w dw config h
  = (Ok (VArr w, <["cache" := VArr (length h + 4)]> cfg),
     <[w := NdArray s (zip_with Rminus xw step)]>
       (h ++ [zeros s; NdArray s (Rmult beta <$> xc); NdArray s sq;
              NdArray s (Rmult (1 - beta) <$> sq); NdArray s c';
              NdArray s (Rmult lr <$> xd); NdArray s (sqrt <$> c');
              NdArray s g; NdArray s step])).
Proof.
  intros cfg Hlc Lc Hlr Hbeta Heps Hc sq c' g step Hfp. unfold rmsprop_in.
  run np_zeros_like_ok; [heap_lookup|].
  change (setdefault "cache" _ _) with cfg.
  run getitem_ok; [exact Heps|].
  run getitem_ok; [exact Hlr|].
  run getitem_ok; [exact Hbeta|].
  run getitem_ok; [exact Hc|].
  unfold py_mul, py_sub, py_add.
  run arith_num_arr; [heap_lookup|solve_wf|].
  run_pure.
  run np_power_ok; [heap_lookup|].
  run arith_num_arr; [heap_lookup|solve_wf|].
  run arith_arr_arr; [heap_lookup|heap_lookup|done|solve_wf|solve_wf|].
  run arith_num_arr; [heap_lookup|solve_wf|].
  run np_sqrt_ok; [heap_lookup|intros Hm; by apply Hfp|].
  run arith_arr_num; [heap_lookup|solve_wf|].
  run truediv_arr_arr;
    [heap_lookup|heap_lookup|done|solve_wf|solve_wf|intros Hm; by apply Hfp|].
  run np_isub_ok; [heap_lookup|heap_lookup|done|solve_wf|solve_wf|].
  reflexivity.
Qed.

Lemma rmsprop_run lc xc lr beta eps :
  let cfg := rmsprop_defaults (VArr (length h)) config in
  (h ++ [zeros s]) !! lc = Some (NdArray s xc) → length xc = size_of s →
  cfg !! "learning_rate" = Some (VNum lr) →
  cfg !! "decay_rate" = Some (VNum beta) →
  cfg !! "epsilon" = Some (VNum eps) →
  cfg !! "cache" = Some (VArr lc) →
  let sq := (λ y, powerRZ y 2) <$> xd in
  let c' := zip_with Rplus (Rmult beta <$> xc) (Rmult (1 - beta) <$> sq) in
  let g := (λ y, y + eps)%R <$> (sqrt <$> c') in
  let step := zip_with Rdiv (Rmult lr <$> xd) g in
  rmsprop w dw config h
  = (Ok (VArr w, <["cache" := VArr (length h + 4)]> cfg),
     <[w := NdArray s (zip_with Rminus xw step)]>
       (h ++ [zeros s; NdArray s (Rmult beta <$> xc); NdArray s sq;
              NdArray s (Rmult (1 - beta) <$> sq); NdArray s c';
              NdArray s (Rmult lr <$> xd); NdArray s (sqrt <$> c');
              NdArray s g; NdArray s step])).
Proof.
  intros cfg Hlc Lc Hlr Hbeta Heps Hc sq c' g step.
  by apply (rmsprop_in_run Warn lc xc).
Qed.

(** Under [Strict] the call returns when, besides, neither bias
    correction [1 - beta^t] is zero. *)
Lemma adam_in_run mode lm xm lv xv lr beta1 beta2 eps t :
  let cfg := adam_defaults (VArr (length h)) (VArr (length h + 1)) config in
  (h ++ [zeros s; zeros s]) !! lm = Some (NdArray s xm) → length xm = size_of s →
  (h ++ [zeros s; zeros s]) !! lv = Some (NdArray s xv) → length xv = size_of s →
  cfg !! "learning_rate" = Some (VNum lr) →
  cfg !! "beta1" = Some (VNum beta1) →
  cfg !! "beta2" = Some (VNum beta2) →
  cfg !! "epsilon" = Some (VNum eps) →
  cfg !! "m" = Some (VArr lm) →
  cfg !! "v" = Some (VArr lv) →
  cfg !! "t" = Some (VInt t) →
  pow_defined beta1 t → pow_defined beta2 t →
  let sq := (λ y, powerRZ y 2) <$> xd in
  let m' := zip_with Rplus (Rmult beta1 <$> xm) (Rmult (1 - beta1) <$> xd) in
  let v' := zip_with Rplus (Rmult beta2 <$> xv) (Rmult (1 - beta2) <$> sq) in
  let mt := (λ y, y / (1 - powerRZ beta1 t))%R <$> m' in
  let vt := (λ y, y / (1 - powerRZ beta2 t))%R <$> v' in
  let g := (λ y, y + eps)%R <$> (sqrt <$> vt) in
  let step := zip_with Rdiv (Rmult lr <$> mt) g in
  (mode = Strict →
   (1 - powerRZ beta1 t)%R ≠ 0%R ∧ (1 - powerRZ beta2 t)%R ≠ 0%R ∧
   Forall (λ y, (0 <= y)%R) vt ∧ Forall (λ d, d ≠ 0%R) g) →
  adam_in mode w dw config h
  = (Ok (VArr w,
         <["t" := VInt (t + 1)]>
           (<["v" := VArr (length h + 8)]> (<["m" := VArr (length h + 4)]> cfg))),
     <[w := NdArray s (zip_with Rminus xw step)]>
       (h ++ [zeros s; zeros s; NdArray s (Rmult beta1 <$> xm);
              NdArray s (Rmult (1 - beta1) <$> xd); NdArray s m';
              NdArray s (Rmult beta2 <$> xv); NdArray s sq;
              NdArray s (Rmult (1 - beta2) <$> sq); NdArray s v';
              NdArray s mt; NdArray s vt; NdArray s (Rmult lr <$> mt);
              NdArray s (sqrt <$> vt); NdArray s g; NdArray s step])).
Proof.
  intros cfg Hlm Lm Hlv Lv Hlr Hb1 Hb2 Heps Hm Hv Ht Hpow1 Hpow2
    sq m' v' mt vt g step Hfp.
  unfold adam_in.
  run np_zeros_like_ok; [heap_lookup|].
  run np_zeros_like_ok; [heap_lookup|].
  change (setdefault "t" _ _) with cfg.
  run getitem_ok; [exact Hlr|].
  run getitem_ok; [exact Hb1|].
  run getitem_ok; [exact Hb2|].
  run getitem_ok; [exact Hm|].
  run getitem_ok; [exact Hv|].
  run getitem_ok; [exact Ht|].
  run getitem_ok; [exact Heps|].
  unfold py_mul, py_sub, py_add.
  run arith_num_arr; [heap_lookup|solve_wf|].
  run_pure.
  run arith_num_arr; [heap_lookup|solve_wf|].
  run arith_arr_arr; [heap_lookup|heap_lookup|done|solve_wf|solve_wf|].
  run arith_num_arr; [heap_lookup|solve_wf|].
  run_pure.
  run np_power_ok; [heap_lookup|].
  run arith_num_arr; [heap_lookup|solve_wf|].
  run arith_arr_arr; [heap_lookup|heap_lookup|done|solve_wf|solve_wf|].
  run py_pow_ok; [exact Hpow1|].
  run_pure.
  run truediv_arr_num; [heap_lookup|solve_wf|intros Hm'; by apply Hfp|].
  run py_pow_ok; [exact Hpow2|].
  run_pure.
  run truediv_arr_num; [heap_lookup|solve_wf|intros Hm'; by apply Hfp|].
  run arith_num_arr; [heap_lookup|solve_wf|].
  run np_sqrt_ok; [heap_lookup|intros Hm'; by apply Hfp|].
  run arith_arr_num; [heap_lookup|solve_wf|].
  run truediv_arr_arr;
    [heap_lookup|heap_lookup|done|solve_wf|solve_wf|intros Hm'; by apply Hfp|].
  run np_isub_ok; [heap_lookup|heap_lookup|done|solve_wf|solve_wf|].
  run getitem_ok; [by rewrite !lookup_insert_ne by done|].
  run_pure.
  reflexivity.
Qed.

Lemma adam_run lm xm lv xv lr beta1 beta2 eps t :
  let cfg := adam_defaults (VArr (length h)) (VArr (length h + 1)) config in
  (h ++ [zeros s; zeros s]) !! lm = Some (NdArray s xm) → length xm = size_of s →
  (h ++ [zeros s; zeros s]) !! lv = Some (NdArray s xv) → length xv = size_of s →
  cfg !! "learning_rate" = Some (VNum lr) →
  cfg !! "beta1" = Some (VNum beta1) →
  cfg !! "beta2" = Some (VNum beta2) →
  cfg !! "epsilon" = Some (VNum eps) →
  cfg !! "m" = Some (VArr lm) →
  cfg !! "v" = Some (VArr lv) →
  cfg !! "t" = Some (VInt t) →
  pow_defined beta1 t → pow_defined beta2 t →
  let sq := (λ y, powerRZ y 2) <$> xd in
  let m' := zip_with Rplus (Rmult beta1 <$> xm) (Rmult (1 - beta1) <$> xd) in
  let v' := zip_with Rplus (Rmult beta2 <$> xv) (Rmult (1 - beta2) <$> sq) in
  let mt := (λ y, y / (1 - powerRZ beta1 t))%R <$> m' in
  let vt := (λ y, y / (1 - powerRZ beta2 t))%R <$> v' in
  let g := (λ y, y + eps)%R <$> (sqrt <$> vt) in
  let step := zip_with Rdiv (Rmult lr <$> mt) g in
  adam w dw config h
  = (Ok (VArr w,
         <["t" := VInt (t + 1)]>
           (<["v" := VArr (length h + 8)]> (<["m" := VArr (length h + 4)]> cfg))),
     <[w := NdArray s (zip_with Rminus xw step)]>
       (h ++ [zeros s; zeros s; NdArray s (Rmult beta1 <$> xm);
              NdArray s (Rmult (1 - beta1) <$> xd); NdArray s m';
              NdArray s (Rmult beta2 <$> xv); NdArray s sq;
              NdArray s (Rmult (1 - beta2) <$> sq); NdArray s v';
              NdArray s mt; NdArray s vt; NdArray s (Rmult lr <$> mt);
              NdArray s (sqrt <$> vt); NdArray s g; NdArray s step])).
Proof.
  intros cfg Hlm Lm Hlv Lv Hlr Hb1 Hb2 Heps Hm Hv Ht Hpow1 Hpow2
    sq m' v' mt vt g step.
  by apply (adam_in_run Warn lm xm lv xv).
Qed.

End Runs.

(** ** Resolved configurations

    A configuration is resolved for a rule when every option of the rule is
    present; filling in the defaults then changes nothing. *)

Section Resolved.

Implicit Types (cfg : dict) (h : heap).

Lemma sgd_defaults_resolved cfg lr :
  cfg !! "learning_rate" = Some lr → sgd_defaults (Some cfg) = cfg.
Proof. intros H. unfold sgd_defaults. simpl. by erewrite setdefault_present. Qed.

Lemma momentum_defaults_resolved z cfg lr mu v :
  cfg !! "learning_rate" = Some lr → cfg !! "momentum" = Some mu →
  cfg !! "velocity" = Some v → momentum_defaults z (Some cfg) = cfg.
Proof.
  intros H1 H2 H3. unfold momentum_defaults. simpl.
  by rewrite (setdefault_present _ _ _ _ H1), (setdefault_present _ _ _ _ H2),
    (setdefault_present _ _ _ _ H3).
Qed.

Lemma rmsprop_defaults_resolved z cfg lr beta eps c :
  cfg !! "learning_rate" = Some lr → cfg !! "decay_rate" = Some beta →
  cfg !! "epsilon" = Some eps → cfg !! "cache" = Some c →
  rmsprop_defaults z (Some cfg) = cfg.
Proof.
  intros H1 H2 H3 H4. unfold rmsprop_defaults. simpl.
  by rewrite (setdefault_present _ _ _ _ H1), (setdefault_present _ _ _ _ H2),
    (setdefault_present _ _ _ _ H3), (setdefault_present _ _ _ _ H4).
Qed.

Lemma adam_defaults_resolved zm zv cfg lr b1 b2 eps m v t :
  cfg !! "learning_rate" = Some lr → cfg !! "beta1" = Some b1 →
  cfg !! "beta2" = Some b2 → cfg !! "epsilon" = Some eps →
  cfg !! "m" = Some m → cfg !! "v" = Some v → cfg !! "t" = Some t →
  adam_defaults zm zv (Some cfg) = cfg.
Proof.
  intros H1 H2 H3 H4 H5 H6 H7. unfold adam_defaults. simpl.
  by rewrite (setdefault_present _ _ _ _ H1), (setdefault_present _ _ _ _ H2),
    (setdefault_present _ _ _ _ H3), (setdefault_present _ _ _ _ H4),
    (setdefault_present _ _ _ _ H5), (setdefault_present _ _ _ _ H6),
    (setdefault_present _ _ _ _ H7).
Qed.

Context (h : heap) (w dw : loc) (cfg : dict) (s : list nat) (xw xd : list R).
Hypothesis Hw : array_at h w s xw.
Hypothesis Hdw : array_at h dw s xd.

Lemma sgd_resolved lr :
  cfg !! "learning_rate" = Some (VNum lr) →
  sgd w dw (Some cfg) h
  = (Ok (VArr w, cfg),
     <[w := NdArray s (zip_with Rminus xw (Rmult lr <$> xd))]>
       (h ++ [NdArray s (Rmult lr <$> xd)])).
Proof.
  intros Hlr. destruct Hw, Hdw.
  pose proof (sgd_defaults_resolved _ _ Hlr) as E.
  erewrite sgd_run; rewrite ?E; done.
Qed.

Lemma sgd_momentum_resolved lv xv mu lr :
  array_at h lv s xv →
  cfg !! "learning_rate" = Some (VNum lr) →
  cfg !! "momentum" = Some (VNum mu) →
  cfg !! "velocity" = Some (VArr lv) →
  let v' := zip_with Rminus (Rmult mu <$> xv) (Rmult lr <$> xd) in
  sgd_momentum w dw (Some cfg) h
  = (Ok (VArr (length h + 4), <["velocity" := VArr (length h + 3)]> cfg),
     h ++ [zeros s; NdArray s (Rmult mu <$> xv); NdArray s (Rmult lr <$> xd);
           NdArray s v'; NdArray s (zip_with Rplus xw v')]).
Proof.
  intros [Hlv Lv] Hlr Hmu Hv v'. destruct Hw, Hdw.
  pose proof (momentum_defaults_resolved (VArr (length h)) _ _ _ _ Hlr Hmu Hv) as E.
  erewrite sgd_momentum_run; rewrite ?E; try done. by apply heap_lookup_old.
Qed.

Lemma nesterov_momentum_resolved lv xv mu lr :
  array_at h lv s xv →
  cfg !! "learning_rate" = Some (VNum lr) →
  cfg !! "momentum" = Some (VNum mu) →
  cfg !! "velocity" = Some (VArr lv) →
  let v' := zip_with Rminus (Rmult mu <$> xv) (Rmult lr <$> xd) in
  let d := zip_with Rminus xw (Rmult mu <$> xv) in
  let f := Rmult (1 + mu) <$> v' in
  nesterov_momentum w dw (Some cfg) h
  = (Ok (VArr (length h + 8), <["velocity" := VArr (length h + 4)]> cfg),
     h ++ [zeros s; NdArray s xv; NdArray s (Rmult mu <$> xv);
           NdArray s (Rmult lr <$> xd); NdArray s v';
           NdArray s (Rmult mu <$> xv); NdArray s d; NdArray s f;
           NdArray s (zip_with Rplus d f)]).
Proof.
  intros [Hlv Lv] Hlr Hmu Hv v' d f. destruct Hw, Hdw.
  pose proof (momentum_defaults_resolved (VArr (length h)) _ _ _ _ Hlr Hmu Hv) as E.
  erewrite nesterov_momentum_run; rewrite ?E; try done. by apply heap_lookup_old.
Qed.

Lemma nesterov_alternative_resolved lv xv mu lr :
  array_at h lv s xv →
  cfg !! "learning_rate" = Some (VNum lr) →
  cfg !! "momentum" = Some (VNum mu) →
  cfg !! "velocity" = Some (VArr lv) →
  let v' := zip_with Rminus (Rmult mu <$> xv) (Rmult lr <$> xd) in
  let d := zip_with Rminus xw (Rmult lr <$> xd) in
  let f := Rmult mu <$> v' in
  nesterov_alternative w dw (Some cfg) h
  = (Ok (VArr (length h + 8), <["velocity" := VArr (length h + 4)]> cfg),
     h ++ [zeros s; NdArray s xv; NdArray s (Rmult mu <$> xv);
           NdArray s (Rmult lr <$> xd); NdArray s v';
           NdArray s (Rmult lr <$> xd); NdArray s d; NdArray s f;
           NdArray s (zip_with Rplus d f)]).
Proof.
  intros [Hlv Lv] Hlr Hmu Hv v' d f. destruct Hw, Hdw.
  pose proof (momentum_defaults_resolved (VArr (length h)) _ _ _ _ Hlr Hmu Hv) as E.
  erewrite nesterov_alternative_run; rewrite ?E; try done. by apply heap_lookup_old.
Qed.

Lemma rmsprop_resolved lc xc lr beta eps :
  array_at h lc s xc →
  cfg !! "learning_rate" = Some (VNum lr) →
  cfg !! "decay_rate" = Some (VNum beta) →
  cfg !! "epsilon" = Some (VNum eps) →
  cfg !! "cache" = Some (VArr lc) →
  let sq := (λ y, powerRZ y 2) <$> xd in
  let c' := zip_with Rplus (Rmult beta <$> xc) (Rmult (1 - beta) <$> sq) in
  let g := (λ y, y + eps)%R <$> (sqrt <$> c') in
  let step := zip_with Rdiv (Rmult lr <$> xd) g in
  rmsprop w dw (Some cfg) h
  = (Ok (VArr w, <["cache" := VArr (length h + 4)]> cfg),
     <[w := NdArray s (zip_with Rminus xw step)]>
       (h ++ [zeros s; NdArray s (Rmult beta <$> xc); NdArray s sq;
              NdArray s (Rmult (1 - beta) <$> sq); NdArray s c';
              NdArray s (Rmult lr <$> xd); NdArray s (sqrt <$> c');
              NdArray s g; NdArray s step])).
Proof.
  intros [Hlc Lc] Hlr Hbeta Heps Hc sq c' g step. destruct Hw, Hdw.
  pose proof (rmsprop_defaults_resolved (VArr (length h)) _ _ _ _ _
                Hlr Hbeta Heps Hc) as E.
  erewrite rmsprop_run; rewrite ?E; try done. by apply heap_lookup_old.
Qed.

Lemma adam_resolved lm xm lv xv lr beta1 beta2 eps t :
  array_at h lm s xm → array_at h lv s xv →
  cfg !! "learning_rate" = Some (VNum lr) →
  cfg !! "beta1" = Some (VNum beta1) →
  cfg !! "beta2" = Some (VNum beta2) →
  cfg !! "epsilon" = Some (VNum eps) →
  cfg !! "m" = Some (VArr lm) →
  cfg !! "v" = Some (VArr lv) →
  cfg !! "t" = Some (VInt t) →
  pow_defined beta1 t → pow_defined beta2 t →
  let sq := (λ y, powerRZ y 2) <$> xd in
  let m' := zip_with Rplus (Rmult beta1 <$> xm) (Rmult (1 - beta1) <$> xd) in
  let v' := zip_with Rplus (Rmult beta2 <$> xv) (Rmult (1 - beta2) <$> sq) in
  let mt := (λ y, y / (1 - powerRZ beta1 t))%R <$> m' in
  let vt := (λ y, y / (1 - powerRZ beta2 t))%R <$> v' in
  let g := (λ y, y + eps)%R <$> (sqrt <$> vt) in
  let step := zip_with Rdiv (Rmult lr <$> mt) g in
  adam w dw (Some cfg) h
  = (Ok (VArr w,
         <["t" := VInt (t + 1)]>
           (<["v" := VArr (length h + 8)]> (<["m" := VArr (length h + 4)]> cfg))),
     <[w := NdArray s (zip_with Rminus xw step)]>
       (h ++ [zeros s; zeros s; NdArray s (Rmult beta1 <$> xm);
              NdArray s (Rmult (1 - beta1) <$> xd); NdArray s m';
              NdArray s (Rmult beta2 <$> xv); NdArray s sq;
              NdArray s (Rmult (1 - beta2) <$> sq); NdArray s v';
              NdArray s mt; NdArray s vt; NdArray s (Rmult lr <$> mt);
              NdArray s (sqrt <$> vt); NdArray s g; NdArray s step])).
Proof.
  intros [Hlm Lm] [Hlv Lv] Hlr Hb1 Hb2 Heps Hm Hv Ht Hpow1 Hpow2.
  destruct Hw, Hdw.
  pose proof (adam_defaults_resolved (VArr (length h)) (VArr (length h + 1))
                _ _ _ _ _ _ _ _ Hlr Hb1 Hb2 Heps Hm Hv Ht) as E.
  cbv zeta.
  erewrite adam_run; rewrite ?E; try done; by apply heap_lookup_old.
Qed.

End Resolved.

(** ** Lists given position by position *)

Section Pointwise.

Lemma list_eq_3 n (xw xv xd l1 l2 : list R) (F1 F2 : R → R → R → R) :
  length xw = n → length xv = n → length xd = n →
  length l1 = n → length l2 = n →
  (∀ i x v d, xw !! i = Some x → xv !! i = Some v → xd !! i = Some d →
              l1 !! i = Some (F1 x v d)) →
  (∀ i x v d, xw !! i = Some x → xv !! i = Some v → xd !! i = Some d →
              l2 !! i = Some (F2 x v d)) →
  (∀ x v d, F1 x v d = F2 x v d) →
  l1 = l2.
Proof.
  intros Lw Lv Ld L1 L2 H1 H2 HF. apply list_eq. intros i.
  destruct (decide (i < n)) as [Hi|Hi].
  - destruct (lookup_lt_is_Some_2 xw i) as [x Hx]; [lia|].
    destruct (lookup_lt_is_Some_2 xv i) as [v Hv]; [lia|].
    destruct (lookup_lt_is_Some_2 xd i) as [d Hd]; [lia|].
    by rewrite (H1 _ _ _ _ Hx Hv Hd), (H2 _ _ _ _ Hx Hv Hd), HF.
  - rewrite !lookup_ge_None_2 by lia. done.
Qed.

(** A list of the length of [x] that at every position holds what [x]
    holds there is [x]. *)
Lemma list_eq_same (x l : list R) :
  length l = length x →
  (∀ i a, x !! i = Some a → l !! i = Some a) → l = x.
Proof.
  intros Hl H. apply list_eq. intros i.
  destruct (x !! i) as [a|] eqn:E; [by apply H|].
  apply lookup_ge_None. apply lookup_ge_None in E. lia.
Qed.

End Pointwise.

(** ** The momentum rules *)

(** C6. [sgd_momentum] on a resolved configuration (learning rate [lr],
    momentum [mu], velocity [v]) and arrays of one shape returns a new array
    [next_w] with [next_w = w + v'] where [v' = mu * v - lr * dw], and the
    velocity it stores in the returned configuration is that same [v']. *)
Theorem sgd_momentum_step h w dw (cfg : dict) s xw xd lv xv mu lr :
  array_at h w s xw → array_at h dw s xd → array_at h lv s xv →
  cfg !! "learning_rate" = Some (VNum lr) →
  cfg !! "momentum" = Some (VNum mu) →
  cfg !! "velocity" = Some (VArr lv) →
  ∃ lw' lv' xw' xv' h',
    sgd_momentum w dw (Some cfg) h
    = (Ok (VArr lw', <["velocity" := VArr lv']> cfg), h') ∧
    array_at h' lv' s xv' ∧ array_at h' lw' s xw' ∧
    (∀ i v d, xv !! i = Some v → xd !! i = Some d →
              xv' !! i = Some (mu * v - lr * d)%R) ∧
    (∀ i x v', xw !! i = Some x → xv' !! i = Some v' →
               xw' !! i = Some (x + v')%R).
Proof.
  intros Hw Hdw Hlv Hlr Hmu Hv.
  eexists _, _, _, _, _. split; [by eapply sgd_momentum_resolved|].
  destruct Hw as [_ Lw], Hdw as [_ Ld], Hlv as [_ Lv].
  split_and!.
  - holds_array.
  - holds_array.
  - intros i v d Hi Hd. by list_at.
  - intros i x v' Hi Hv'. by list_at.
Qed.

Lemma sgd_momentum_step_witness :
  ∃ lw' lv' (xw' xv' : list R) h',
    sgd_momentum 0 1 (Some sample_momentum_config) sample_heap
    = (Ok (VArr lw', <["velocity" := VArr lv']> sample_momentum_config), h') ∧
    xv' !! 0 = Some (0.9 * 0 - 1e-2 * 0.1)%R ∧
    xw' !! 0 = Some (1 + (0.9 * 0 - 1e-2 * 0.1))%R.
Proof.
  destruct (sgd_momentum_step sample_heap 0 1 sample_momentum_config [2]
              [1; 2]%R [0.1; -0.2]%R 2 [0; 0]%R 0.9%R 1e-2%R)
    as (lw' & lv' & xw' & xv' & h' & E & _ & _ & Pv & Pw);
    [split; reflexivity..|reflexivity|reflexivity|reflexivity|].
  exists lw', lv', xw', xv', h'.
  pose proof (Pv 0 0%R 0.1%R eq_refl eq_refl) as Hv0.
  split_and!; [exact E|exact Hv0|exact (Pw 0 1%R _ eq_refl Hv0)].
Defined.

(** C4. [nesterov_momentum] on a resolved configuration takes a snapshot of
    the velocity [v]: a new array object [lp] with the elements of [v],
    different from the velocity object of the caller and from the object
    stored back.  It computes [v' = mu * v_prev - lr * dw] and
    [next_w = w - mu * v_prev + (1 + mu) * v'] and stores [v'] as the new
    velocity; the velocity object of the caller is not written to. *)
Theorem nesterov_momentum_step h w dw (cfg : dict) s xw xd lv xv mu lr :
  array_at h w s xw → array_at h dw s xd → array_at h lv s xv →
  cfg !! "learning_rate" = Some (VNum lr) →
  cfg !! "momentum" = Some (VNum mu) →
  cfg !! "velocity" = Some (VArr lv) →
  ∃ lw' lv' lp xw' xv' h',
    nesterov_momentum w dw (Some cfg) h
    = (Ok (VArr lw', <["velocity" := VArr lv']> cfg), h') ∧
    length h ≤ lp ∧ array_at h' lp s xv ∧ lp ≠ lv ∧ lp ≠ lv' ∧
    array_at h' lv s xv ∧
    array_at h' lv' s xv' ∧ array_at h' lw' s xw' ∧
    (∀ i v d, xv !! i = Some v → xd !! i = Some d →
              xv' !! i = Some (mu * v - lr * d)%R) ∧
    (∀ i x v v', xw !! i = Some x → xv !! i = Some v → xv' !! i = Some v' →
                 xw' !! i = Some (x - mu * v + (1 + mu) * v')%R).
Proof.
  intros Hw Hdw Hlv Hlr Hmu Hv.
  eexists _, _, (length h + 1), _, _, _.
  split; [by eapply nesterov_momentum_resolved|].
  destruct Hw as [Hw' Lw], Hdw as [Hd' Ld], Hlv as [Hlv' Lv].
  pose proof (heap_old_lt _ _ _ Hlv').
  split_and!; try lia.
  - holds_array.
  - holds_array.
  - holds_array.
  - holds_array.
  - intros i v d Hi Hd. by list_at.
  - intros i x v v' Hi Hvi Hv'. by list_at.
Qed.

Lemma nesterov_momentum_step_witness :
  ∃ lw' lv' (xw' xv' : list R) h',
    nesterov_momentum 0 1 (Some sample_momentum_config) sample_heap
    = (Ok (VArr lw', <["velocity" := VArr lv']> sample_momentum_config), h') ∧
    xv' !! 0 = Some (0.9 * 0 - 1e-2 * 0.1)%R ∧
    xw' !! 0 = Some (1 - 0.9 * 0 + (1 + 0.9) * (0.9 * 0 - 1e-2 * 0.1))%R.
Proof.
  destruct (nesterov_momentum_step sample_heap 0 1 sample_momentum_config [2]
              [1; 2]%R [0.1; -0.2]%R 2 [0; 0]%R 0.9%R 1e-2%R)
    as (lw' & lv' & lp & xw' & xv' & h' & E & _ & _ & _ & _ & _ & _ & _ & Pv & Pw);
    [split; reflexivity..|reflexivity|reflexivity|reflexivity|].
  exists lw', lv', xw', xv', h'.
  pose proof (Pv 0 0%R 0.1%R eq_refl eq_refl) as Hv0.
  split_and!; [exact E|exact Hv0|exact (Pw 0 1%R 0%R _ eq_refl eq_refl Hv0)].
Defined.

(** C5. The Nesterov step the source runs and the alternative expression it
    keeps in a comment agree: from one store and one resolved configuration,
    [nesterov_momentum] and [nesterov_alternative] return arrays with the
    same elements and store velocities with the same elements, and
    [next_w = w - lr * dw + mu * v'] for [v' = mu * v_prev - lr * dw]. *)
Theorem nesterov_reformulation h w dw (cfg : dict) s xw xd lv xv mu lr :
  array_at h w s xw → array_at h dw s xd → array_at h lv s xv →
  cfg !! "learning_rate" = Some (VNum lr) →
  cfg !! "momentum" = Some (VNum mu) →
  cfg !! "velocity" = Some (VArr lv) →
  ∃ l1 v1 h1 l2 v2 h2 x1 x2 y1 y2,
    nesterov_momentum w dw (Some cfg) h
    = (Ok (VArr l1, <["velocity" := VArr v1]> cfg), h1) ∧
    nesterov_alternative w dw (Some cfg) h
    = (Ok (VArr l2, <["velocity" := VArr v2]> cfg), h2) ∧
    array_at h1 l1 s x1 ∧ array_at h2 l2 s x2 ∧
    array_at h1 v1 s y1 ∧ array_at h2 v2 s y2 ∧
    x1 = x2 ∧ y1 = y2 ∧
    (∀ i x v d, xw !! i = Some x → xv !! i = Some v → xd !! i = Some d →
                x1 !! i = Some (x - lr * d + mu * (mu * v - lr * d))%R).
Proof.
  intros Hw Hdw Hlv Hlr Hmu Hv.
  eexists _, _, _, _, _, _, _, _, _, _.
  split; [by eapply nesterov_momentum_resolved|].
  split; [by eapply nesterov_alternative_resolved|].
  destruct Hw as [Hw' Lw], Hdw as [Hd' Ld], Hlv as [Hlv' Lv].
  assert (∀ i x v d, xw !! i = Some x → xv !! i = Some v → xd !! i = Some d →
    zip_with Rplus (zip_with Rminus xw (Rmult lr <$> xd))
      (Rmult mu <$> zip_with Rminus (Rmult mu <$> xv) (Rmult lr <$> xd)) !! i
    = Some (x - lr * d + mu * (mu * v - lr * d))%R) as Halt.
  { intros i x v d Hx Hv' Hd. by list_at. }
  assert (zip_with Rplus (zip_with Rminus xw (Rmult mu <$> xv))
            (Rmult (1 + mu) <$> zip_with Rminus (Rmult mu <$> xv) (Rmult lr <$> xd))
          = zip_with Rplus (zip_with Rminus xw (Rmult lr <$> xd))
              (Rmult mu <$> zip_with Rminus (Rmult mu <$> xv) (Rmult lr <$> xd)))
    as Heq.
  { eapply (list_eq_3 (size_of s) xw xv xd _ _
              (λ x v d, x - mu * v + (1 + mu) * (mu * v - lr * d))%R
              (λ x v d, x - lr * d + mu * (mu * v - lr * d))%R);
      [done|done|done|solve_len|solve_len| |exact Halt|intros; simpl; lra].
    intros i x v d Hx Hv' Hd. by list_at. }
  split_and!.
  - holds_array.
  - holds_array.
  - holds_array.
  - holds_array.
  - exact Heq.
  - done.
  - intros i x v d Hx Hv' Hd. rewrite Heq. by apply Halt.
Qed.

Lemma nesterov_reformulation_witness :
  ∃ l2 v2 h2 x2,
    nesterov_alternative 0 1 (Some sample_momentum_config) sample_heap
    = (Ok (VArr l2, <["velocity" := VArr v2]> sample_momentum_config), h2) ∧
    array_at h2 l2 [2] x2 ∧
    x2 !! 0 = Some (1 - 1e-2 * 0.1 + 0.9 * (0.9 * 0 - 1e-2 * 0.1))%R.
Proof.
  destruct (nesterov_reformulation sample_heap 0 1 sample_momentum_config [2]
              [1; 2]%R [0.1; -0.2]%R 2 [0; 0]%R 0.9%R 1e-2%R)
    as (l1 & v1 & h1 & l2 & v2 & h2 & x1 & x2 & y1 & y2
        & _ & E & _ & H2 & _ & _ & Ex & _ & P);
    [split; reflexivity..|reflexivity|reflexivity|reflexivity|].
  exists l2, v2, h2, x2. split_and!; [exact E|exact H2|].
  rewrite <- Ex. exact (P 0 1%R 0%R 0.1%R eq_refl eq_refl eq_refl).
Defined.

(** C7. With momentum 0 both [sgd_momentum] and [nesterov_momentum] return
    an array with the elements [sgd] leaves in [w] for the same learning
    rate, [w - lr * dw], whatever the velocity was. *)
Theorem zero_momentum_is_sgd h w dw (cfg cfg0 : dict) s xw xd lv xv lr :
  array_at h w s xw → array_at h dw s xd → array_at h lv s xv →
  cfg0 !! "learning_rate" = Some (VNum lr) →
  cfg !! "learning_rate" = Some (VNum lr) →
  cfg !! "momentum" = Some (VNum 0) →
  cfg !! "velocity" = Some (VArr lv) →
  ∃ ls cs hs lm cm hm ln cn hn xs xm xn,
    sgd w dw (Some cfg0) h = (Ok (VArr ls, cs), hs) ∧
    sgd_momentum w dw (Some cfg) h = (Ok (VArr lm, cm), hm) ∧
    nesterov_momentum w dw (Some cfg) h = (Ok (VArr ln, cn), hn) ∧
    array_at hs ls s xs ∧ array_at hm lm s xm ∧ array_at hn ln s xn ∧
    xm = xs ∧ xn = xs ∧
    (∀ i x d, xw !! i = Some x → xd !! i = Some d →
              xs !! i = Some (x - lr * d)%R).
Proof.
  intros Hw Hdw Hlv Hlr0 Hlr Hmu Hv.
  eexists _, _, _, _, _, _, _, _, _, _, _, _.
  split; [by eapply sgd_resolved|].
  split; [by eapply sgd_momentum_resolved|].
  split; [by eapply nesterov_momentum_resolved|].
  destruct Hw as [Hw' Lw], Hdw as [Hd' Ld], Hlv as [Hlv' Lv].
  pose proof (heap_old_lt _ _ _ Hw').
  assert (∀ i x v d, xw !! i = Some x → xv !! i = Some v → xd !! i = Some d →
    zip_with Rminus xw (Rmult lr <$> xd) !! i = Some (x - lr * d)%R) as Hs.
  { intros i x v d Hx Hv' Hd. by list_at. }
  split_and!.
  - split; [eapply heap_lookup_store_eq; heap_lookup|solve_len].
  - holds_array.
  - holds_array.
  - eapply (list_eq_3 (size_of s) xw xv xd _ _
              (λ x v d, x + (0 * v - lr * d))%R (λ x v d, x - lr * d)%R);
      [done|done|done|solve_len|solve_len| |exact Hs|intros; simpl; lra].
    intros i x v d Hx Hv' Hd. by list_at.
  - eapply (list_eq_3 (size_of s) xw xv xd _ _
              (λ x v d, x - 0 * v + (1 + 0) * (0 * v - lr * d))%R
              (λ x v d, x - lr * d)%R);
      [done|done|done|solve_len|solve_len| |exact Hs|intros; simpl; lra].
    intros i x v d Hx Hv' Hd. by list_at.
  - intros i x d Hx Hd. by list_at.
Qed.

Lemma zero_momentum_is_sgd_witness :
  ∃ lm cm hm xm,
    sgd_momentum 0 1 (Some sample_plain_momentum_config) sample_heap
    = (Ok (VArr lm, cm), hm) ∧
    array_at hm lm [2] xm ∧ xm !! 0 = Some (1 - 1e-2 * 0.1)%R.
Proof.
  destruct (zero_momentum_is_sgd sample_heap 0 1 sample_plain_momentum_config
              sample_plain_momentum_config [2]
              [1; 2]%R [0.1; -0.2]%R 2 [0; 0]%R 1e-2%R)
    as (ls & cs & hs & lm & cm & hm & ln & cn & hn & xs & xm & xn
        & _ & E & _ & _ & Hm & _ & Em & _ & P);
    [split; reflexivity..|reflexivity|reflexivity|reflexivity|reflexivity|].
  exists lm, cm, hm, xm. split_and!; [exact E|exact Hm|].
  rewrite Em. exact (P 0 1%R 0.1%R eq_refl eq_refl).
Defined.

(** ** RMSProp and Adam *)

Section Replicate.

Lemma zip_with_replicate (f : R → R → R) n x y :
  zip_with f (replicate n x) (replicate n y) = replicate n (f x y).
Proof. induction n as [|n IH]; simpl; [done|]. by rewrite IH. Qed.

End Replicate.

(** C3. [rmsprop] on a resolved configuration (learning rate [lr], decay
    rate [beta], [epsilon], cache [c]) stores the cache
    [c' = beta * c + (1 - beta) * dw^2] and leaves in [w]
    [w - lr * dw / (sqrt c' + epsilon)], epsilon being added to the square
    root.  From a cache of zeros and a gradient that is [g] everywhere the
    stored cache is [(1 - beta) * g^2] everywhere and
    [next_w = w - lr * g / (sqrt ((1 - beta) * g^2) + epsilon)]. *)
Theorem rmsprop_step h w dw (cfg : dict) s xw xd lc xc lr beta eps :
  array_at h w s xw → array_at h dw s xd → array_at h lc s xc →
  cfg !! "learning_rate" = Some (VNum lr) →
  cfg !! "decay_rate" = Some (VNum beta) →
  cfg !! "epsilon" = Some (VNum eps) →
  cfg !! "cache" = Some (VArr lc) →
  ∃ lc' xw' xc' h',
    rmsprop w dw (Some cfg) h
    = (Ok (VArr w, <["cache" := VArr lc']> cfg), h') ∧
    array_at h' lc' s xc' ∧ array_at h' w s xw' ∧
    (∀ i c d, xc !! i = Some c → xd !! i = Some d →
              xc' !! i = Some (beta * c + (1 - beta) * d ^ 2)%R) ∧
    (∀ i x d c', xw !! i = Some x → xd !! i = Some d → xc' !! i = Some c' →
                 xw' !! i = Some (x - lr * d / (sqrt c' + eps))%R) ∧
    (∀ g, xc = replicate (size_of s) 0%R → xd = replicate (size_of s) g →
          xc' = replicate (size_of s) ((1 - beta) * g ^ 2)%R ∧
          ∀ i x, xw !! i = Some x →
                 xw' !! i
                 = Some (x - lr * g / (sqrt ((1 - beta) * g ^ 2) + eps))%R).
Proof.
  intros Hw Hdw Hlc Hlr Hbeta Heps Hc.
  eexists _, _, _, _. split; [by eapply rmsprop_resolved|].
  destruct Hw as [Hw' Lw], Hdw as [Hd' Ld], Hlc as [Hlc' Lc].
  pose proof (heap_old_lt _ _ _ Hw').
  assert (∀ g, xc = replicate (size_of s) 0%R → xd = replicate (size_of s) g →
    zip_with Rplus (Rmult beta <$> xc)
      (Rmult (1 - beta) <$> ((λ y, powerRZ y 2) <$> xd))
    = replicate (size_of s) ((1 - beta) * g ^ 2)%R) as Hconst.
  { intros g -> ->. rewrite !fmap_replicate, zip_with_replicate.
    f_equal. simpl. lra. }
  split_and!.
  - holds_stored.
  - holds_stored.
  - intros i c d Hi Hd. by list_at.
  - intros i x d c' Hx Hd Hc'. by list_at.
  - intros g Ec Ed. split; [by apply Hconst|].
    intros i x Hx. rewrite (Hconst g Ec Ed), Ed.
    assert (i < size_of s) as Hi by (rewrite <- Lw; by eapply lookup_lt_Some).
    rewrite !lookup_zip_with, !list_lookup_fmap, !lookup_replicate_2, Hx by done.
    done.
Qed.

Lemma rmsprop_step_witness :
  ∃ lc' (xw' xc' : list R) h',
    rmsprop 0 1 (Some sample_rmsprop_config) sample_const_heap
    = (Ok (VArr 0, <["cache" := VArr lc']> sample_rmsprop_config), h') ∧
    array_at h' lc' [2] xc' ∧
    xc' = [(1 - 0.99) * 0.5 ^ 2; (1 - 0.99) * 0.5 ^ 2]%R ∧
    xw' !! 0
    = Some (1 - 1e-2 * 0.5 / (sqrt ((1 - 0.99) * 0.5 ^ 2) + 1e-8))%R.
Proof.
  destruct (rmsprop_step sample_const_heap 0 1 sample_rmsprop_config [2]
              [1; 2]%R [0.5; 0.5]%R 2 [0; 0]%R 1e-2%R 0.99%R 1e-8%R)
    as (lc' & xw' & xc' & h' & E & Hc & _ & _ & _ & Pconst);
    [split; reflexivity..|reflexivity|reflexivity|reflexivity|reflexivity|].
  destruct (Pconst 0.5%R eq_refl eq_refl) as [Ec Pw].
  exists lc', xw', xc', h'.
  split_and!; [exact E|exact Hc|exact Ec|exact (Pw 0 1%R eq_refl)].
Defined.

(** C1, as the code has it.  [adam] on a resolved configuration and arrays
    of one shape, when the powers [beta1 ** t] and [beta2 ** t] are defined
    (Python raises ZeroDivisionError on [0.0 ** t] for negative [t] and
    OverflowError on a power too large for a float), computes
    [m' = beta1 * m + (1 - beta1) * dw], [v' = beta2 * v + (1 - beta2) * dw^2]
    and leaves in [w]
    [w - lr * (m' / (1 - beta1^t)) / (sqrt (v' / (1 - beta2^t)) + epsilon)]
    for the counter [t] read from the configuration before it is incremented;
    the returned configuration stores [m'], [v'] and [t + 1].  A second call
    on what the first returns stores [t + 2], so 3 when [t] started at 1.
    On the first step ([t = 1], [m] all zeros) the bias-corrected first
    moment [m_hat], which the call leaves in the store at [lmt], is the
    quotient [(beta1 * 0 + (1 - beta1) * dw) / (1 - beta1^1)] the source
    computes; that it is [dw] is not claimed, see
    [adam_first_moment_not_exact]. *)
Theorem adam_step h w dw (cfg : dict) s xw xd lm xm lv xv lr beta1 beta2 eps t :
  array_at h w s xw → array_at h dw s xd →
  array_at h lm s xm → array_at h lv s xv →
  cfg !! "learning_rate" = Some (VNum lr) →
  cfg !! "beta1" = Some (VNum beta1) →
  cfg !! "beta2" = Some (VNum beta2) →
  cfg !! "epsilon" = Some (VNum eps) →
  cfg !! "m" = Some (VArr lm) →
  cfg !! "v" = Some (VArr lv) →
  cfg !! "t" = Some (VInt t) →
  pow_defined beta1 t → pow_defined beta2 t →
  ∃ lm' lv' lmt xw' xm' xv' xmt cfg' h',
    adam w dw (Some cfg) h = (Ok (VArr w, cfg'), h') ∧
    cfg' = <["t" := VInt (t + 1)]>
             (<["v" := VArr lv']> (<["m" := VArr lm']> cfg)) ∧
    array_at h' lm' s xm' ∧ array_at h' lv' s xv' ∧
    array_at h' lmt s xmt ∧ array_at h' w s xw' ∧
    (∀ i m d, xm !! i = Some m → xd !! i = Some d →
              xm' !! i = Some (beta1 * m + (1 - beta1) * d)%R) ∧
    (∀ i v d, xv !! i = Some v → xd !! i = Some d →
              xv' !! i = Some (beta2 * v + (1 - beta2) * d ^ 2)%R) ∧
    (∀ i m', xm' !! i = Some m' →
             xmt !! i = Some (m' / (1 - powerRZ beta1 t))%R) ∧
    (∀ i x m' v', xw !! i = Some x → xm' !! i = Some m' → xv' !! i = Some v' →
                  xw' !! i
                  = Some (x - lr * (m' / (1 - powerRZ beta1 t))
                              / (sqrt (v' / (1 - powerRZ beta2 t)) + eps))%R) ∧
    (pow_defined beta1 (t + 1) → pow_defined beta2 (t + 1) →
     ∃ cfg'' h'',
        adam w dw (Some cfg') h' = (Ok (VArr w, cfg''), h'') ∧
        cfg'' !! "t" = Some (VInt (t + 2)) ∧
        (t = 1%Z → cfg'' !! "t" = Some (VInt 3))) ∧
    (t = 1%Z → xm = replicate (size_of s) 0%R →
     ∀ i d, xd !! i = Some d →
            xmt !! i
            = Some ((beta1 * 0 + (1 - beta1) * d) / (1 - powerRZ beta1 1))%R).
Proof.
  intros Hw Hdw Hlm Hlv Hlr Hb1 Hb2 Heps Hm Hv Ht Hpow1 Hpow2.
  eexists _, _, (length h + 9), _, _, _, _, _, _.
  split;
    [by eapply (adam_resolved h w dw cfg s xw xd Hw Hdw lm xm lv xv
                  lr beta1 beta2 eps t)|].
  split; [reflexivity|].
  destruct Hw as [Hw' Lw], Hdw as [Hd' Ld], Hlm as [Hlm' Lm], Hlv as [Hlv' Lv].
  pose proof (heap_old_lt _ _ _ Hw').
  pose proof (heap_old_lt _ _ _ Hd').
  split_and!.
  - holds_stored.
  - holds_stored.
  - holds_stored.
  - holds_stored.
  - intros i m d Hi Hd. by list_at.
  - intros i v d Hi Hd. by list_at.
  - intros i m' Hm'. by list_at.
  - intros i x m' v' Hx Hm' Hv'. by list_at.
  - intros Hnext1 Hnext2.
    match goal with |- context [adam w dw _ ?H] =>
      assert (∃ xd', array_at H dw s xd') as [xd' Hd2]
    end.
    { destruct (decide (dw = w)) as [->|Hne].
      - eexists. holds_stored.
      - exists xd. holds_stored. }
    eexists _, _. split.
    + eapply adam_resolved with
        (s := s) (xd := xd') (lm := length h + 4) (lv := length h + 8)
        (lr := lr) (beta1 := beta1) (beta2 := beta2) (eps := eps) (t := (t + 1)%Z);
        [holds_stored|exact Hd2|holds_stored|holds_stored|cfg_lookup..
        |exact Hnext1|exact Hnext2].
    + rewrite lookup_insert_eq. split; [f_equal; f_equal; lia|].
      intros ->. done.
  - intros -> -> i d Hd.
    assert (i < size_of s) as Hi by (rewrite <- Ld; by eapply lookup_lt_Some).
    rewrite !list_lookup_fmap, lookup_zip_with, !list_lookup_fmap,
      lookup_replicate_2, Hd by done.
    done.
Qed.

Lemma adam_step_witness :
  ∃ cfg' h' lmt (xmt : list R) cfg'' h'',
    adam 0 1 (Some sample_adam_config) sample_heap = (Ok (VArr 0, cfg'), h') ∧
    array_at h' lmt [2] xmt ∧
    xmt !! 0 = Some ((0.9 * 0 + (1 - 0.9) * 0.1) / (1 - powerRZ 0.9 1))%R ∧
    adam 0 1 (Some cfg') h' = (Ok (VArr 0, cfg''), h'') ∧
    cfg'' !! "t" = Some (VInt 3).
Proof.
  assert (∀ x n, (0 <= x <= 1)%R → (0 ≤ n < 3)%Z → pow_defined x n) as Hpow.
  { intros x n Hx Hn. apply pow_defined_unit.
    - apply Rabs_le. lra.
    - split; [lia|]. apply Z.lt_trans with 3%Z; [lia|reflexivity]. }
  destruct (adam_step sample_heap 0 1 sample_adam_config [2]
              [1; 2]%R [0.1; -0.2]%R 2 [0; 0]%R 3 [0; 0]%R
              1e-3%R 0.9%R 0.999%R 1e-8%R 1%Z)
    as (lm' & lv' & lmt & xw' & xm' & xv' & xmt & cfg' & h' & E & _ & _ & _
        & Hmt & _ & _ & _ & _ & _ & Hsecond & Hfirst);
    [split; reflexivity..|reflexivity|reflexivity|reflexivity|reflexivity
    |reflexivity|reflexivity|reflexivity|apply Hpow; [lra|lia]
    |apply Hpow; [lra|lia]|].
  destruct Hsecond as (cfg'' & h'' & E2 & _ & Ht);
    [apply Hpow; [lra|lia]|apply Hpow; [lra|lia]|].
  exists cfg', h', lmt, xmt, cfg'', h''.
  split_and!;
    [exact E|exact Hmt|exact (Hfirst eq_refl eq_refl 0 0.1%R eq_refl)
    |exact E2|exact (Ht eq_refl)].
Defined.

(** C1 as stated fails in the arithmetic the code runs in: on binary64
    numbers the first-step [m_hat] for [beta1 = 0.9], [m = 0] and
    [dw = 6.888437030500963] is [6.888437030500962], not [dw]. *)
Lemma adam_first_moment_not_exact :
  PrimFloat.eqb
    (Float64.adam_m_hat (Float64.adam_m 0.9 0 6.888437030500963) 0.9 1)
    6.888437030500963 = false ∧
  PrimFloat.eqb
    (Float64.adam_m_hat (Float64.adam_m 0.9 0 6.888437030500963) 0.9 1)
    6.888437030500962 = true.
Proof. split; reflexivity. Qed.

(** ** What a call does to the array of the caller *)

(** C10. [sgd], [rmsprop] and [adam] return the reference [w] they were
    given, and the array at [w] holds the updated elements afterwards
    ([adam] when the powers [beta1 ** t] and [beta2 ** t] are defined; when
    one is not, [adam] raises and leaves [w] as it was, see
    [adam_overflow]).  [sgd_momentum] and [nesterov_momentum] return a
    reference that did not exist before the call, and the array at [w]
    holds the elements it had before. *)
Theorem in_place_or_fresh :
  (∀ h w dw (cfg : dict) s xw xd lr,
     array_at h w s xw → array_at h dw s xd →
     cfg !! "learning_rate" = Some (VNum lr) →
     ∃ cfg' xw' h',
       sgd w dw (Some cfg) h = (Ok (VArr w, cfg'), h') ∧
       array_at h' w s xw' ∧
       ∀ i x d, xw !! i = Some x → xd !! i = Some d →
                xw' !! i = Some (x - lr * d)%R) ∧
  (∀ h w dw (cfg : dict) s xw xd lc xc lr beta eps,
     array_at h w s xw → array_at h dw s xd → array_at h lc s xc →
     cfg !! "learning_rate" = Some (VNum lr) →
     cfg !! "decay_rate" = Some (VNum beta) →
     cfg !! "epsilon" = Some (VNum eps) →
     cfg !! "cache" = Some (VArr lc) →
     ∃ cfg' xw' h',
       rmsprop w dw (Some cfg) h = (Ok (VArr w, cfg'), h') ∧
       array_at h' w s xw' ∧
       ∀ i x d c, xw !! i = Some x → xd !! i = Some d → xc !! i = Some c →
                  xw' !! i
                  = Some (x - lr * d
                              / (sqrt (beta * c + (1 - beta) * d ^ 2) + eps))%R) ∧
  (∀ h w dw (cfg : dict) s xw xd lm xm lv xv lr beta1 beta2 eps t,
     array_at h w s xw → array_at h dw s xd →
     array_at h lm s xm → array_at h lv s xv →
     cfg !! "learning_rate" = Some (VNum lr) →
     cfg !! "beta1" = Some (VNum beta1) →
     cfg !! "beta2" = Some (VNum beta2) →
     cfg !! "epsilon" = Some (VNum eps) →
     cfg !! "m" = Some (VArr lm) →
     cfg !! "v" = Some (VArr lv) →
     cfg !! "t" = Some (VInt t) →
     pow_defined beta1 t → pow_defined beta2 t →
     ∃ cfg' xw' h',
       adam w dw (Some cfg) h = (Ok (VArr w, cfg'), h') ∧
       array_at h' w s xw' ∧
       ∀ i x d m v, xw !! i = Some x → xd !! i = Some d →
                    xm !! i = Some m → xv !! i = Some v →
                    xw' !! i
                    = Some (x - lr * ((beta1 * m + (1 - beta1) * d)
                                      / (1 - powerRZ beta1 t))
                                / (sqrt ((beta2 * v + (1 - beta2) * d ^ 2)
                                         / (1 - powerRZ beta2 t)) + eps))%R) ∧
  (∀ h w dw (cfg : dict) s xw xd lv xv mu lr,
     array_at h w s xw → array_at h dw s xd → array_at h lv s xv →
     cfg !! "learning_rate" = Some (VNum lr) →
     cfg !! "momentum" = Some (VNum mu) →
     cfg !! "velocity" = Some (VArr lv) →
     ∃ lw' cfg' xw' h',
       sgd_momentum w dw (Some cfg) h = (Ok (VArr lw', cfg'), h') ∧
       length h ≤ lw' ∧ lw' ≠ w ∧
       array_at h' w s xw ∧ array_at h' lw' s xw' ∧
       ∀ i x d v, xw !! i = Some x → xd !! i = Some d → xv !! i = Some v →
                  xw' !! i = Some (x + (mu * v - lr * d))%R) ∧
  (∀ h w dw (cfg : dict) s xw xd lv xv mu lr,
     array_at h w s xw → array_at h dw s xd → array_at h lv s xv →
     cfg !! "learning_rate" = Some (VNum lr) →
     cfg !! "momentum" = Some (VNum mu) →
     cfg !! "velocity" = Some (VArr lv) →
     ∃ lw' cfg' xw' h',
       nesterov_momentum w dw (Some cfg) h = (Ok (VArr lw', cfg'), h') ∧
       length h ≤ lw' ∧ lw' ≠ w ∧
       array_at h' w s xw ∧ array_at h' lw' s xw' ∧
       ∀ i x d v, xw !! i = Some x → xd !! i = Some d → xv !! i = Some v →
                  xw' !! i
                  = Some (x - mu * v + (1 + mu) * (mu * v - lr * d))%R).
Proof.
  split_and!.
  - intros h w dw cfg s xw xd lr Hw Hdw Hlr.
    eexists _, _, _. split; [by eapply sgd_resolved|].
    destruct Hw as [Hw' Lw], Hdw as [Hd' Ld].
    pose proof (heap_old_lt _ _ _ Hw').
    split; [holds_stored|]. intros i x d Hx Hd. by list_at.
  - intros h w dw cfg s xw xd lc xc lr beta eps Hw Hdw Hlc Hlr Hb He Hc.
    eexists _, _, _. split; [by eapply rmsprop_resolved|].
    destruct Hw as [Hw' Lw], Hdw as [Hd' Ld], Hlc as [Hlc' Lc].
    pose proof (heap_old_lt _ _ _ Hw').
    split; [holds_stored|]. intros i x d c Hx Hd Hci. by list_at.
  - intros h w dw cfg s xw xd lm xm lv xv lr beta1 beta2 eps t
      Hw Hdw Hlm Hlv Hlr Hb1 Hb2 He Hm Hv Ht Hpow1 Hpow2.
    eexists _, _, _.
    split;
      [by eapply (adam_resolved h w dw cfg s xw xd Hw Hdw lm xm lv xv
                    lr beta1 beta2 eps t)|].
    destruct Hw as [Hw' Lw], Hdw as [Hd' Ld], Hlm as [Hlm' Lm], Hlv as [Hlv' Lv].
    pose proof (heap_old_lt _ _ _ Hw').
    split; [holds_stored|]. intros i x d m v Hx Hd Hmi Hvi. by list_at.
  - intros h w dw cfg s xw xd lv xv mu lr Hw Hdw Hlv Hlr Hmu Hv.
    eexists _, _, _, _. split; [by eapply sgd_momentum_resolved|].
    destruct Hw as [Hw' Lw], Hdw as [Hd' Ld], Hlv as [Hlv' Lv].
    pose proof (heap_old_lt _ _ _ Hw').
    split_and!; [lia|lia|holds_array|holds_array|].
    intros i x d v Hx Hd Hvi. by list_at.
  - intros h w dw cfg s xw xd lv xv mu lr Hw Hdw Hlv Hlr Hmu Hv.
    eexists _, _, _, _. split; [by eapply nesterov_momentum_resolved|].
    destruct Hw as [Hw' Lw], Hdw as [Hd' Ld], Hlv as [Hlv' Lv].
    pose proof (heap_old_lt _ _ _ Hw').
    split_and!; [lia|lia|holds_array|holds_array|].
    intros i x d v Hx Hd Hvi. by list_at.
Qed.

Lemma in_place_or_fresh_witness :
  (∃ cfg' xw' h',
      sgd 0 1 (Some sample_sgd_config) sample_heap = (Ok (VArr 0, cfg'), h') ∧
      array_at h' 0 [2] xw' ∧ xw' !! 0 = Some (1 - 0.1 * 0.1)%R) ∧
  (∃ cfg' xw' h',
      rmsprop 0 1 (Some sample_rmsprop_config) sample_heap
      = (Ok (VArr 0, cfg'), h') ∧
      array_at h' 0 [2] xw' ∧
      xw' !! 0
      = Some (1 - 1e-2 * 0.1
                  / (sqrt (0.99 * 0 + (1 - 0.99) * 0.1 ^ 2) + 1e-8))%R) ∧
  (∃ cfg' xw' h',
      adam 0 1 (Some sample_adam_config) sample_heap = (Ok (VArr 0, cfg'), h') ∧
      array_at h' 0 [2] xw' ∧
      xw' !! 0
      = Some (1 - 1e-3 * ((0.9 * 0 + (1 - 0.9) * 0.1) / (1 - powerRZ 0.9 1))
                  / (sqrt ((0.999 * 0 + (1 - 0.999) * 0.1 ^ 2)
                           / (1 - powerRZ 0.999 1)) + 1e-8))%R) ∧
  (∃ lw' cfg' xw' h',
      sgd_momentum 0 1 (Some sample_momentum_config) sample_heap
      = (Ok (VArr lw', cfg'), h') ∧
      lw' ≠ 0 ∧ array_at h' 0 [2] [1; 2]%R ∧ array_at h' lw' [2] xw' ∧
      xw' !! 0 = Some (1 + (0.9 * 0 - 1e-2 * 0.1))%R) ∧
  (∃ lw' cfg' xw' h',
      nesterov_momentum 0 1 (Some sample_momentum_config) sample_heap
      = (Ok (VArr lw', cfg'), h') ∧
      lw' ≠ 0 ∧ array_at h' 0 [2] [1; 2]%R ∧ array_at h' lw' [2] xw' ∧
      xw' !! 0
      = Some (1 - 0.9 * 0 + (1 + 0.9) * (0.9 * 0 - 1e-2 * 0.1))%R).
Proof.
  destruct in_place_or_fresh as (Hsgd & Hrms & Hadam & Hmom & Hnes).
  split_and!.
  - destruct (Hsgd sample_heap 0 1 sample_sgd_config [2]
                [1; 2]%R [0.1; -0.2]%R 0.1%R)
      as (cfg' & xw' & h' & E & Hw & P); [split; reflexivity..|reflexivity|].
    exists cfg', xw', h'.
    split_and!; [exact E|exact Hw|exact (P 0 1%R 0.1%R eq_refl eq_refl)].
  - destruct (Hrms sample_heap 0 1 sample_rmsprop_config [2]
                [1; 2]%R [0.1; -0.2]%R 2 [0; 0]%R 1e-2%R 0.99%R 1e-8%R)
      as (cfg' & xw' & h' & E & Hw & P);
      [split; reflexivity..|reflexivity|reflexivity|reflexivity|reflexivity|].
    exists cfg', xw', h'.
    split_and!;
      [exact E|exact Hw|exact (P 0 1%R 0.1%R 0%R eq_refl eq_refl eq_refl)].
  - destruct (Hadam sample_heap 0 1 sample_adam_config [2]
                [1; 2]%R [0.1; -0.2]%R 2 [0; 0]%R 3 [0; 0]%R
                1e-3%R 0.9%R 0.999%R 1e-8%R 1%Z)
      as (cfg' & xw' & h' & E & Hw & P);
      [split; reflexivity..|reflexivity|reflexivity|reflexivity|reflexivity
      |reflexivity|reflexivity|reflexivity
      |apply pow_defined_unit; [apply Rabs_le; lra|done]
      |apply pow_defined_unit; [apply Rabs_le; lra|done]|].
    exists cfg', xw', h'.
    split_and!;
      [exact E|exact Hw
      |exact (P 0 1%R 0.1%R 0%R 0%R eq_refl eq_refl eq_refl eq_refl)].
  - destruct (Hmom sample_heap 0 1 sample_momentum_config [2]
                [1; 2]%R [0.1; -0.2]%R 2 [0; 0]%R 0.9%R 1e-2%R)
      as (lw' & cfg' & xw' & h' & E & _ & Hne & Hw & Hn & P);
      [split; reflexivity..|reflexivity|reflexivity|reflexivity|].
    exists lw', cfg', xw', h'.
    split_and!;
      [exact E|exact Hne|exact Hw|exact Hn
      |exact (P 0 1%R 0.1%R 0%R eq_refl eq_refl eq_refl)].
  - destruct (Hnes sample_heap 0 1 sample_momentum_config [2]
                [1; 2]%R [0.1; -0.2]%R 2 [0; 0]%R 0.9%R 1e-2%R)
      as (lw' & cfg' & xw' & h' & E & _ & Hne & Hw & Hn & P);
      [split; reflexivity..|reflexivity|reflexivity|reflexivity|].
    exists lw', cfg', xw', h'.
    split_and!;
      [exact E|exact Hne|exact Hw|exact Hn
      |exact (P 0 1%R 0.1%R 0%R eq_refl eq_refl eq_refl)].
Defined.

(** [adam] with [beta1 = 2.0] and [t = 2000]: the power [beta1 ** t] is
    too large for a float, the call ends in OverflowError, and the array at
    [w] is the one it was. *)
Example adam_overflow :
  ∃ h', adam 0 1 (Some overflow_adam_config) sample_heap
        = (Raise OverflowError, h') ∧
        h' !! 0 = Some (NdArray [2] [1; 2]%R).
Proof.
  eexists. split.
  - set (cfg := overflow_adam_config).
    assert (cfg !! "learning_rate" = Some (VNum 1e-3)) as Hlr by reflexivity.
    assert (cfg !! "beta1" = Some (VNum 2)) as Hb1 by reflexivity.
    assert (cfg !! "beta2" = Some (VNum 0.999)) as Hb2 by reflexivity.
    assert (cfg !! "epsilon" = Some (VNum 1e-8)) as He by reflexivity.
    assert (cfg !! "m" = Some (VArr 2)) as Hm by reflexivity.
    assert (cfg !! "v" = Some (VArr 3)) as Hv by reflexivity.
    assert (cfg !! "t" = Some (VInt 2000)) as Ht by reflexivity.
    clearbody cfg. unfold adam, adam_in. simpl default.
    rewrite (setdefault_present _ _ _ _ Hlr), (setdefault_present _ _ _ _ Hb1),
      (setdefault_present _ _ _ _ Hb2), (setdefault_present _ _ _ _ He).
    run np_zeros_like_ok; [reflexivity|].
    rewrite (setdefault_present _ _ _ _ Hm).
    run np_zeros_like_ok; [reflexivity|].
    rewrite (setdefault_present _ _ _ _ Hv), (setdefault_present _ _ _ _ Ht).
    run getitem_ok; [exact Hlr|].
    run getitem_ok; [exact Hb1|].
    run getitem_ok; [exact Hb2|].
    run getitem_ok; [exact Hm|].
    run getitem_ok; [exact Hv|].
    run getitem_ok; [exact Ht|].
    run getitem_ok; [exact He|].
    unfold py_mul, py_sub, py_add.
    run arith_num_arr; [reflexivity|reflexivity|].
    run_pure.
    run arith_num_arr; [reflexivity|reflexivity|].
    run arith_arr_arr; [reflexivity|reflexivity|done|reflexivity|reflexivity|].
    run arith_num_arr; [reflexivity|reflexivity|].
    run_pure.
    run np_power_ok; [reflexivity|].
    run arith_num_arr; [reflexivity|reflexivity|].
    run arith_arr_arr; [reflexivity|reflexivity|done|reflexivity|reflexivity|].
    eapply bind_raise. apply py_pow_overflow; [done|lra|].
    change 2000%Z with (Z.of_nat 2000).
    rewrite <- pow_powerRZ, pow_IZR, <- abs_IZR.
    apply IZR_le. vm_compute. discriminate.
  - reflexivity.
Qed.

(** ** A gradient of zeros *)

Section ZeroGradient.

Lemma fmap_same (f : R → R) (l : list R) : (∀ y, f y = y) → f <$> l = l.
Proof.
  intros Hf. induction l as [|y l IH]; [done|]. by rewrite fmap_cons, Hf, IH.
Qed.

(** Subtracting a list of zeros. *)
Lemma zip_with_minus_zeros (x : list R) n c :
  length x = n → c = 0%R → zip_with Rminus x (replicate n c) = x.
Proof.
  intros Hn ->. rewrite zip_with_replicate_r by done.
  apply fmap_same. intros y. lra.
Qed.

Lemma zip_with_plus_zeros (x : list R) n c :
  length x = n → c = 0%R → zip_with Rplus x (replicate n c) = x.
Proof.
  intros Hn ->. rewrite zip_with_replicate_r by done.
  apply fmap_same. intros y. lra.
Qed.

Lemma replicate_ext n (c c' : R) : c = c' → replicate n c = replicate n c'.
Proof. by intros ->. Qed.

(** Writing back the array a reference already holds changes nothing. *)
Lemma heap_lookup_store_same (h k : heap) (w l : loc) a b :
  h !! w = Some a → h !! l = Some b → <[w := a]> (h ++ k) !! l = Some b.
Proof.
  intros Hw Hl. destruct (decide (w = l)) as [->|Hne].
  - assert (a = b) as -> by congruence.
    apply heap_lookup_store_eq with (a := b). by apply heap_lookup_old.
  - apply heap_lookup_store_ne; [done|]. by apply heap_lookup_old.
Qed.

Context (h : heap) (w dw : loc) (config : option dict).
Context (s : list nat) (xw : list R).
Hypothesis Hw : array_at h w s xw.
Hypothesis Hdw : array_at h dw s (replicate (size_of s) 0%R).

Lemma sgd_zero_run lr :
  sgd_defaults config !! "learning_rate" = Some (VNum lr) →
  ∃ h',
    sgd w dw config h = (Ok (VArr w, sgd_defaults config), h') ∧
    array_at h' w s xw ∧ array_at h' dw s (replicate (size_of s) 0%R).
Proof.
  intros Hlr. destruct Hw as [Hw' Lw], Hdw as [Hd' Ld].
  eexists. split; [by eapply sgd_run|].
  rewrite fmap_replicate, zip_with_minus_zeros by (done || lra).
  split; (split; [by eapply heap_lookup_store_same|done]).
Qed.

Lemma sgd_momentum_zero_run lv mu lr :
  let cfg := momentum_defaults (VArr (length h)) config in
  (h ++ [zeros s]) !! lv = Some (zeros s) →
  cfg !! "learning_rate" = Some (VNum lr) →
  cfg !! "momentum" = Some (VNum mu) →
  cfg !! "velocity" = Some (VArr lv) →
  ∃ lw' lv' h',
    sgd_momentum w dw config h
    = (Ok (VArr lw', <["velocity" := VArr lv']> cfg), h') ∧
    array_at h' lw' s xw ∧
    array_at h' w s xw ∧ array_at h' dw s (replicate (size_of s) 0%R) ∧
    h' !! lv' = Some (zeros s).
Proof.
  intros cfg Hlv Hlr Hmu Hv. destruct Hw as [Hw' Lw], Hdw as [Hd' Ld].
  eexists _, _, _. split.
  { eapply sgd_momentum_run; first [done|by rewrite length_replicate]. }
  rewrite !fmap_replicate, zip_with_replicate, zip_with_plus_zeros
    by (done || lra).
  split_and!; try holds_array.
  apply heap_lookup_new. simpl. unfold zeros. do 2 f_equal.
  apply replicate_ext. lra.
Qed.

Lemma nesterov_momentum_zero_run lv mu lr :
  let cfg := momentum_defaults (VArr (length h)) config in
  (h ++ [zeros s]) !! lv = Some (zeros s) →
  cfg !! "learning_rate" = Some (VNum lr) →
  cfg !! "momentum" = Some (VNum mu) →
  cfg !! "velocity" = Some (VArr lv) →
  ∃ lw' lv' h',
    nesterov_momentum w dw config h
    = (Ok (VArr lw', <["velocity" := VArr lv']> cfg), h') ∧
    array_at h' lw' s xw ∧
    array_at h' w s xw ∧ array_at h' dw s (replicate (size_of s) 0%R) ∧
    h' !! lv' = Some (zeros s).
Proof.
  intros cfg Hlv Hlr Hmu Hv. destruct Hw as [Hw' Lw], Hdw as [Hd' Ld].
  eexists _, _, _. split.
  { eapply nesterov_momentum_run; first [done|by rewrite length_replicate]. }
  rewrite !fmap_replicate, zip_with_replicate, fmap_replicate.
  rewrite (zip_with_minus_zeros xw) by (done || lra).
  rewrite zip_with_plus_zeros by (done || lra).
  split_and!; try holds_array.
  apply heap_lookup_new. simpl. unfold zeros. do 2 f_equal.
  apply replicate_ext. lra.
Qed.

(** RMSProp, under either setting of [errstate]; under [Strict] for a
    positive [epsilon], which keeps the divisor [sqrt 0 + epsilon] away
    from zero. *)
Lemma rmsprop_zero_run lc lr beta eps :
  let cfg := rmsprop_defaults (VArr (length h)) config in
  (h ++ [zeros s]) !! lc = Some (zeros s) →
  cfg !! "learning_rate" = Some (VNum lr) →
  cfg !! "decay_rate" = Some (VNum beta) →
  cfg !! "epsilon" = Some (VNum eps) →
  cfg !! "cache" = Some (VArr lc) →
  ∃ lc' h',
    (∀ mode, (mode = Strict → (0 < eps)%R) →
       rmsprop_in mode w dw config h
       = (Ok (VArr w, <["cache" := VArr lc']> cfg), h')) ∧
    array_at h' w s xw ∧ array_at h' dw s (replicate (size_of s) 0%R) ∧
    h' !! lc' = Some (zeros s).
Proof.
  intros cfg Hlc Hlr Hbeta Heps Hc. destruct Hw as [Hw' Lw], Hdw as [Hd' Ld].
  assert ((beta * 0 + (1 - beta) * powerRZ 0 2)%R = 0%R) as E0 by (simpl; lra).
  eexists _, _. split.
  { intros mode Hfp.
    eapply rmsprop_in_run; first [done|by rewrite length_replicate|idtac].
    intros Hm. specialize (Hfp Hm).
    rewrite !fmap_replicate, !zip_with_replicate, !fmap_replicate, E0.
    split; apply Forall_replicate_R; [lra|]. rewrite sqrt_0. lra. }
  pose proof (heap_old_lt _ _ _ Hw').
  rewrite !fmap_replicate, !zip_with_replicate, !fmap_replicate,
    zip_with_replicate, E0.
  rewrite zip_with_minus_zeros by (done || (unfold Rdiv; lra)).
  split_and!.
  - split; [by eapply heap_lookup_store_same|done].
  - split; [by eapply heap_lookup_store_same|done].
  - stored_lookup.
Qed.

(** Adam, under either setting of [errstate]; under [Strict] for bias
    corrections that are not zero and a positive [epsilon]. *)
Lemma adam_zero_run lm lv lr beta1 beta2 eps t :
  let cfg := adam_defaults (VArr (length h)) (VArr (length h + 1)) config in
  (h ++ [zeros s; zeros s]) !! lm = Some (zeros s) →
  (h ++ [zeros s; zeros s]) !! lv = Some (zeros s) →
  cfg !! "learning_rate" = Some (VNum lr) →
  cfg !! "beta1" = Some (VNum beta1) →
  cfg !! "beta2" = Some (VNum beta2) →
  cfg !! "epsilon" = Some (VNum eps) →
  cfg !! "m" = Some (VArr lm) →
  cfg !! "v" = Some (VArr lv) →
  cfg !! "t" = Some (VInt t) →
  pow_defined beta1 t → pow_defined beta2 t →
  ∃ lm' lv' h',
    (∀ mode,
       (mode = Strict →
        (1 - powerRZ beta1 t)%R ≠ 0%R ∧ (1 - powerRZ beta2 t)%R ≠ 0%R ∧
        (0 < eps)%R) →
       adam_in mode w dw config h
       = (Ok (VArr w,
              <["t" := VInt (t + 1)]>
                (<["v" := VArr lv']> (<["m" := VArr lm']> cfg))), h')) ∧
    array_at h' w s xw ∧ array_at h' dw s (replicate (size_of s) 0%R) ∧
    h' !! lm' = Some (zeros s) ∧ h' !! lv' = Some (zeros s).
Proof.
  intros cfg Hlm Hlv Hlr Hb1 Hb2 Heps Hm Hv Ht Hpow1 Hpow2.
  destruct Hw as [Hw' Lw], Hdw as [Hd' Ld].
  assert ((beta1 * 0 + (1 - beta1) * 0)%R = 0%R) as E1 by lra.
  assert ((beta2 * 0 + (1 - beta2) * powerRZ 0 2)%R = 0%R) as E2 by (simpl; lra).
  assert (∀ x, (0 / x)%R = 0%R) as E3 by (intros x; unfold Rdiv; lra).
  eexists _, _, _. split.
  { intros mode Hfp.
    eapply adam_in_run with (lm := lm) (lv := lv);
      first [done|by rewrite length_replicate|idtac].
    intros Hmode. destruct (Hfp Hmode) as (Hq1 & Hq2 & Hpos).
    rewrite !fmap_replicate, !zip_with_replicate, !fmap_replicate, E2, E3.
    split_and!; [done|done|apply Forall_replicate_R; lra|].
    apply Forall_replicate_R. rewrite sqrt_0. lra. }
  pose proof (heap_old_lt _ _ _ Hw').
  rewrite !fmap_replicate, !zip_with_replicate, !fmap_replicate,
    zip_with_replicate, E1, E2.
  rewrite zip_with_minus_zeros by (done || (unfold Rdiv; lra)).
  split_and!.
  - split; [by eapply heap_lookup_store_same|done].
  - split; [by eapply heap_lookup_store_same|done].
  - stored_lookup.
  - stored_lookup.
Qed.

End ZeroGradient.

(** ** An empty or absent configuration *)

Section EmptyConfig.

Context (config : option dict).
Hypothesis Hempty : default ∅ config = ∅.

Lemma sgd_defaults_empty :
  sgd_defaults config = <["learning_rate" := VNum 1e-2]> ∅.
Proof. unfold sgd_defaults. by rewrite Hempty. Qed.

Lemma momentum_defaults_empty z :
  momentum_defaults z config
  = <["velocity" := z]>
      (<["momentum" := VNum 0.9]> (<["learning_rate" := VNum 1e-2]> ∅)).
Proof. unfold momentum_defaults. by rewrite Hempty. Qed.

Lemma rmsprop_defaults_empty z :
  rmsprop_defaults z config
  = <["cache" := z]>
      (<["epsilon" := VNum 1e-8]>
         (<["decay_rate" := VNum 0.99]>
            (<["learning_rate" := VNum 1e-2]> ∅))).
Proof. unfold rmsprop_defaults. by rewrite Hempty. Qed.

Lemma adam_defaults_empty zm zv :
  adam_defaults zm zv config
  = <["t" := VInt 1]>
      (<["v" := zv]>
         (<["m" := zm]>
            (<["epsilon" := VNum 1e-8]>
               (<["beta2" := VNum 0.999]>
                  (<["beta1" := VNum 0.9]>
                     (<["learning_rate" := VNum 1e-3]> ∅)))))).
Proof. unfold adam_defaults. by rewrite Hempty. Qed.

End EmptyConfig.

(** C9. From an empty or absent configuration and with a gradient of zeros,
    two successive calls of any rule (the second on the configuration the
    first returned) both return an array with the elements [w] had at the
    start.  For [rmsprop] and [adam] the stored cache and moments stay zero,
    and no division by zero occurs: both calls return, with the same
    results, also when numpy is set to raise FloatingPointError on a
    division by zero or an invalid operation ([Strict]), where a zero among
    the divisors [1 - beta^t], [sqrt cache + epsilon] or
    [sqrt v_hat + epsilon] would end the call. *)
Theorem zero_gradient_twice h w dw config s xw :
  array_at h w s xw →
  array_at h dw s (replicate (size_of s) 0%R) →
  default ∅ config = ∅ →
  (∃ c1 h1 c2 h2,
      sgd w dw config h = (Ok (VArr w, c1), h1) ∧
      sgd w dw (Some c1) h1 = (Ok (VArr w, c2), h2) ∧
      array_at h1 w s xw ∧ array_at h2 w s xw) ∧
  (∃ l1 c1 h1 l2 c2 h2,
      sgd_momentum w dw config h = (Ok (VArr l1, c1), h1) ∧
      sgd_momentum w dw (Some c1) h1 = (Ok (VArr l2, c2), h2) ∧
      array_at h1 l1 s xw ∧ array_at h2 l2 s xw) ∧
  (∃ l1 c1 h1 l2 c2 h2,
      nesterov_momentum w dw config h = (Ok (VArr l1, c1), h1) ∧
      nesterov_momentum w dw (Some c1) h1 = (Ok (VArr l2, c2), h2) ∧
      array_at h1 l1 s xw ∧ array_at h2 l2 s xw) ∧
  (∃ c1 h1 c2 h2 lc1 lc2,
      rmsprop w dw config h = (Ok (VArr w, c1), h1) ∧
      rmsprop w dw (Some c1) h1 = (Ok (VArr w, c2), h2) ∧
      rmsprop_in Strict w dw config h = (Ok (VArr w, c1), h1) ∧
      rmsprop_in Strict w dw (Some c1) h1 = (Ok (VArr w, c2), h2) ∧
      array_at h1 w s xw ∧ array_at h2 w s xw ∧
      c1 !! "cache" = Some (VArr lc1) ∧ h1 !! lc1 = Some (zeros s) ∧
      c2 !! "cache" = Some (VArr lc2) ∧ h2 !! lc2 = Some (zeros s)) ∧
  (∃ c1 h1 c2 h2 lm1 lv1 lm2 lv2,
      adam w dw config h = (Ok (VArr w, c1), h1) ∧
      adam w dw (Some c1) h1 = (Ok (VArr w, c2), h2) ∧
      adam_in Strict w dw config h = (Ok (VArr w, c1), h1) ∧
      adam_in Strict w dw (Some c1) h1 = (Ok (VArr w, c2), h2) ∧
      array_at h1 w s xw ∧ array_at h2 w s xw ∧
      c1 !! "m" = Some (VArr lm1) ∧ h1 !! lm1 = Some (zeros s) ∧
      c1 !! "v" = Some (VArr lv1) ∧ h1 !! lv1 = Some (zeros s) ∧
      c2 !! "m" = Some (VArr lm2) ∧ h2 !! lm2 = Some (zeros s) ∧
      c2 !! "v" = Some (VArr lv2) ∧ h2 !! lv2 = Some (zeros s)).
Proof.
  intros Hw Hdw Hempty. split_and!.
  - destruct (sgd_zero_run h w dw config s xw Hw Hdw 1e-2%R)
      as (h1 & E1 & Hw1 & Hd1).
    { rewrite sgd_defaults_empty by done. cfg_lookup. }
    destruct (sgd_zero_run h1 w dw (Some (sgd_defaults config)) s xw Hw1 Hd1 1e-2%R)
      as (h2 & E2 & Hw2 & Hd2).
    { erewrite sgd_defaults_resolved; rewrite sgd_defaults_empty by done;
        cfg_lookup. }
    by eexists _, _, _, _.
  - destruct (sgd_momentum_zero_run h w dw config s xw Hw Hdw
                (length h) 0.9%R 1e-2%R)
      as (l1 & v1 & h1 & E1 & Hn1 & Hw1 & Hd1 & Hv1);
      [heap_lookup|(rewrite momentum_defaults_empty by done; cfg_lookup)..|].
    rewrite momentum_defaults_empty in E1 by done.
    match type of E1 with _ = (Ok (_, ?c1), _) =>
      destruct (sgd_momentum_zero_run h1 w dw (Some c1) s xw Hw1 Hd1 v1 0.9%R 1e-2%R)
        as (l2 & v2 & h2 & E2 & Hn2 & Hw2 & Hd2 & Hv2);
        [by apply heap_lookup_old
        |(erewrite momentum_defaults_resolved by cfg_lookup; cfg_lookup)..|]
    end.
    by eexists _, _, _, _, _, _.
  - destruct (nesterov_momentum_zero_run h w dw config s xw Hw Hdw
                (length h) 0.9%R 1e-2%R)
      as (l1 & v1 & h1 & E1 & Hn1 & Hw1 & Hd1 & Hv1);
      [heap_lookup|(rewrite momentum_defaults_empty by done; cfg_lookup)..|].
    rewrite momentum_defaults_empty in E1 by done.
    match type of E1 with _ = (Ok (_, ?c1), _) =>
      destruct (nesterov_momentum_zero_run h1 w dw (Some c1) s xw Hw1 Hd1 v1 0.9%R 1e-2%R)
        as (l2 & v2 & h2 & E2 & Hn2 & Hw2 & Hd2 & Hv2);
        [by apply heap_lookup_old
        |(erewrite momentum_defaults_resolved by cfg_lookup; cfg_lookup)..|]
    end.
    by eexists _, _, _, _, _, _.
  - assert (∀ mode : errstate, mode = Strict → (0 < 1e-8)%R) as Heps
      by (intros; lra).
    destruct (rmsprop_zero_run h w dw config s xw Hw Hdw
                (length h) 1e-2%R 0.99%R 1e-8%R)
      as (lc1 & h1 & E1 & Hw1 & Hd1 & Hc1);
      [heap_lookup|(rewrite rmsprop_defaults_empty by done; cfg_lookup)..|].
    rewrite rmsprop_defaults_empty in E1 by done.
    match type of (E1 Warn (Heps Warn)) with _ = (Ok (_, ?c1), _) =>
      destruct (rmsprop_zero_run h1 w dw (Some c1) s xw Hw1 Hd1 lc1 1e-2%R 0.99%R 1e-8%R)
        as (lc2 & h2 & E2 & Hw2 & Hd2 & Hc2);
        [by apply heap_lookup_old
        |(erewrite rmsprop_defaults_resolved by cfg_lookup; cfg_lookup)..|]
    end.
    erewrite rmsprop_defaults_resolved in E2 by cfg_lookup.
    eexists _, _, _, _, lc1, lc2.
    split_and!;
      [exact (E1 Warn (Heps Warn))|exact (E2 Warn (Heps Warn))
      |exact (E1 Strict (Heps Strict))|exact (E2 Strict (Heps Strict))
      |done|done|cfg_lookup|done|cfg_lookup|done].
  - assert (∀ x n, (0 <= x <= 1)%R → (0 ≤ n < 3)%Z → pow_defined x n) as Hpow.
    { intros x n Hx Hn. apply pow_defined_unit.
      - apply Rabs_le. lra.
      - split; [lia|]. apply Z.lt_trans with 3%Z; [lia|reflexivity]. }
    assert (∀ mode : errstate, mode = Strict →
              (1 - powerRZ 0.9 1)%R ≠ 0%R ∧ (1 - powerRZ 0.999 1)%R ≠ 0%R ∧
              (0 < 1e-8)%R) as Hfp1 by (intros; simpl; split_and!; lra).
    assert (∀ mode : errstate, mode = Strict →
              (1 - powerRZ 0.9 2)%R ≠ 0%R ∧ (1 - powerRZ 0.999 2)%R ≠ 0%R ∧
              (0 < 1e-8)%R) as Hfp2 by (intros; simpl; split_and!; lra).
    destruct (adam_zero_run h w dw config s xw Hw Hdw
                (length h) (length h + 1) 1e-3%R 0.9%R 0.999%R 1e-8%R 1%Z)
      as (lm1 & lv1 & h1 & E1 & Hw1 & Hd1 & Hm1 & Hv1);
      [heap_lookup|heap_lookup|(rewrite adam_defaults_empty by done; cfg_lookup)..
      |apply Hpow; [lra|lia]|apply Hpow; [lra|lia]|].
    rewrite adam_defaults_empty in E1 by done.
    match type of (E1 Warn (Hfp1 Warn)) with _ = (Ok (_, ?c1), _) =>
      destruct (adam_zero_run h1 w dw (Some c1) s xw Hw1 Hd1
                  lm1 lv1 1e-3%R 0.9%R 0.999%R 1e-8%R 2%Z)
        as (lm2 & lv2 & h2 & E2 & Hw2 & Hd2 & Hm2 & Hv2);
        [by apply heap_lookup_old|by apply heap_lookup_old
        |(erewrite adam_defaults_resolved by cfg_lookup; cfg_lookup)..
        |apply Hpow; [lra|lia]|apply Hpow; [lra|lia]|]
    end.
    erewrite adam_defaults_resolved in E2 by cfg_lookup.
    eexists _, _, _, _, lm1, lv1, lm2, lv2.
    split_and!;
      [exact (E1 Warn (Hfp1 Warn))|exact (E2 Warn (Hfp2 Warn))
      |exact (E1 Strict (Hfp1 Strict))|exact (E2 Strict (Hfp2 Strict))
      |done|done|cfg_lookup|done|cfg_lookup|done
      |cfg_lookup|done|cfg_lookup|done].
Qed.

Lemma zero_gradient_twice_witness :
  (∃ c1 h1, sgd 0 1 None sample_zero_heap = (Ok (VArr 0, c1), h1) ∧
            array_at h1 0 [2] [1; 2]%R) ∧
  (∃ c1 h1, rmsprop_in Strict 0 1 None sample_zero_heap = (Ok (VArr 0, c1), h1) ∧
            array_at h1 0 [2] [1; 2]%R) ∧
  (∃ c1 h1, adam_in Strict 0 1 None sample_zero_heap = (Ok (VArr 0, c1), h1) ∧
            array_at h1 0 [2] [1; 2]%R).
Proof.
  destruct (zero_gradient_twice sample_zero_heap 0 1 None [2] [1; 2]%R)
    as ((c1 & h1 & c2 & h2 & E1 & E2 & H1 & H2) & _ & _ & Hrms & Hadam);
    [split; reflexivity|split; reflexivity|reflexivity|].
  destruct Hrms as (r1 & k1 & _ & _ & _ & _ & _ & _ & Er & _ & Hr & _).
  destruct Hadam as (a1 & j1 & _ & _ & _ & _ & _ & _ & _ & _ & Ea & _ & Ha & _).
  split_and!; by eexists _, _.
Defined.

(** ** Shapes that do not agree *)

(** C2 as stated fails: [sgd] with [w] of shape (2,) and [dw] of shape (1,)
    does not fail; the single gradient entry is broadcast over [w]. *)
Lemma sgd_broadcasts_mismatched_gradient :
  shape (NdArray [1] [1%R]) ≠ shape (NdArray [2] [1%R; 2%R]) ∧
  ∃ cfg h',
    sgd 0 1 None mismatch_heap = (Ok (VArr 0, cfg), h') ∧
    h' !! 0 = Some (NdArray [2] [(1 - 1e-2 * 1)%R; (2 - 1e-2 * 1)%R]).
Proof.
  split; [done|]. eexists _, _. split; [vm_compute; reflexivity|].
  vm_compute. reflexivity.
Qed.

(** ** A run on numbers *)

(** [sgd] with learning rate 0.1 on [w = [1.0, 2.0]] and
    [dw = [0.1, -0.2]] leaves [[0.99, 2.02]] in [w]. *)
Example sgd_scenario :
  ∃ h', sgd 0 1 (Some sample_sgd_config) sample_heap
        = (Ok (VArr 0, sample_sgd_config), h') ∧
        h' !! 0 = Some (NdArray [2] [0.99; 2.02]%R).
Proof.
  eexists. split.
  - eapply (sgd_resolved sample_heap 0 1 sample_sgd_config [2]
              [1; 2]%R [0.1; -0.2]%R); [split; reflexivity..|reflexivity].
  - simpl. do 2 f_equal. f_equal; [lra|]. f_equal. lra.
Qed.

(** * Further properties of the rules *)

(** ** How the primitives end and what they do to the store *)

Section Effects.

Implicit Types (h : heap) (w l : loc) (config : dict).

Lemma bind_run {A B} (m : M A) (f : A → M B) h :
  (m ≫= f) h
  = match m h with
    | (Ok a, h') => f a h'
    | (Raise e, h') => (Raise e, h')
    | (OutOfModel, h') => (OutOfModel, h')
    end.
Proof. done. Qed.

(** *** No KeyError *)

Lemma nke_ret {A} (a : A) : no_key_error (mret a).
Proof. intros h. done. Qed.

Lemma nke_bind {A B} (m : M A) (f : A → M B) :
  no_key_error m → (∀ a, no_key_error (f a)) → no_key_error (m ≫= f).
Proof.
  intros Hm Hf h. rewrite bind_run. specialize (Hm h).
  destruct (m h) as [[a|e|] h'] eqn:E; simpl in *;
    [apply Hf|intros [= ->]; by apply Hm|done].
Qed.

Lemma nke_raise {A} e : e ≠ KeyError → no_key_error (@raise A e).
Proof. intros He h. simpl. congruence. Qed.

Lemma nke_out_of_model {A} : no_key_error (@out_of_model A).
Proof. intros h. done. Qed.

Lemma nke_alloc a : no_key_error (alloc a).
Proof. intros h. done. Qed.

Lemma nke_load l : no_key_error (load l).
Proof. intros h. unfold load. by destruct (h !! l). Qed.

Lemma nke_store l a : no_key_error (store l a).
Proof. intros h. done. Qed.

Lemma nke_as_array v : no_key_error (as_array v).
Proof. destruct v; simpl; first [apply nke_ret|apply nke_load]. Qed.

Lemma nke_ufunc f a b : no_key_error (ufunc f a b).
Proof.
  unfold ufunc. apply nke_bind; [apply nke_as_array|intros x].
  apply nke_bind; [apply nke_as_array|intros y].
  destruct (np_binop f x y); [|by apply nke_raise].
  apply nke_bind; [apply nke_alloc|intros l]. apply nke_ret.
Qed.

Lemma nke_arith fZ f a b : no_key_error (arith fZ f a b).
Proof.
  destruct a, b; simpl; first [apply nke_ret|apply nke_ufunc].
Qed.

Lemma nke_fp_check mode bad : no_key_error (fp_check mode bad).
Proof. destruct mode, bad; simpl; first [apply nke_ret|by apply nke_raise]. Qed.

Lemma nke_truediv mode a b : no_key_error (py_truediv_in mode a b).
Proof.
  assert (no_key_error
            (x ← as_array a; y ← as_array b;
             match np_binop Rdiv x y with
             | Some r =>
                 _ ← fp_check mode (any_zero (broadcast_to y (shape r)));
                 l ← alloc r; mret (VArr l)
             | None => raise ValueError
             end)) as Harr.
  { apply nke_bind; [apply nke_as_array|intros x].
    apply nke_bind; [apply nke_as_array|intros y].
    destruct (np_binop Rdiv x y); [|by apply nke_raise].
    apply nke_bind; [apply nke_fp_check|intros _].
    apply nke_bind; [apply nke_alloc|intros l]. apply nke_ret. }
  destruct a, b; try exact Harr; simpl;
    (destruct (Req_dec_T _ _); [by apply nke_raise|apply nke_ret]).
Qed.

Lemma nke_float_pow x n : no_key_error (float_pow x n).
Proof.
  unfold float_pow. destruct (Req_dec_T x 0); [case_decide|destruct (Rlt_dec _ _)];
    first [apply nke_ret|by apply nke_raise].
Qed.

Lemma nke_pow a b : no_key_error (py_pow a b).
Proof.
  destruct b as [y|n|l]; simpl; try apply nke_out_of_model.
  destruct a as [x|k|l]; repeat case_decide;
    try apply nke_float_pow; try (by apply nke_raise);
    try apply nke_ret; try apply nke_out_of_model.
  apply nke_bind; [apply nke_load|intros x].
  apply nke_bind; [apply nke_alloc|intros l']. apply nke_ret.
Qed.

Lemma nke_np_isub w x : no_key_error (np_isub w x).
Proof.
  unfold np_isub. apply nke_bind; [apply nke_load|intros a].
  apply nke_bind; [apply nke_as_array|intros b].
  destruct (np_binop_out Rminus a b); [apply nke_store|by apply nke_raise].
Qed.

Lemma nke_np_power l n : no_key_error (np_power l n).
Proof.
  unfold np_power. apply nke_bind; [apply nke_load|intros x].
  apply nke_bind; [apply nke_alloc|intros l']. apply nke_ret.
Qed.

Lemma nke_np_sqrt mode a : no_key_error (np_sqrt_in mode a).
Proof.
  destruct a; simpl; try apply nke_out_of_model.
  apply nke_bind; [apply nke_load|intros x].
  apply nke_bind; [apply nke_fp_check|intros _].
  apply nke_bind; [apply nke_alloc|intros l']. apply nke_ret.
Qed.

Lemma nke_np_zeros_like w : no_key_error (np_zeros_like w).
Proof.
  unfold np_zeros_like. apply nke_bind; [apply nke_load|intros x].
  apply nke_bind; [apply nke_alloc|intros l']. apply nke_ret.
Qed.

Lemma nke_ndarray_copy v : no_key_error (ndarray_copy v).
Proof.
  destruct v; simpl; try (by apply nke_raise).
  apply nke_bind; [apply nke_load|intros x].
  apply nke_bind; [apply nke_alloc|intros l']. apply nke_ret.
Qed.

Lemma nke_getitem config k :
  is_Some (config !! k) → no_key_error (getitem config k).
Proof. intros [v Hv]. unfold getitem. rewrite Hv. apply nke_ret. Qed.

(** After [setdefault] the option is there, and so is every option that was
    there before, with the value it had. *)
Lemma setdefault_is_Some k d config : is_Some (setdefault k d config !! k).
Proof.
  unfold setdefault. destruct (config !! k) eqn:E; [by rewrite E|].
  rewrite lookup_insert_eq. done.
Qed.

Lemma setdefault_keeps k d config k' v :
  config !! k' = Some v → setdefault k d config !! k' = Some v.
Proof.
  intros Hk. unfold setdefault. destruct (config !! k) eqn:E; [done|].
  rewrite lookup_insert_ne; [done|]. intros ->. congruence.
Qed.

Lemma setdefault_keeps_is_Some k d config k' :
  is_Some (config !! k') → is_Some (setdefault k d config !! k').
Proof. intros [v Hv]. exists v. by apply setdefault_keeps. Qed.

Lemma insert_keeps_is_Some k (v : value) config k' :
  is_Some (config !! k') → is_Some (<[k := v]> config !! k').
Proof.
  intros Hk. destruct (decide (k = k')) as [->|Hne].
  - rewrite lookup_insert_eq. done.
  - by rewrite lookup_insert_ne.
Qed.

End Effects.

(** An option looked up after the defaults have been filled in. *)
Ltac option_present :=
  repeat first
    [ apply setdefault_is_Some
    | apply setdefault_keeps_is_Some
    | apply insert_keeps_is_Some ].

Ltac nke_step :=
  first
    [ apply nke_ret
    | apply nke_getitem; option_present
    | apply nke_arith
    | apply nke_truediv
    | apply nke_pow
    | apply nke_np_isub
    | apply nke_np_power
    | apply nke_np_sqrt
    | apply nke_np_zeros_like
    | apply nke_ndarray_copy ].

Ltac nke := repeat (apply nke_bind; [nke_step|intros ?]); nke_step.

(** X5. Missing options are never an error: whatever configuration is
    passed or left out, no rule ends in a KeyError. *)
Theorem rules_never_raise_KeyError w dw config :
  no_key_error (sgd w dw config) ∧
  no_key_error (sgd_momentum w dw config) ∧
  no_key_error (nesterov_momentum w dw config) ∧
  no_key_error (rmsprop w dw config) ∧
  no_key_error (adam w dw config).
Proof.
  split_and!.
  - unfold sgd. nke.
  - unfold sgd_momentum. nke.
  - unfold nesterov_momentum. nke.
  - unfold rmsprop, rmsprop_in. nke.
  - unfold adam, adam_in. nke.
Qed.

(** *** The store *)

Section StoreEffects.

Implicit Types (h : heap) (w l : loc) (config : dict).

Lemma ext_ret {A} (a : A) : extends_store (mret a).
Proof. intros h. exists []. simpl. by rewrite app_nil_r. Qed.

Lemma ext_bind {A B} (m : M A) (f : A → M B) :
  extends_store m → (∀ a, extends_store (f a)) → extends_store (m ≫= f).
Proof.
  intros Hm Hf h. rewrite bind_run. destruct (Hm h) as [k Hk].
  destruct (m h) as [[a|e|] h'] eqn:E; simpl in *; subst h'; [|by exists k..].
  destruct (Hf a (h ++ k)) as [k' Hk']. exists (k ++ k').
  by rewrite Hk', app_assoc.
Qed.

Lemma ext_raise {A} e : extends_store (@raise A e).
Proof. intros h. exists []. simpl. by rewrite app_nil_r. Qed.

Lemma ext_out_of_model {A} : extends_store (@out_of_model A).
Proof. intros h. exists []. simpl. by rewrite app_nil_r. Qed.

Lemma ext_alloc a : extends_store (alloc a).
Proof. intros h. by exists [a]. Qed.

Lemma ext_load l : extends_store (load l).
Proof.
  intros h. exists []. unfold load.
  destruct (h !! l); simpl; by rewrite app_nil_r.
Qed.

Lemma ext_as_array v : extends_store (as_array v).
Proof. destruct v; simpl; first [apply ext_ret|apply ext_load]. Qed.

Lemma ext_ufunc f a b : extends_store (ufunc f a b).
Proof.
  unfold ufunc. apply ext_bind; [apply ext_as_array|intros x].
  apply ext_bind; [apply ext_as_array|intros y].
  destruct (np_binop f x y); [|apply ext_raise].
  apply ext_bind; [apply ext_alloc|intros l]. apply ext_ret.
Qed.

Lemma ext_arith fZ f a b : extends_store (arith fZ f a b).
Proof.
  destruct a, b; simpl; first [apply ext_ret|apply ext_ufunc].
Qed.

Lemma ext_fp_check mode bad : extends_store (fp_check mode bad).
Proof. destruct mode, bad; simpl; first [apply ext_ret|apply ext_raise]. Qed.

Lemma ext_truediv mode a b : extends_store (py_truediv_in mode a b).
Proof.
  assert (extends_store
            (x ← as_array a; y ← as_array b;
             match np_binop Rdiv x y with
             | Some r =>
                 _ ← fp_check mode (any_zero (broadcast_to y (shape r)));
                 l ← alloc r; mret (VArr l)
             | None => raise ValueError
             end)) as Harr.
  { apply ext_bind; [apply ext_as_array|intros x].
    apply ext_bind; [apply ext_as_array|intros y].
    destruct (np_binop Rdiv x y); [|apply ext_raise].
    apply ext_bind; [apply ext_fp_check|intros _].
    apply ext_bind; [apply ext_alloc|intros l]. apply ext_ret. }
  destruct a, b; try exact Harr; simpl;
    (destruct (Req_dec_T _ _); [apply ext_raise|apply ext_ret]).
Qed.

Lemma ext_float_pow x n : extends_store (float_pow x n).
Proof.
  unfold float_pow. destruct (Req_dec_T x 0); [case_decide|destruct (Rlt_dec _ _)];
    first [apply ext_ret|apply ext_raise].
Qed.

Lemma ext_pow a b : extends_store (py_pow a b).
Proof.
  destruct b as [y|n|l]; simpl; try apply ext_out_of_model.
  destruct a as [x|k|l]; repeat case_decide;
    try apply ext_float_pow; try apply ext_raise;
    try apply ext_ret; try apply ext_out_of_model.
  apply ext_bind; [apply ext_load|intros x].
  apply ext_bind; [apply ext_alloc|intros l']. apply ext_ret.
Qed.

Lemma ext_np_power l n : extends_store (np_power l n).
Proof.
  unfold np_power. apply ext_bind; [apply ext_load|intros x].
  apply ext_bind; [apply ext_alloc|intros l']. apply ext_ret.
Qed.

Lemma ext_np_sqrt mode a : extends_store (np_sqrt_in mode a).
Proof.
  destruct a; simpl; try apply ext_out_of_model.
  apply ext_bind; [apply ext_load|intros x].
  apply ext_bind; [apply ext_fp_check|intros _].
  apply ext_bind; [apply ext_alloc|intros l']. apply ext_ret.
Qed.

Lemma ext_np_zeros_like w : extends_store (np_zeros_like w).
Proof.
  unfold np_zeros_like. apply ext_bind; [apply ext_load|intros x].
  apply ext_bind; [apply ext_alloc|intros l']. apply ext_ret.
Qed.

Lemma ext_ndarray_copy v : extends_store (ndarray_copy v).
Proof.
  destruct v; simpl; try apply ext_raise.
  apply ext_bind; [apply ext_load|intros x].
  apply ext_bind; [apply ext_alloc|intros l']. apply ext_ret.
Qed.

Lemma ext_getitem config k : extends_store (getitem config k).
Proof.
  unfold getitem. destruct (config !! k); [apply ext_ret|apply ext_raise].
Qed.

(** Code that only adds objects writes to none. *)
Lemma extends_writes_only {A} w (m : M A) : extends_store m → writes_only w m.
Proof.
  intros Hm h. destruct (Hm h) as [k ->]. split.
  - rewrite length_app. lia.
  - intros l a _ Hl. by apply lookup_app_l_Some.
Qed.

Lemma wo_bind {A B} w (m : M A) (f : A → M B) :
  writes_only w m → (∀ a, writes_only w (f a)) → writes_only w (m ≫= f).
Proof.
  intros Hm Hf h. rewrite bind_run. destruct (Hm h) as [Hlen Hkeep].
  destruct (m h) as [[a|e|] h'] eqn:E; simpl in *; [|done..].
  destruct (Hf a h') as [Hlen' Hkeep']. split; [lia|].
  intros l x Hne Hl. apply Hkeep'; [done|]. by apply Hkeep.
Qed.

Lemma wo_store w a : writes_only w (store w a).
Proof.
  intros h. simpl. split.
  - apply Nat.eq_le_incl. symmetry. apply length_insert.
  - intros l x Hne Hl. by apply heap_lookup_store_ne.
Qed.

Lemma wo_np_isub w x : writes_only w (np_isub w x).
Proof.
  unfold np_isub.
  apply wo_bind; [apply extends_writes_only, ext_load|intros a].
  apply wo_bind; [apply extends_writes_only, ext_as_array|intros b].
  destruct (np_binop_out Rminus a b);
    [apply wo_store|apply extends_writes_only, ext_raise].
Qed.

End StoreEffects.

Ltac ext_step :=
  first
    [ apply ext_ret
    | apply ext_getitem
    | apply ext_arith
    | apply ext_truediv
    | apply ext_pow
    | apply ext_np_power
    | apply ext_np_sqrt
    | apply ext_np_zeros_like
    | apply ext_ndarray_copy ].

Ltac ext := repeat (apply ext_bind; [ext_step|intros ?]); ext_step.

Ltac wo_step :=
  first [ apply wo_np_isub | apply extends_writes_only; ext_step ].

Ltac wo := repeat (apply wo_bind; [wo_step|intros ?]); wo_step.

(** X3. [sgd_momentum] and [nesterov_momentum] write to no array at all:
    whatever the arguments and however the call ends, the store afterwards
    is the store before followed by the arrays the call has allocated.  The
    parameter, the gradient and the velocity passed in keep their
    elements. *)
Theorem momentum_rules_only_allocate w dw config :
  extends_store (sgd_momentum w dw config) ∧
  extends_store (nesterov_momentum w dw config).
Proof.
  split.
  - unfold sgd_momentum. ext.
  - unfold nesterov_momentum. ext.
Qed.

(** X2. [sgd], [rmsprop] and [adam] write to no array but [w]: whatever the
    arguments and however the call ends, no array is removed and every array
    that existed before the call, other than the one at [w], holds the
    elements it held; so the gradient and the cache or moments passed in
    are not modified (unless they are the object [w] itself). *)
Theorem in_place_rules_write_only_w w dw config :
  writes_only w (sgd w dw config) ∧
  writes_only w (rmsprop w dw config) ∧
  writes_only w (adam w dw config).
Proof.
  split_and!.
  - unfold sgd. wo.
  - unfold rmsprop, rmsprop_in. wo.
  - unfold adam, adam_in. wo.
Qed.

Lemma in_place_rules_write_only_w_witness :
  (adam 0 1 (Some sample_adam_config) sample_heap).2 !! 1
  = Some (NdArray [2] [0.1; -0.2]%R) ∧
  (adam 0 1 (Some sample_adam_config) sample_heap).2 !! 2
  = Some (NdArray [2] [0; 0]%R).
Proof.
  destruct (in_place_rules_write_only_w 0 1 (Some sample_adam_config))
    as (_ & _ & Hadam).
  destruct (Hadam sample_heap) as [_ Hkeep].
  split; apply Hkeep; first [lia|reflexivity].
Defined.

(** ** The configuration returned *)

Section ConfigReturned.

Lemma bind_Ok_inv {A B} (m : M A) (f : A → M B) h b h' :
  (m ≫= f) h = (Ok b, h') → ∃ a h1, m h = (Ok a, h1) ∧ f a h1 = (Ok b, h').
Proof.
  rewrite bind_run. destruct (m h) as [[a|e|] h1]; [|done..].
  intros Hf. by exists a, h1.
Qed.

Lemma dom_setdefault k d (config : dict) :
  dom (setdefault k d config) = {[k]} ∪ dom config.
Proof.
  unfold setdefault. destruct (config !! k) eqn:E.
  - symmetry. apply subseteq_union_1_L, singleton_subseteq_l, elem_of_dom.
    by rewrite E.
  - by rewrite dom_insert_L.
Qed.

End ConfigReturned.

(** Two unions of the same sets. *)
Ltac union_equal :=
  apply set_eq; intros ?; rewrite !elem_of_union; tauto.

(** Follow a run that ended well back through its statements; what is left
    is the [return]. *)
Ltac invert_run H :=
  repeat
    (let a := fresh "a" in
     let h1 := fresh "h" in
     let E := fresh "E" in
     let H' := fresh "H" in
     destruct (bind_Ok_inv _ _ _ _ _ H) as (a & h1 & E & H');
     clear H E; rename H' into H; cbv beta zeta in H);
  unfold mret, M_ret in H; simplify_eq.

(** X4. A call that returns hands back every option the caller had set,
    with its value, except the running state it replaces ([velocity];
    [cache]; [m], [v], [t]), and adds nothing but the options of the rule:
    the options of the configuration returned are those passed in together
    with the documented ones.  [sgd] returns the options passed in, all
    unchanged, and [learning_rate]. *)
Theorem caller_options_survive :
  (∀ w dw (cfg : dict) h r (cfg' : dict) h',
     sgd w dw (Some cfg) h = (Ok (r, cfg'), h') →
     (∀ k v, cfg !! k = Some v → cfg' !! k = Some v) ∧
     dom cfg' = dom cfg ∪ {["learning_rate"]}) ∧
  (∀ w dw (cfg : dict) h r (cfg' : dict) h',
     sgd_momentum w dw (Some cfg) h = (Ok (r, cfg'), h') →
     (∀ k v, k ≠ "velocity" → cfg !! k = Some v → cfg' !! k = Some v) ∧
     dom cfg' = dom cfg ∪ {["learning_rate"; "momentum"; "velocity"]}) ∧
  (∀ w dw (cfg : dict) h r (cfg' : dict) h',
     nesterov_momentum w dw (Some cfg) h = (Ok (r, cfg'), h') →
     (∀ k v, k ≠ "velocity" → cfg !! k = Some v → cfg' !! k = Some v) ∧
     dom cfg' = dom cfg ∪ {["learning_rate"; "momentum"; "velocity"]}) ∧
  (∀ w dw (cfg : dict) h r (cfg' : dict) h',
     rmsprop w dw (Some cfg) h = (Ok (r, cfg'), h') →
     (∀ k v, k ≠ "cache" → cfg !! k = Some v → cfg' !! k = Some v) ∧
     dom cfg'
     = dom cfg ∪ {["learning_rate"; "decay_rate"; "epsilon"; "cache"]}) ∧
  (∀ w dw (cfg : dict) h r (cfg' : dict) h',
     adam w dw (Some cfg) h = (Ok (r, cfg'), h') →
     (∀ k v, k ≠ "m" → k ≠ "v" → k ≠ "t" →
             cfg !! k = Some v → cfg' !! k = Some v) ∧
     dom cfg'
     = dom cfg
       ∪ {["learning_rate"; "beta1"; "beta2"; "epsilon"; "m"; "v"; "t"]}).
Proof.
  split_and!; intros w dw cfg h r cfg' h' Hrun.
  - unfold sgd in Hrun. invert_run Hrun. split.
    + intros k v Hk. by apply setdefault_keeps.
    + rewrite dom_setdefault. union_equal.
  - unfold sgd_momentum in Hrun. invert_run Hrun. split.
    + intros k v Hne Hk. rewrite lookup_insert_ne by done.
      by do 3 apply setdefault_keeps.
    + rewrite dom_insert_L, !dom_setdefault. union_equal.
  - unfold nesterov_momentum in Hrun. invert_run Hrun. split.
    + intros k v Hne Hk. rewrite lookup_insert_ne by done.
      by do 3 apply setdefault_keeps.
    + rewrite dom_insert_L, !dom_setdefault. union_equal.
  - unfold rmsprop, rmsprop_in in Hrun. invert_run Hrun. split.
    + intros k v Hne Hk. rewrite lookup_insert_ne by done.
      by do 4 apply setdefault_keeps.
    + rewrite dom_insert_L, !dom_setdefault. union_equal.
  - unfold adam, adam_in in Hrun. invert_run Hrun. split.
    + intros k v Hm Hv Ht Hk. rewrite !lookup_insert_ne by done.
      by do 7 apply setdefault_keeps.
    + rewrite !dom_insert_L, !dom_setdefault. union_equal.
Qed.

Lemma caller_options_survive_witness :
  (∃ r cfg' h',
      sgd 0 1 (Some sample_sgd_config) sample_heap = (Ok (r, cfg'), h') ∧
      cfg' !! "learning_rate" = Some (VNum 0.1)) ∧
  (∃ r cfg' h',
      sgd_momentum 0 1 (Some sample_momentum_config) sample_heap
      = (Ok (r, cfg'), h') ∧
      cfg' !! "momentum" = Some (VNum 0.9)) ∧
  (∃ r cfg' h',
      nesterov_momentum 0 1 (Some sample_momentum_config) sample_heap
      = (Ok (r, cfg'), h') ∧
      cfg' !! "momentum" = Some (VNum 0.9)) ∧
  (∃ r cfg' h',
      rmsprop 0 1 (Some sample_rmsprop_config) sample_heap = (Ok (r, cfg'), h') ∧
      cfg' !! "decay_rate" = Some (VNum 0.99)) ∧
  (∃ r cfg' h',
      adam 0 1 (Some sample_adam_config) sample_heap = (Ok (r, cfg'), h') ∧
      cfg' !! "beta2" = Some (VNum 0.999)).
Proof.
  destruct caller_options_survive as (Hsgd & Hmom & Hnes & Hrms & Hadam).
  assert (array_at sample_heap 0 [2] [1; 2]%R) as Hw by (split; reflexivity).
  assert (array_at sample_heap 1 [2] [0.1; -0.2]%R) as Hd
    by (split; reflexivity).
  assert (array_at sample_heap 2 [2] [0; 0]%R) as H2 by (split; reflexivity).
  assert (array_at sample_heap 3 [2] [0; 0]%R) as H3 by (split; reflexivity).
  split_and!.
  - assert (sample_sgd_config !! "learning_rate" = Some (VNum 0.1)) as Hlr
      by reflexivity.
    pose proof (sgd_resolved _ _ _ _ _ _ _ Hw Hd _ Hlr) as E.
    eexists _, _, _. split; [exact E|].
    by apply (Hsgd _ _ _ _ _ _ _ E).
  - pose proof (sgd_momentum_resolved _ _ _ sample_momentum_config _ _ _
                  Hw Hd _ _ 0.9%R 1e-2%R H2 eq_refl eq_refl eq_refl) as E.
    eexists _, _, _. split; [exact E|].
    by apply (Hmom _ _ _ _ _ _ _ E).
  - pose proof (nesterov_momentum_resolved _ _ _ sample_momentum_config _ _ _
                  Hw Hd _ _ 0.9%R 1e-2%R H2 eq_refl eq_refl eq_refl) as E.
    eexists _, _, _. split; [exact E|].
    by apply (Hnes _ _ _ _ _ _ _ E).
  - pose proof (rmsprop_resolved _ _ _ sample_rmsprop_config _ _ _
                  Hw Hd _ _ 1e-2%R 0.99%R 1e-8%R H2
                  eq_refl eq_refl eq_refl eq_refl) as E.
    eexists _, _, _. split; [exact E|].
    by apply (Hrms _ _ _ _ _ _ _ E).
  - assert (pow_defined 0.9 1) as Hpow1
      by (apply pow_defined_unit; [apply Rabs_le; lra|done]).
    assert (pow_defined 0.999 1) as Hpow2
      by (apply pow_defined_unit; [apply Rabs_le; lra|done]).
    pose proof (adam_resolved _ _ _ sample_adam_config _ _ _
                  Hw Hd _ _ _ _ 1e-3%R 0.9%R 0.999%R 1e-8%R 1%Z H2 H3
                  eq_refl eq_refl eq_refl eq_refl eq_refl eq_refl eq_refl
                  Hpow1 Hpow2) as E.
    eexists _, _, _. split; [exact E|].
    by apply (Hadam _ _ _ _ _ _ _ E).
Defined.

(** ** Defaults *)

Section Defaults.

Lemma lookup_setdefault k d (config : dict) k' :
  setdefault k d config !! k'
  = match config !! k' with
    | Some v => Some v
    | None => if decide (k = k') then Some d else None
    end.
Proof.
  unfold setdefault. destruct (config !! k) eqn:E.
  - destruct (config !! k') eqn:E'; [done|]. case_decide; [|done]. congruence.
  - destruct (decide (k = k')) as [<-|Hne].
    + by rewrite lookup_insert_eq, E.
    + rewrite lookup_insert_ne by done. by destruct (config !! k').
Qed.

End Defaults.

(** The members of a list of options, one by one. *)
Ltac each_option H :=
  repeat (apply elem_of_cons in H as [[= -> ->]|H]);
  try (by apply elem_of_nil in H).

(** The default of an option the caller has not set, in what a rule
    returns. *)
Ltac default_filled Hnone :=
  rewrite ?lookup_insert_ne by done;
  rewrite !lookup_setdefault, Hnone;
  repeat (case_decide; try done).

Ltac dom_resolved :=
  rewrite ?dom_insert_L, !dom_setdefault;
  apply set_eq; intros ?; simpl;
  rewrite ?elem_of_union, ?elem_of_empty; tauto.

(** C8, as the code has it.  Whatever configuration a rule is called with,
    the configuration it returns keeps every option the caller had set,
    with its value, except the running state of the rule ([velocity];
    [cache]; [m], [v], [t]), holds the documented default for every
    hyperparameter the caller had not set, and has the caller's options
    together with the documented ones, so exactly the documented ones when
    the caller passed an empty configuration or none.  The running state
    does not come back at its default: the defaults (arrays of zeros of the
    shape of [w], 1 for [t]) are filled in first and the update then
    overwrites them, so after a call with an empty or absent configuration
    the configuration holds the state after one step from zero
    ([mu * 0 - lr * dw] for the velocity, [beta * 0 + (1 - beta) * dw^2]
    for the cache and likewise for Adam's moments) and [t = 2]. *)
Theorem defaults_then_one_step :
  (∀ w dw config h r cfg' h',
     sgd w dw config h = (Ok (r, cfg'), h') →
     resolves sgd_options [] (default ∅ config) cfg') ∧
  (∀ w dw config h r cfg' h',
     sgd_momentum w dw config h = (Ok (r, cfg'), h') →
     resolves momentum_options momentum_state (default ∅ config) cfg') ∧
  (∀ w dw config h r cfg' h',
     nesterov_momentum w dw config h = (Ok (r, cfg'), h') →
     resolves momentum_options momentum_state (default ∅ config) cfg') ∧
  (∀ w dw config h r cfg' h',
     rmsprop w dw config h = (Ok (r, cfg'), h') →
     resolves rmsprop_options rmsprop_state (default ∅ config) cfg') ∧
  (∀ w dw config h r cfg' h',
     adam w dw config h = (Ok (r, cfg'), h') →
     resolves adam_options adam_state (default ∅ config) cfg') ∧
  (∀ h w dw config s xw xd,
     array_at h w s xw → array_at h dw s xd → default ∅ config = ∅ →
     (∃ cfg' h',
         sgd w dw config h = (Ok (VArr w, cfg'), h') ∧
         dom cfg' = {["learning_rate"]} ∧
         cfg' !! "learning_rate" = Some (VNum 1e-2)) ∧
     (∃ r lv' xv' cfg' h',
         sgd_momentum w dw config h = (Ok (r, cfg'), h') ∧
         dom cfg' = {["learning_rate"; "momentum"; "velocity"]} ∧
         cfg' !! "learning_rate" = Some (VNum 1e-2) ∧
         cfg' !! "momentum" = Some (VNum 0.9) ∧
         cfg' !! "velocity" = Some (VArr lv') ∧ array_at h' lv' s xv' ∧
         ∀ i d, xd !! i = Some d → xv' !! i = Some (0.9 * 0 - 1e-2 * d)%R) ∧
     (∃ r lv' xv' cfg' h',
         nesterov_momentum w dw config h = (Ok (r, cfg'), h') ∧
         dom cfg' = {["learning_rate"; "momentum"; "velocity"]} ∧
         cfg' !! "learning_rate" = Some (VNum 1e-2) ∧
         cfg' !! "momentum" = Some (VNum 0.9) ∧
         cfg' !! "velocity" = Some (VArr lv') ∧ array_at h' lv' s xv' ∧
         ∀ i d, xd !! i = Some d → xv' !! i = Some (0.9 * 0 - 1e-2 * d)%R) ∧
     (∃ lc' xc' cfg' h',
         rmsprop w dw config h = (Ok (VArr w, cfg'), h') ∧
         dom cfg' = {["learning_rate"; "decay_rate"; "epsilon"; "cache"]} ∧
         cfg' !! "learning_rate" = Some (VNum 1e-2) ∧
         cfg' !! "decay_rate" = Some (VNum 0.99) ∧
         cfg' !! "epsilon" = Some (VNum 1e-8) ∧
         cfg' !! "cache" = Some (VArr lc') ∧ array_at h' lc' s xc' ∧
         ∀ i d, xd !! i = Some d →
                xc' !! i = Some (0.99 * 0 + (1 - 0.99) * d ^ 2)%R) ∧
     (∃ lm' lv' xm' xv' cfg' h',
         adam w dw config h = (Ok (VArr w, cfg'), h') ∧
         dom cfg'
         = {["learning_rate"; "beta1"; "beta2"; "epsilon"; "m"; "v"; "t"]} ∧
         cfg' !! "learning_rate" = Some (VNum 1e-3) ∧
         cfg' !! "beta1" = Some (VNum 0.9) ∧
         cfg' !! "beta2" = Some (VNum 0.999) ∧
         cfg' !! "epsilon" = Some (VNum 1e-8) ∧
         cfg' !! "m" = Some (VArr lm') ∧ array_at h' lm' s xm' ∧
         cfg' !! "v" = Some (VArr lv') ∧ array_at h' lv' s xv' ∧
         cfg' !! "t" = Some (VInt 2) ∧
         (∀ i d, xd !! i = Some d →
                 xm' !! i = Some (0.9 * 0 + (1 - 0.9) * d)%R) ∧
         (∀ i d, xd !! i = Some d →
                 xv' !! i = Some (0.999 * 0 + (1 - 0.999) * d ^ 2)%R))).
Proof.
  split_and!.
  - intros w dw config h r cfg' h' Hrun.
    unfold sgd in Hrun. invert_run Hrun. split_and!.
    + intros k v _ Hk. by apply setdefault_keeps.
    + intros k d Hin Hnone. each_option Hin. default_filled Hnone.
    + dom_resolved.
  - intros w dw config h r cfg' h' Hrun.
    unfold sgd_momentum in Hrun. invert_run Hrun. split_and!.
    + intros k v Hk%not_elem_of_cons Hv. destruct Hk as [Hk _].
      rewrite lookup_insert_ne by done. by do 3 apply setdefault_keeps.
    + intros k d Hin Hnone. each_option Hin; default_filled Hnone.
    + dom_resolved.
  - intros w dw config h r cfg' h' Hrun.
    unfold nesterov_momentum in Hrun. invert_run Hrun. split_and!.
    + intros k v Hk%not_elem_of_cons Hv. destruct Hk as [Hk _].
      rewrite lookup_insert_ne by done. by do 3 apply setdefault_keeps.
    + intros k d Hin Hnone. each_option Hin; default_filled Hnone.
    + dom_resolved.
  - intros w dw config h r cfg' h' Hrun.
    unfold rmsprop, rmsprop_in in Hrun. invert_run Hrun. split_and!.
    + intros k v Hk%not_elem_of_cons Hv. destruct Hk as [Hk _].
      rewrite lookup_insert_ne by done. by do 4 apply setdefault_keeps.
    + intros k d Hin Hnone. each_option Hin; default_filled Hnone.
    + dom_resolved.
  - intros w dw config h r cfg' h' Hrun.
    unfold adam, adam_in in Hrun. invert_run Hrun. split_and!.
    + intros k v Hk Hv. unfold adam_state in Hk.
      rewrite !not_elem_of_cons in Hk. destruct Hk as (Hm & Hv' & Ht & _).
      rewrite !lookup_insert_ne by done. by do 7 apply setdefault_keeps.
    + intros k d Hin Hnone. each_option Hin; default_filled Hnone.
    + dom_resolved.
  - intros h w dw config s xw xd Hw Hdw Hempty.
    destruct Hw as [Hw' Lw], Hdw as [Hd' Ld].
    pose proof (heap_old_lt _ _ _ Hw').
    assert (∀ i (d : R), xd !! i = Some d → i < size_of s) as Hlt.
    { intros i d Hd. rewrite <- Ld. by eapply lookup_lt_Some. }
    split_and!.
    + eexists _, _. split.
      { eapply sgd_run; try done. rewrite sgd_defaults_empty by done. cfg_lookup. }
      rewrite sgd_defaults_empty by done.
      split; [|cfg_lookup]. rewrite !dom_insert_L, dom_empty_L. set_solver.
    + eexists _, _, _, _, _. split.
      { eapply sgd_momentum_run with
          (lv := length h) (xv := replicate (size_of s) 0%R); try done;
          first [heap_lookup|by rewrite length_replicate
                |rewrite momentum_defaults_empty by done; cfg_lookup]. }
      rewrite momentum_defaults_empty by done.
      split_and!; finish_defaults.
    + eexists _, _, _, _, _. split.
      { eapply nesterov_momentum_run with
          (lv := length h) (xv := replicate (size_of s) 0%R); try done;
          first [heap_lookup|by rewrite length_replicate
                |rewrite momentum_defaults_empty by done; cfg_lookup]. }
      rewrite momentum_defaults_empty by done.
      split_and!; finish_defaults.
    + eexists _, _, _, _. split.
      { eapply rmsprop_run with
          (lc := length h) (xc := replicate (size_of s) 0%R); try done;
          first [heap_lookup|by rewrite length_replicate
                |rewrite rmsprop_defaults_empty by done; cfg_lookup]. }
      rewrite rmsprop_defaults_empty by done.
      split_and!; finish_defaults.
    + eexists _, _, _, _, _, _. split.
      { eapply adam_run with (lm := length h) (lv := length h + 1) (t := 1%Z)
          (xm := replicate (size_of s) 0%R) (xv := replicate (size_of s) 0%R);
          try done;
          first [heap_lookup|by rewrite length_replicate
                |rewrite adam_defaults_empty by done; cfg_lookup
                |apply pow_defined_unit; [apply Rabs_le; lra|done]]. }
      rewrite adam_defaults_empty by done.
      split_and!; finish_defaults.
Qed.

Lemma defaults_then_one_step_witness :
  (∃ r cfg' h',
      sgd_momentum 0 1 (Some partial_momentum_config) sample_heap
      = (Ok (r, cfg'), h') ∧
      cfg' !! "momentum" = Some (VNum 0.5) ∧
      cfg' !! "note" = Some (VInt 7) ∧
      cfg' !! "learning_rate" = Some (VNum 1e-2)) ∧
  (∃ cfg' h', adam 0 1 None sample_heap = (Ok (VArr 0, cfg'), h') ∧
              cfg' !! "t" = Some (VInt 2)).
Proof.
  destruct defaults_then_one_step as (_ & Hmom & _ & _ & _ & Hempty).
  split.
  - pose proof (sgd_momentum_run sample_heap 0 1 (Some partial_momentum_config)
                  [2] [1; 2]%R [0.1; -0.2]%R eq_refl eq_refl eq_refl eq_refl
                  4 [0; 0]%R 0.5%R 1e-2%R eq_refl eq_refl eq_refl eq_refl
                  eq_refl) as E.
    destruct (Hmom _ _ _ _ _ _ _ E) as (Hkeep & Hfill & _).
    eexists _, _, _. split; [exact E|]. split_and!.
    + apply Hkeep; [|reflexivity]. by intros [[=]|[]%elem_of_nil]%elem_of_cons.
    + apply Hkeep; [|reflexivity]. by intros [[=]|[]%elem_of_nil]%elem_of_cons.
    + apply (Hfill "learning_rate" (VNum 1e-2)); [|reflexivity].
      apply list_elem_of_here.
  - destruct (Hempty sample_heap 0 1 None [2] [1; 2]%R [0.1; -0.2]%R)
      as (_ & _ & _ & _ & lm' & lv' & xm' & xv' & cfg' & h' & E & _ & _ & _ & _
          & _ & _ & _ & _ & _ & Ht & _);
      [split; reflexivity|split; reflexivity|reflexivity|].
    by eexists _, _.
Defined.

(** C8 as stated fails: called without a configuration, [adam] returns a
    configuration whose counter is 2, not the default 1. *)
Lemma adam_returns_advanced_counter :
  ∃ r cfg h',
    adam 0 1 None sample_heap = (Ok (r, cfg), h') ∧
    cfg !! "t" = Some (VInt 2) ∧ cfg !! "t" ≠ Some (VInt 1).
Proof.
  eexists _, _, _. split.
  - eapply (adam_run sample_heap 0 1 None [2] [1; 2]%R [0.1; -0.2]%R) with
      (lm := 4) (xm := [0; 0]%R) (lv := 5) (xv := [0; 0]%R) (t := 1%Z);
      first [reflexivity|apply pow_defined_unit; [apply Rabs_le; lra|done]].
  - split; [reflexivity|]. intros H. vm_compute in H. discriminate.
Qed.

(** ** Plain gradient descent *)

(** X1. [sgd] on a configuration that has a learning rate [lr] returns that
    configuration as it is and leaves [w - lr * dw] in [w]; with [lr = 0]
    the elements of [w] are the ones it had. *)
Theorem sgd_step h w dw (cfg : dict) s xw xd lr :
  array_at h w s xw → array_at h dw s xd →
  cfg !! "learning_rate" = Some (VNum lr) →
  ∃ xw' h',
    sgd w dw (Some cfg) h = (Ok (VArr w, cfg), h') ∧
    array_at h' w s xw' ∧
    (∀ i x d, xw !! i = Some x → xd !! i = Some d →
              xw' !! i = Some (x - lr * d)%R) ∧
    (lr = 0%R → xw' = xw).
Proof.
  intros Hw Hdw Hlr.
  eexists _, _. split; [by eapply sgd_resolved|].
  destruct Hw as [Hw' Lw], Hdw as [Hd' Ld].
  pose proof (heap_old_lt _ _ _ Hw').
  split_and!.
  - holds_stored.
  - intros i x d Hx Hd. by list_at.
  - intros ->. apply list_eq_same; [solve_len|].
    intros i x Hx.
    destruct (lookup_lt_is_Some_2 xd i) as [d Hd].
    { rewrite Ld, <- Lw. by eapply lookup_lt_Some. }
    list_at. f_equal. lra.
Qed.

Lemma sgd_step_witness :
  ∃ (xw' : list R) h',
    sgd 0 1 (Some sample_sgd_config) sample_heap
    = (Ok (VArr 0, sample_sgd_config), h') ∧
    array_at h' 0 [2] xw' ∧ xw' !! 1 = Some (2 - 0.1 * -0.2)%R.
Proof.
  destruct (sgd_step sample_heap 0 1 sample_sgd_config [2]
              [1; 2]%R [0.1; -0.2]%R 0.1%R)
    as (xw' & h' & E & Hw & P & _); [split; reflexivity..|reflexivity|].
  exists xw', h'.
  split_and!; [exact E|exact Hw|exact (P 1 2%R (-0.2)%R eq_refl eq_refl)].
Defined.

(** ** A velocity that is a number *)

(** X6. When the configuration holds a number [v0] as [velocity] instead of
    an array, [nesterov_momentum] raises AttributeError (a number has no
    [copy] method) having changed no array: the store is then the store
    before the call followed by the array of zeros that was made for the
    default.  [sgd_momentum] goes through: it uses [v0] for every element,
    [v' = mu * v0 - lr * dw], and stores an array. *)
Theorem velocity_as_number h w dw (cfg : dict) s xw xd v0 mu lr :
  array_at h w s xw → array_at h dw s xd →
  cfg !! "learning_rate" = Some (VNum lr) →
  cfg !! "momentum" = Some (VNum mu) →
  cfg !! "velocity" = Some (VNum v0) →
  nesterov_momentum w dw (Some cfg) h
  = (Raise AttributeError, h ++ [zeros s]) ∧
  (∃ lw' lv' xw' xv' h',
      sgd_momentum w dw (Some cfg) h
      = (Ok (VArr lw', <["velocity" := VArr lv']> cfg), h') ∧
      array_at h' lv' s xv' ∧ array_at h' lw' s xw' ∧
      (∀ i d, xd !! i = Some d → xv' !! i = Some (mu * v0 - lr * d)%R) ∧
      (∀ i x v', xw !! i = Some x → xv' !! i = Some v' →
                 xw' !! i = Some (x + v')%R)).
Proof.
  intros [Hw Lw] [Hdw Ld] Hlr Hmu Hv.
  pose proof (momentum_defaults_resolved (VArr (length h)) _ _ _ _ Hlr Hmu Hv) as E.
  unfold momentum_defaults in E. simpl default in E.
  split.
  - unfold nesterov_momentum. simpl default.
    run np_zeros_like_ok; [heap_lookup|]. rewrite E.
    run getitem_ok; [exact Hmu|].
    run getitem_ok; [exact Hlr|].
    run getitem_ok; [exact Hv|].
    eapply bind_raise. reflexivity.
  - eexists _, _, _, _, _. split.
    { unfold sgd_momentum. simpl default.
      run np_zeros_like_ok; [heap_lookup|]. rewrite E.
      run getitem_ok; [exact Hmu|].
      run getitem_ok; [exact Hlr|].
      run getitem_ok; [exact Hv|].
      unfold py_mul, py_sub, py_add.
      run_pure.
      run arith_num_arr; [heap_lookup|solve_wf|].
      run arith_num_arr; [heap_lookup|solve_wf|].
      run arith_arr_arr; [heap_lookup|heap_lookup|done|solve_wf|solve_wf|].
      reflexivity. }
    split_and!.
    + holds_array.
    + holds_array.
    + intros i d Hd. by list_at.
    + intros i x v' Hx Hv'. by list_at.
Qed.

Lemma velocity_as_number_witness :
  nesterov_momentum 0 1 (Some number_velocity_config) sample_heap
  = (Raise AttributeError, sample_heap ++ [zeros [2]]) ∧
  (∃ lw' lv' (xv' : list R) h',
      sgd_momentum 0 1 (Some number_velocity_config) sample_heap
      = (Ok (VArr lw', <["velocity" := VArr lv']> number_velocity_config), h') ∧
      array_at h' lv' [2] xv' ∧
      xv' !! 0 = Some (0.9 * 0.5 - 1e-2 * 0.1)%R).
Proof.
  destruct (velocity_as_number sample_heap 0 1 number_velocity_config [2]
              [1; 2]%R [0.1; -0.2]%R 0.5%R 0.9%R 1e-2%R)
    as [Hnes (lw' & lv' & xw' & xv' & h' & E & Hv & _ & P & _)];
    [split; reflexivity..|reflexivity|reflexivity|reflexivity|].
  split; [exact Hnes|]. exists lw', lv', xv', h'.
  split_and!; [exact E|exact Hv|exact (P 0 0.1%R eq_refl)].
Defined.

(** ** Gradients of another shape *)

Section OtherShapes.

Lemma broadcast_rev_absorb_l s1 s2 s :
  broadcast_rev s1 s2 = Some s → broadcast_rev s1 s = Some s.
Proof.
  revert s2 s. induction s1 as [|a s1 IH]; intros s2 s.
  - destruct s2; simpl; intros [= <-]; done.
  - destruct s2 as [|b s2]; simpl.
    + intros [= <-]. rewrite decide_True by done.
      by rewrite broadcast_rev_same.
    + destruct (broadcast_rev s1 s2) as [r|] eqn:E;
        repeat case_decide; simpl; intros [= <-]; subst;
        simpl; rewrite ?decide_True by done;
        rewrite ?decide_False by done; rewrite ?decide_True by done;
        by rewrite (IH _ _ E).
Qed.

Lemma broadcast_shapes_absorb_l s1 s2 s :
  broadcast_shapes s1 s2 = Some s → broadcast_shapes s1 s = Some s.
Proof.
  unfold broadcast_shapes.
  destruct (broadcast_rev (reverse s1) (reverse s2)) as [r|] eqn:E; [|done].
  simpl. intros [= <-]. rewrite reverse_involutive.
  by rewrite (broadcast_rev_absorb_l _ _ _ E).
Qed.

(** A shape that is not () absorbs the shape (1,). *)
Lemma broadcast_shapes_one s : s ≠ [] → broadcast_shapes s [1] = Some s.
Proof.
  intros Hs. unfold broadcast_shapes.
  destruct (reverse s) as [|d r] eqn:E.
  - apply (f_equal reverse) in E. rewrite reverse_involutive in E. done.
  - change (reverse [1]) with [1]. simpl.
    assert (broadcast_rev r [] = Some r) as -> by (by destruct r).
    rewrite <- (reverse_involutive s), E.
    repeat case_decide; simpl; congruence.
Qed.

(** An array of shape (1,) shows its one element at every position. *)
Lemma broadcast_to_one c s :
  broadcast_to (NdArray [1] [c]) s = replicate (size_of s) c.
Proof.
  unfold broadcast_to. cbn [shape data]. change (reverse [1]) with [1].
  assert (∀ i, src_index [1] (reverse s) i = 0) as Hi.
  { intros i. destruct (reverse s); simpl; [done|lia]. }
  assert (∀ n k, (λ i, nth (src_index [1] (reverse s) i) [c] 0%R) <$> seq k n
                 = replicate n c) as Hrep; [|apply Hrep].
  induction n as [|n IH]; intros k; [done|].
  simpl seq. rewrite fmap_cons, IH. cbv beta. by rewrite Hi.
Qed.

Lemma arith_arr_arr_any fZ f l1 l2 a b s h :
  h !! l1 = Some a → h !! l2 = Some b →
  broadcast_shapes (shape a) (shape b) = Some s →
  arith fZ f (VArr l1) (VArr l2) h
  = (Ok (VArr (length h)),
     h ++ [NdArray s (zip_with f (broadcast_to a s) (broadcast_to b s))]).
Proof.
  intros H1 H2 Hs. simpl. eapply ufunc_ok; [by apply load_ok..|].
  unfold np_binop. by rewrite Hs.
Qed.

End OtherShapes.

(** X7. [sgd] with a gradient of shape (1,), whatever the shape of [w]
    other than (): the call does not fail, and it subtracts [lr] times the
    one gradient entry from every element of [w]. *)
Theorem sgd_spreads_single_gradient h w dw (cfg : dict) s xw g lr :
  array_at h w s xw → h !! dw = Some (NdArray [1] [g]) → s ≠ [] →
  cfg !! "learning_rate" = Some (VNum lr) →
  ∃ h',
    sgd w dw (Some cfg) h = (Ok (VArr w, cfg), h') ∧
    h' !! w = Some (NdArray s ((λ x, x - lr * g)%R <$> xw)).
Proof.
  intros [Hw Lw] Hdw Hs Hlr. eexists. split.
  - unfold sgd. simpl default. rewrite (setdefault_present _ _ _ _ Hlr).
    run getitem_ok; [exact Hlr|].
    unfold py_mul. run arith_num_arr; [heap_lookup|done|].
    run np_isub_broadcast;
      [heap_lookup|heap_lookup|by apply broadcast_shapes_one|].
    reflexivity.
  - cbn [shape data]. erewrite heap_lookup_store_eq by heap_lookup.
    do 2 f_equal.
    pose proof (broadcast_to_same (NdArray s xw) Lw) as Eb.
    cbn [shape data] in Eb. rewrite Eb.
    change (Rmult lr <$> [g]) with [(lr * g)%R].
    rewrite broadcast_to_one. by rewrite zip_with_replicate_r.
Qed.

Lemma sgd_spreads_single_gradient_witness :
  ∃ h',
    sgd 0 1 (Some sample_sgd_config) mismatch_heap
    = (Ok (VArr 0, sample_sgd_config), h') ∧
    h' !! 0 = Some (NdArray [2] [1 - 0.1 * 1; 2 - 0.1 * 1]%R).
Proof.
  apply (sgd_spreads_single_gradient mismatch_heap 0 1 sample_sgd_config [2]
           [1; 2]%R 1%R 0.1%R);
    [split; reflexivity|reflexivity|discriminate|reflexivity].
Defined.

(** X8. [sgd_momentum] and [nesterov_momentum] on a configuration without a
    velocity: the call goes through exactly when the shapes of [w] and [dw]
    can be broadcast together, and the array returned and the velocity
    stored then have the broadcast shape, which need not be the shape of
    [w] (a [w] of shape (1,) with a [dw] of shape (3,) gives a [next_w] of
    shape (3,)); otherwise the call raises ValueError. *)
Theorem momentum_result_has_broadcast_shape h w dw (cfg : dict) aw adw mu lr :
  h !! w = Some aw → h !! dw = Some adw →
  cfg !! "learning_rate" = Some (VNum lr) →
  cfg !! "momentum" = Some (VNum mu) →
  cfg !! "velocity" = None →
  (∀ s, broadcast_shapes (shape aw) (shape adw) = Some s →
     (∃ lw' lv' aw' av' h',
         sgd_momentum w dw (Some cfg) h
         = (Ok (VArr lw', <["velocity" := VArr lv']> cfg), h') ∧
         h' !! lw' = Some aw' ∧ shape aw' = s ∧
         h' !! lv' = Some av' ∧ shape av' = s) ∧
     (∃ lw' lv' aw' av' h',
         nesterov_momentum w dw (Some cfg) h
         = (Ok (VArr lw', <["velocity" := VArr lv']> cfg), h') ∧
         h' !! lw' = Some aw' ∧ shape aw' = s ∧
         h' !! lv' = Some av' ∧ shape av' = s)) ∧
  (broadcast_shapes (shape aw) (shape adw) = None →
     (∃ h', sgd_momentum w dw (Some cfg) h = (Raise ValueError, h')) ∧
     (∃ h', nesterov_momentum w dw (Some cfg) h = (Raise ValueError, h'))).
Proof.
  intros Hw Hdw Hlr Hmu Hv.
  assert (setdefault "velocity" (VArr (length h))
            (setdefault "momentum" (VNum 0.9)
               (setdefault "learning_rate" (VNum 1e-2) cfg))
          = <["velocity" := VArr (length h)]> cfg) as Ecfg.
  { rewrite (setdefault_present _ _ _ _ Hlr), (setdefault_present _ _ _ _ Hmu).
    by apply setdefault_absent. }
  assert (<["velocity" := VArr (length h)]> cfg !! "momentum" = Some (VNum mu))
    as Hmu' by (by rewrite lookup_insert_ne).
  assert (<["velocity" := VArr (length h)]> cfg !! "learning_rate"
          = Some (VNum lr)) as Hlr' by (by rewrite lookup_insert_ne).
  assert (<["velocity" := VArr (length h)]> cfg !! "velocity"
          = Some (VArr (length h))) as Hv' by apply lookup_insert_eq.
  split.
  - intros s Hs. split.
    + eexists _, _, _, _, _. split.
      { unfold sgd_momentum. simpl default.
        run np_zeros_like_ok; [heap_lookup|]. rewrite Ecfg.
        run getitem_ok; [exact Hmu'|].
        run getitem_ok; [exact Hlr'|].
        run getitem_ok; [exact Hv'|].
        unfold py_mul, py_sub, py_add.
        run arith_num_arr_any; [heap_lookup|].
        run arith_num_arr_any; [heap_lookup|].
        run arith_arr_arr_any; [heap_lookup|heap_lookup|exact Hs|].
        run arith_arr_arr_any;
          [heap_lookup|heap_lookup|exact (broadcast_shapes_absorb_l _ _ _ Hs)|].
        rewrite insert_insert_eq. reflexivity. }
      split_and!; [heap_lookup|done|heap_lookup|done].
    + eexists _, _, _, _, _. split.
      { unfold nesterov_momentum. simpl default.
        run np_zeros_like_ok; [heap_lookup|]. rewrite Ecfg.
        run getitem_ok; [exact Hmu'|].
        run getitem_ok; [exact Hlr'|].
        run getitem_ok; [exact Hv'|].
        run ndarray_copy_ok; [heap_lookup|].
        unfold py_mul, py_sub, py_add.
        run arith_num_arr_any; [heap_lookup|].
        run arith_num_arr_any; [heap_lookup|].
        run arith_arr_arr_any; [heap_lookup|heap_lookup|exact Hs|].
        run arith_num_arr_any; [heap_lookup|].
        run arith_arr_arr_any;
          [heap_lookup|heap_lookup|apply broadcast_shapes_same|].
        run_pure.
        run arith_num_arr_any; [heap_lookup|].
        run arith_arr_arr_any;
          [heap_lookup|heap_lookup|exact (broadcast_shapes_absorb_l _ _ _ Hs)|].
        rewrite insert_insert_eq. reflexivity. }
      split_and!; [heap_lookup|done|heap_lookup|done].
  - intros Hs. split.
    + eexists. unfold sgd_momentum. simpl default.
      run np_zeros_like_ok; [heap_lookup|]. rewrite Ecfg.
      run getitem_ok; [exact Hmu'|].
      run getitem_ok; [exact Hlr'|].
      run getitem_ok; [exact Hv'|].
      unfold py_mul, py_sub.
      run arith_num_arr_any; [heap_lookup|].
      run arith_num_arr_any; [heap_lookup|].
      eapply bind_raise.
      eapply arith_arr_arr_raise; [heap_lookup|heap_lookup|exact Hs].
    + eexists. unfold nesterov_momentum. simpl default.
      run np_zeros_like_ok; [heap_lookup|]. rewrite Ecfg.
      run getitem_ok; [exact Hmu'|].
      run getitem_ok; [exact Hlr'|].
      run getitem_ok; [exact Hv'|].
      run ndarray_copy_ok; [heap_lookup|].
      unfold py_mul, py_sub.
      run arith_num_arr_any; [heap_lookup|].
      run arith_num_arr_any; [heap_lookup|].
      eapply bind_raise.
      eapply arith_arr_arr_raise; [heap_lookup|heap_lookup|exact Hs].
Qed.

Lemma momentum_result_has_broadcast_shape_witness :
  (∃ lw' lv' aw' av' h',
      sgd_momentum 0 1 (Some fresh_momentum_config) grow_heap
      = (Ok (VArr lw', <["velocity" := VArr lv']> fresh_momentum_config), h') ∧
      h' !! lw' = Some aw' ∧ shape aw' = [3] ∧
      h' !! lv' = Some av' ∧ shape av' = [3]) ∧
  (∃ h', nesterov_momentum 0 1 (Some fresh_momentum_config) clash_heap
         = (Raise ValueError, h')).
Proof.
  split.
  - destruct (momentum_result_has_broadcast_shape grow_heap 0 1
                fresh_momentum_config (NdArray [1] [1%R])
                (NdArray [3] [1; 2; 3]%R) 0.9%R 1e-2%R)
      as [Hok _]; [reflexivity..|].
    destruct (Hok [3]) as [Hmom _]; [reflexivity|]. exact Hmom.
  - destruct (momentum_result_has_broadcast_shape clash_heap 0 1
                fresh_momentum_config (NdArray [2] [1; 2]%R)
                (NdArray [3] [1; 1; 1]%R) 0.9%R 1e-2%R)
      as [_ Hraise]; [reflexivity..|].
    destruct Hraise as [_ Hnes]; [reflexivity|]. exact Hnes.
Defined.

(** ** Shapes that do not agree: what is rejected *)

Section AnyShapes.

Implicit Types (h : heap) (a b : ndarray) (l : loc).

Lemma arith_arr_num_any fZ f x l a h :
  h !! l = Some a →
  arith fZ f (VArr l) (VNum x) h
  = (Ok (VArr (length h)),
     h ++ [NdArray (shape a)
             (zip_with f (broadcast_to a (shape a))
                (broadcast_to (scalar_array x) (shape a)))]).
Proof.
  intros Hl. simpl. eapply ufunc_ok; [by apply load_ok|done|].
  unfold np_binop. change (shape (scalar_array x)) with (@nil nat).
  by rewrite broadcast_shapes_scalar_r.
Qed.

Lemma truediv_arr_num_any x l a h :
  h !! l = Some a →
  py_truediv_in Warn (VArr l) (VNum x) h
  = (Ok (VArr (length h)),
     h ++ [NdArray (shape a)
             (zip_with Rdiv (broadcast_to a (shape a))
                (broadcast_to (scalar_array x) (shape a)))]).
Proof.
  intros Hl. eapply truediv_ufunc_ok; [done|by apply load_ok|done| |done].
  unfold np_binop. change (shape (scalar_array x)) with (@nil nat).
  by rewrite broadcast_shapes_scalar_r.
Qed.

Lemma truediv_arr_arr_any l1 l2 a b s h :
  h !! l1 = Some a → h !! l2 = Some b →
  broadcast_shapes (shape a) (shape b) = Some s →
  py_truediv_in Warn (VArr l1) (VArr l2) h
  = (Ok (VArr (length h)),
     h ++ [NdArray s (zip_with Rdiv (broadcast_to a s) (broadcast_to b s))]).
Proof.
  intros H1 H2 Hs. eapply truediv_ufunc_ok; [done|by apply load_ok..| |done].
  unfold np_binop. by rewrite Hs.
Qed.

Lemma truediv_arr_arr_raise mode l1 l2 a b h :
  h !! l1 = Some a → h !! l2 = Some b →
  broadcast_shapes (shape a) (shape b) = None →
  py_truediv_in mode (VArr l1) (VArr l2) h = (Raise ValueError, h).
Proof.
  intros H1 H2 Hs. simpl.
  rewrite (bind_ok _ _ _ _ _ (load_ok _ _ _ H1)).
  rewrite (bind_ok _ _ _ _ _ (load_ok _ _ _ H2)).
  unfold np_binop. by rewrite Hs.
Qed.

Lemma broadcast_into_Some sw s r :
  broadcast_into sw s = Some r → broadcast_shapes sw s = Some sw.
Proof.
  unfold broadcast_into. destruct (broadcast_shapes sw s) as [s'|]; [|done].
  simpl. case_decide; [|done]. by subst.
Qed.

Lemma broadcast_into_None sw s :
  broadcast_into sw s = None → broadcast_shapes sw s ≠ Some sw.
Proof.
  unfold broadcast_into. intros H E. rewrite E in H. simpl in H.
  by rewrite decide_True in H.
Qed.

Lemma broadcast_into_same s : broadcast_into s s = Some s.
Proof.
  unfold broadcast_into. rewrite broadcast_shapes_same. simpl.
  by rewrite decide_True.
Qed.

End AnyShapes.

(** The first statements of a rule on a configuration that has every
    option. *)
Ltac resolved_config :=
  simpl default;
  repeat match goal with
         | H : ?cfg !! ?k = Some _ |- context [setdefault ?k _ ?cfg] =>
             rewrite (setdefault_present _ _ _ _ H)
         end.

Ltac raises lem := eapply bind_raise; eapply lem.

(** C2, as the code has it.  No rule compares shapes.  A rule runs its array
    operations in order, numpy broadcasts the operands of each, and the
    call ends in ValueError exactly when one of them cannot be broadcast
    (for [sgd], [rmsprop] and [adam] also when the step does not broadcast
    to the shape of [w], which the in-place subtraction does not grow):
    when [sgd_shapes], ..., [adam_shapes] is [None].  In every other case
    the call returns, whatever the shapes of [w], [dw] and the state arrays,
    and the state stored and the [next_w] built have the broadcast shapes.
    Arrays of one shape are always accepted.  ([adam] is taken with powers
    [beta ** t] that are defined.) *)
Theorem shape_mismatch_by_broadcasting :
  (∀ h w dw (cfg : dict) aw adw lr,
     h !! w = Some aw → h !! dw = Some adw →
     cfg !! "learning_rate" = Some (VNum lr) →
     match sgd_shapes (shape aw) (shape adw) with
     | Some _ =>
         ∃ aw' h', sgd w dw (Some cfg) h = (Ok (VArr w, cfg), h') ∧
                   h' !! w = Some aw' ∧ shape aw' = shape aw
     | None => ∃ h', sgd w dw (Some cfg) h = (Raise ValueError, h')
     end) ∧
  (∀ h w dw (cfg : dict) aw adw lv av mu lr,
     h !! w = Some aw → h !! dw = Some adw → h !! lv = Some av →
     cfg !! "learning_rate" = Some (VNum lr) →
     cfg !! "momentum" = Some (VNum mu) →
     cfg !! "velocity" = Some (VArr lv) →
     match sgd_momentum_shapes (shape aw) (shape adw) (shape av) with
     | Some (sv, sn) =>
         ∃ ln lv' an av' h',
           sgd_momentum w dw (Some cfg) h
           = (Ok (VArr ln, <["velocity" := VArr lv']> cfg), h') ∧
           h' !! ln = Some an ∧ shape an = sn ∧
           h' !! lv' = Some av' ∧ shape av' = sv
     | None => ∃ h', sgd_momentum w dw (Some cfg) h = (Raise ValueError, h')
     end) ∧
  (∀ h w dw (cfg : dict) aw adw lv av mu lr,
     h !! w = Some aw → h !! dw = Some adw → h !! lv = Some av →
     cfg !! "learning_rate" = Some (VNum lr) →
     cfg !! "momentum" = Some (VNum mu) →
     cfg !! "velocity" = Some (VArr lv) →
     match nesterov_momentum_shapes (shape aw) (shape adw) (shape av) with
     | Some (sv, sn) =>
         ∃ ln lv' an av' h',
           nesterov_momentum w dw (Some cfg) h
           = (Ok (VArr ln, <["velocity" := VArr lv']> cfg), h') ∧
           h' !! ln = Some an ∧ shape an = sn ∧
           h' !! lv' = Some av' ∧ shape av' = sv
     | None =>
         ∃ h', nesterov_momentum w dw (Some cfg) h = (Raise ValueError, h')
     end) ∧
  (∀ h w dw (cfg : dict) aw adw lc ac lr beta eps,
     h !! w = Some aw → h !! dw = Some adw → h !! lc = Some ac →
     cfg !! "learning_rate" = Some (VNum lr) →
     cfg !! "decay_rate" = Some (VNum beta) →
     cfg !! "epsilon" = Some (VNum eps) →
     cfg !! "cache" = Some (VArr lc) →
     match rmsprop_shapes (shape aw) (shape adw) (shape ac) with
     | Some sc =>
         ∃ lc' ac' aw' h',
           rmsprop w dw (Some cfg) h
           = (Ok (VArr w, <["cache" := VArr lc']> cfg), h') ∧
           h' !! lc' = Some ac' ∧ shape ac' = sc ∧
           h' !! w = Some aw' ∧ shape aw' = shape aw
     | None => ∃ h', rmsprop w dw (Some cfg) h = (Raise ValueError, h')
     end) ∧
  (∀ h w dw (cfg : dict) aw adw lm am lv av lr beta1 beta2 eps t,
     h !! w = Some aw → h !! dw = Some adw →
     h !! lm = Some am → h !! lv = Some av →
     cfg !! "learning_rate" = Some (VNum lr) →
     cfg !! "beta1" = Some (VNum beta1) →
     cfg !! "beta2" = Some (VNum beta2) →
     cfg !! "epsilon" = Some (VNum eps) →
     cfg !! "m" = Some (VArr lm) →
     cfg !! "v" = Some (VArr lv) →
     cfg !! "t" = Some (VInt t) →
     pow_defined beta1 t → pow_defined beta2 t →
     match adam_shapes (shape aw) (shape adw) (shape am) (shape av) with
     | Some (sm, sv) =>
         ∃ lm' lv' am' av' aw' h',
           adam w dw (Some cfg) h
           = (Ok (VArr w,
                  <["t" := VInt (t + 1)]>
                    (<["v" := VArr lv']> (<["m" := VArr lm']> cfg))), h') ∧
           h' !! lm' = Some am' ∧ shape am' = sm ∧
           h' !! lv' = Some av' ∧ shape av' = sv ∧
           h' !! w = Some aw' ∧ shape aw' = shape aw
     | None => ∃ h', adam w dw (Some cfg) h = (Raise ValueError, h')
     end) ∧
  (∀ s, sgd_shapes s s = Some s ∧
        sgd_momentum_shapes s s s = Some (s, s) ∧
        nesterov_momentum_shapes s s s = Some (s, s) ∧
        rmsprop_shapes s s s = Some s ∧
        adam_shapes s s s s = Some (s, s)).
Proof.
  split_and!.
  - intros h w dw cfg aw adw lr Hw Hdw Hlr.
    pose proof (heap_old_lt _ _ _ Hw).
    assert (sgd w dw (Some cfg) h
      = (_ ← np_isub w (VArr (length h)); mret (VArr w, cfg))
          (h ++ [NdArray (shape adw)
                   (zip_with Rmult (broadcast_to (scalar_array lr) (shape adw))
                      (broadcast_to adw (shape adw)))])) as E.
    { unfold sgd. resolved_config.
      run getitem_ok; [exact Hlr|].
      unfold py_mul. run arith_num_arr_any; [heap_lookup|]. done. }
    rewrite E. unfold sgd_shapes.
    destruct (broadcast_into _ _) as [r|] eqn:Es.
    + apply broadcast_into_Some in Es. eexists _, _. split.
      { etrans; [eapply bind_ok; eapply np_isub_broadcast|];
          [heap_lookup|heap_lookup|exact Es|reflexivity]. }
      split; [stored_lookup|done].
    + apply broadcast_into_None in Es. eexists.
      raises np_isub_raise; [heap_lookup|heap_lookup|exact Es].
  - intros h w dw cfg aw adw lv av mu lr Hw Hdw Hlv Hlr Hmu Hv.
    unfold sgd_momentum_shapes.
    destruct (broadcast_shapes (shape av) (shape adw)) as [s1|] eqn:E1; simpl;
      [destruct (broadcast_shapes (shape aw) s1) as [s2|] eqn:E2; simpl|].
    + eexists _, _, _, _, _. split.
      { unfold sgd_momentum. resolved_config.
        run np_zeros_like_ok; [heap_lookup|]. resolved_config.
        run getitem_ok; [exact Hmu|].
        run getitem_ok; [exact Hlr|].
        run getitem_ok; [exact Hv|].
        unfold py_mul, py_sub, py_add.
        run arith_num_arr_any; [heap_lookup|].
        run arith_num_arr_any; [heap_lookup|].
        run arith_arr_arr_any; [heap_lookup|heap_lookup|exact E1|].
        run arith_arr_arr_any; [heap_lookup|heap_lookup|exact E2|].
        reflexivity. }
      split_and!; [heap_lookup|done|heap_lookup|done].
    + eexists. unfold sgd_momentum. resolved_config.
      run np_zeros_like_ok; [heap_lookup|]. resolved_config.
      run getitem_ok; [exact Hmu|].
      run getitem_ok; [exact Hlr|].
      run getitem_ok; [exact Hv|].
      unfold py_mul, py_sub, py_add.
      run arith_num_arr_any; [heap_lookup|].
      run arith_num_arr_any; [heap_lookup|].
      run arith_arr_arr_any; [heap_lookup|heap_lookup|exact E1|].
      raises arith_arr_arr_raise; [heap_lookup|heap_lookup|exact E2].
    + eexists. unfold sgd_momentum. resolved_config.
      run np_zeros_like_ok; [heap_lookup|]. resolved_config.
      run getitem_ok; [exact Hmu|].
      run getitem_ok; [exact Hlr|].
      run getitem_ok; [exact Hv|].
      unfold py_mul, py_sub.
      run arith_num_arr_any; [heap_lookup|].
      run arith_num_arr_any; [heap_lookup|].
      raises arith_arr_arr_raise; [heap_lookup|heap_lookup|exact E1].
  - intros h w dw cfg aw adw lv av mu lr Hw Hdw Hlv Hlr Hmu Hv.
    unfold nesterov_momentum_shapes.
    destruct (broadcast_shapes (shape av) (shape adw)) as [s1|] eqn:E1; simpl;
      [destruct (broadcast_shapes (shape aw) (shape av)) as [s2|] eqn:E2; simpl;
       [destruct (broadcast_shapes s2 s1) as [s3|] eqn:E3; simpl|]|].
    + eexists _, _, _, _, _. split.
      { unfold nesterov_momentum. resolved_config.
        run np_zeros_like_ok; [heap_lookup|]. resolved_config.
        run getitem_ok; [exact Hmu|].
        run getitem_ok; [exact Hlr|].
        run getitem_ok; [exact Hv|].
        run ndarray_copy_ok; [heap_lookup|].
        unfold py_mul, py_sub, py_add.
        run arith_num_arr_any; [heap_lookup|].
        run arith_num_arr_any; [heap_lookup|].
        run arith_arr_arr_any; [heap_lookup|heap_lookup|exact E1|].
        run arith_num_arr_any; [heap_lookup|].
        run arith_arr_arr_any; [heap_lookup|heap_lookup|exact E2|].
        run_pure.
        run arith_num_arr_any; [heap_lookup|].
        run arith_arr_arr_any; [heap_lookup|heap_lookup|exact E3|].
        reflexivity. }
      split_and!; [heap_lookup|done|heap_lookup|done].
    + eexists. unfold nesterov_momentum. resolved_config.
      run np_zeros_like_ok; [heap_lookup|]. resolved_config.
      run getitem_ok; [exact Hmu|].
      run getitem_ok; [exact Hlr|].
      run getitem_ok; [exact Hv|].
      run ndarray_copy_ok; [heap_lookup|].
      unfold py_mul, py_sub, py_add.
      run arith_num_arr_any; [heap_lookup|].
      run arith_num_arr_any; [heap_lookup|].
      run arith_arr_arr_any; [heap_lookup|heap_lookup|exact E1|].
      run arith_num_arr_any; [heap_lookup|].
      run arith_arr_arr_any; [heap_lookup|heap_lookup|exact E2|].
      run_pure.
      run arith_num_arr_any; [heap_lookup|].
      raises arith_arr_arr_raise; [heap_lookup|heap_lookup|exact E3].
    + eexists. unfold nesterov_momentum. resolved_config.
      run np_zeros_like_ok; [heap_lookup|]. resolved_config.
      run getitem_ok; [exact Hmu|].
      run getitem_ok; [exact Hlr|].
      run getitem_ok; [exact Hv|].
      run ndarray_copy_ok; [heap_lookup|].
      unfold py_mul, py_sub, py_add.
      run arith_num_arr_any; [heap_lookup|].
      run arith_num_arr_any; [heap_lookup|].
      run arith_arr_arr_any; [heap_lookup|heap_lookup|exact E1|].
      run arith_num_arr_any; [heap_lookup|].
      raises arith_arr_arr_raise; [heap_lookup|heap_lookup|exact E2].
    + eexists. unfold nesterov_momentum. resolved_config.
      run np_zeros_like_ok; [heap_lookup|]. resolved_config.
      run getitem_ok; [exact Hmu|].
      run getitem_ok; [exact Hlr|].
      run getitem_ok; [exact Hv|].
      run ndarray_copy_ok; [heap_lookup|].
      unfold py_mul, py_sub.
      run arith_num_arr_any; [heap_lookup|].
      run arith_num_arr_any; [heap_lookup|].
      raises arith_arr_arr_raise; [heap_lookup|heap_lookup|exact E1].
  - intros h w dw cfg aw adw lc ac lr beta eps Hw Hdw Hlc Hlr Hb He Hc.
    pose proof (heap_old_lt _ _ _ Hw).
    unfold rmsprop_shapes.
    destruct (broadcast_shapes (shape ac) (shape adw)) as [s1|] eqn:E1; simpl;
      [destruct (broadcast_shapes (shape adw) s1) as [s2|] eqn:E2; simpl;
       [destruct (broadcast_into (shape aw) s2) as [r|] eqn:E3; simpl|]|].
    + apply broadcast_into_Some in E3. eexists _, _, _, _. split.
      { unfold rmsprop, rmsprop_in. resolved_config.
        run np_zeros_like_ok; [heap_lookup|]. resolved_config.
        run getitem_ok; [exact He|].
        run getitem_ok; [exact Hlr|].
        run getitem_ok; [exact Hb|].
        run getitem_ok; [exact Hc|].
        unfold py_mul, py_sub, py_add.
        run arith_num_arr_any; [heap_lookup|].
        run_pure.
        run np_power_ok; [heap_lookup|].
        run arith_num_arr_any; [heap_lookup|].
        run arith_arr_arr_any; [heap_lookup|heap_lookup|exact E1|].
        run arith_num_arr_any; [heap_lookup|].
        run np_sqrt_ok; [heap_lookup|done|].
        run arith_arr_num_any; [heap_lookup|].
        run truediv_arr_arr_any; [heap_lookup|heap_lookup|exact E2|].
        run np_isub_broadcast; [heap_lookup|heap_lookup|exact E3|].
        reflexivity. }
      split_and!; [stored_lookup|done|stored_lookup|done].
    + apply broadcast_into_None in E3. eexists.
      unfold rmsprop, rmsprop_in. resolved_config.
      run np_zeros_like_ok; [heap_lookup|]. resolved_config.
      run getitem_ok; [exact He|].
      run getitem_ok; [exact Hlr|].
      run getitem_ok; [exact Hb|].
      run getitem_ok; [exact Hc|].
      unfold py_mul, py_sub, py_add.
      run arith_num_arr_any; [heap_lookup|].
      run_pure.
      run np_power_ok; [heap_lookup|].
      run arith_num_arr_any; [heap_lookup|].
      run arith_arr_arr_any; [heap_lookup|heap_lookup|exact E1|].
      run arith_num_arr_any; [heap_lookup|].
      run np_sqrt_ok; [heap_lookup|done|].
      run arith_arr_num_any; [heap_lookup|].
      run truediv_arr_arr_any; [heap_lookup|heap_lookup|exact E2|].
      raises np_isub_raise; [heap_lookup|heap_lookup|exact E3].
    + eexists. unfold rmsprop, rmsprop_in. resolved_config.
      run np_zeros_like_ok; [heap_lookup|]. resolved_config.
      run getitem_ok; [exact He|].
      run getitem_ok; [exact Hlr|].
      run getitem_ok; [exact Hb|].
      run getitem_ok; [exact Hc|].
      unfold py_mul, py_sub, py_add.
      run arith_num_arr_any; [heap_lookup|].
      run_pure.
      run np_power_ok; [heap_lookup|].
      run arith_num_arr_any; [heap_lookup|].
      run arith_arr_arr_any; [heap_lookup|heap_lookup|exact E1|].
      run arith_num_arr_any; [heap_lookup|].
      run np_sqrt_ok; [heap_lookup|done|].
      run arith_arr_num_any; [heap_lookup|].
      raises truediv_arr_arr_raise; [heap_lookup|heap_lookup|exact E2].
    + eexists. unfold rmsprop, rmsprop_in. resolved_config.
      run np_zeros_like_ok; [heap_lookup|]. resolved_config.
      run getitem_ok; [exact He|].
      run getitem_ok; [exact Hlr|].
      run getitem_ok; [exact Hb|].
      run getitem_ok; [exact Hc|].
      unfold py_mul, py_sub, py_add.
      run arith_num_arr_any; [heap_lookup|].
      run_pure.
      run np_power_ok; [heap_lookup|].
      run arith_num_arr_any; [heap_lookup|].
      raises arith_arr_arr_raise; [heap_lookup|heap_lookup|exact E1].
  - intros h w dw cfg aw adw lm am lv av lr beta1 beta2 eps t
      Hw Hdw Hlm Hlv Hlr Hb1 Hb2 He Hm Hv Ht Hpow1 Hpow2.
    pose proof (heap_old_lt _ _ _ Hw).
    unfold adam_shapes.
    destruct (broadcast_shapes (shape am) (shape adw)) as [s1|] eqn:E1; simpl;
      [destruct (broadcast_shapes (shape av) (shape adw)) as [s2|] eqn:E2; simpl;
       [destruct (broadcast_shapes s1 s2) as [s3|] eqn:E3; simpl;
        [destruct (broadcast_into (shape aw) s3) as [r|] eqn:E4; simpl|]|]|].
    + apply broadcast_into_Some in E4. eexists _, _, _, _, _, _. split.
      { unfold adam, adam_in. resolved_config.
        run np_zeros_like_ok; [heap_lookup|]. resolved_config.
        run np_zeros_like_ok; [heap_lookup|]. resolved_config.
        run getitem_ok; [exact Hlr|].
        run getitem_ok; [exact Hb1|].
        run getitem_ok; [exact Hb2|].
        run getitem_ok; [exact Hm|].
        run getitem_ok; [exact Hv|].
        run getitem_ok; [exact Ht|].
        run getitem_ok; [exact He|].
        unfold py_mul, py_sub, py_add.
        run arith_num_arr_any; [heap_lookup|].
        run_pure.
        run arith_num_arr_any; [heap_lookup|].
        run arith_arr_arr_any; [heap_lookup|heap_lookup|exact E1|].
        run arith_num_arr_any; [heap_lookup|].
        run_pure.
        run np_power_ok; [heap_lookup|].
        run arith_num_arr_any; [heap_lookup|].
        run arith_arr_arr_any; [heap_lookup|heap_lookup|exact E2|].
        run py_pow_ok; [exact Hpow1|].
        run_pure.
        run truediv_arr_num_any; [heap_lookup|].
        run py_pow_ok; [exact Hpow2|].
        run_pure.
        run truediv_arr_num_any; [heap_lookup|].
        run arith_num_arr_any; [heap_lookup|].
        run np_sqrt_ok; [heap_lookup|done|].
        run arith_arr_num_any; [heap_lookup|].
        run truediv_arr_arr_any; [heap_lookup|heap_lookup|exact E3|].
        run np_isub_broadcast; [heap_lookup|heap_lookup|exact E4|].
        run getitem_ok; [by rewrite !lookup_insert_ne by done|].
        run_pure.
        reflexivity. }
      split_and!; [stored_lookup|done|stored_lookup|done|stored_lookup|done].
    + apply broadcast_into_None in E4. eexists.
      unfold adam, adam_in. resolved_config.
      run np_zeros_like_ok; [heap_lookup|]. resolved_config.
      run np_zeros_like_ok; [heap_lookup|]. resolved_config.
      run getitem_ok; [exact Hlr|].
      run getitem_ok; [exact Hb1|].
      run getitem_ok; [exact Hb2|].
      run getitem_ok; [exact Hm|].
      run getitem_ok; [exact Hv|].
      run getitem_ok; [exact Ht|].
      run getitem_ok; [exact He|].
      unfold py_mul, py_sub, py_add.
      run arith_num_arr_any; [heap_lookup|].
      run_pure.
      run arith_num_arr_any; [heap_lookup|].
      run arith_arr_arr_any; [heap_lookup|heap_lookup|exact E1|].
      run arith_num_arr_any; [heap_lookup|].
      run_pure.
      run np_power_ok; [heap_lookup|].
      run arith_num_arr_any; [heap_lookup|].
      run arith_arr_arr_any; [heap_lookup|heap_lookup|exact E2|].
      run py_pow_ok; [exact Hpow1|].
      run_pure.
      run truediv_arr_num_any; [heap_lookup|].
      run py_pow_ok; [exact Hpow2|].
      run_pure.
      run truediv_arr_num_any; [heap_lookup|].
      run arith_num_arr_any; [heap_lookup|].
      run np_sqrt_ok; [heap_lookup|done|].
      run arith_arr_num_any; [heap_lookup|].
      run truediv_arr_arr_any; [heap_lookup|heap_lookup|exact E3|].
      raises np_isub_raise; [heap_lookup|heap_lookup|exact E4].
    + eexists. unfold adam, adam_in. resolved_config.
      run np_zeros_like_ok; [heap_lookup|]. resolved_config.
      run np_zeros_like_ok; [heap_lookup|]. resolved_config.
      run getitem_ok; [exact Hlr|].
      run getitem_ok; [exact Hb1|].
      run getitem_ok; [exact Hb2|].
      run getitem_ok; [exact Hm|].
      run getitem_ok; [exact Hv|].
      run getitem_ok; [exact Ht|].
      run getitem_ok; [exact He|].
      unfold py_mul, py_sub, py_add.
      run arith_num_arr_any; [heap_lookup|].
      run_pure.
      run arith_num_arr_any; [heap_lookup|].
      run arith_arr_arr_any; [heap_lookup|heap_lookup|exact E1|].
      run arith_num_arr_any; [heap_lookup|].
      run_pure.
      run np_power_ok; [heap_lookup|].
      run arith_num_arr_any; [heap_lookup|].
      run arith_arr_arr_any; [heap_lookup|heap_lookup|exact E2|].
      run py_pow_ok; [exact Hpow1|].
      run_pure.
      run truediv_arr_num_any; [heap_lookup|].
      run py_pow_ok; [exact Hpow2|].
      run_pure.
      run truediv_arr_num_any; [heap_lookup|].
      run arith_num_arr_any; [heap_lookup|].
      run np_sqrt_ok; [heap_lookup|done|].
      run arith_arr_num_any; [heap_lookup|].
      raises truediv_arr_arr_raise; [heap_lookup|heap_lookup|exact E3].
    + eexists. unfold adam, adam_in. resolved_config.
      run np_zeros_like_ok; [heap_lookup|]. resolved_config.
      run np_zeros_like_ok; [heap_lookup|]. resolved_config.
      run getitem_ok; [exact Hlr|].
      run getitem_ok; [exact Hb1|].
      run getitem_ok; [exact Hb2|].
      run getitem_ok; [exact Hm|].
      run getitem_ok; [exact Hv|].
      run getitem_ok; [exact Ht|].
      run getitem_ok; [exact He|].
      unfold py_mul, py_sub, py_add.
      run arith_num_arr_any; [heap_lookup|].
      run_pure.
      run arith_num_arr_any; [heap_lookup|].
      run arith_arr_arr_any; [heap_lookup|heap_lookup|exact E1|].
      run arith_num_arr_any; [heap_lookup|].
      run_pure.
      run np_power_ok; [heap_lookup|].
      run arith_num_arr_any; [heap_lookup|].
      raises arith_arr_arr_raise; [heap_lookup|heap_lookup|exact E2].
    + eexists. unfold adam, adam_in. resolved_config.
      run np_zeros_like_ok; [heap_lookup|]. resolved_config.
      run np_zeros_like_ok; [heap_lookup|]. resolved_config.
      run getitem_ok; [exact Hlr|].
      run getitem_ok; [exact Hb1|].
      run getitem_ok; [exact Hb2|].
      run getitem_ok; [exact Hm|].
      run getitem_ok; [exact Hv|].
      run getitem_ok; [exact Ht|].
      run getitem_ok; [exact He|].
      unfold py_mul, py_sub, py_add.
      run arith_num_arr_any; [heap_lookup|].
      run_pure.
      run arith_num_arr_any; [heap_lookup|].
      raises arith_arr_arr_raise; [heap_lookup|heap_lookup|exact E1].
  - intros s.
    unfold sgd_shapes, sgd_momentum_shapes, nesterov_momentum_shapes,
      rmsprop_shapes, adam_shapes.
    rewrite broadcast_into_same, broadcast_shapes_same. simpl.
    rewrite broadcast_shapes_same. simpl.
    rewrite ?broadcast_into_same, ?broadcast_shapes_same. done.
Qed.

Lemma shape_mismatch_by_broadcasting_witness :
  (∃ aw' h',
      sgd 0 1 (Some sample_sgd_config) mismatch_heap
      = (Ok (VArr 0, sample_sgd_config), h') ∧
      h' !! 0 = Some aw' ∧ shape aw' = [2]) ∧
  (∃ h', sgd 0 1 (Some sample_sgd_config) clash_heap = (Raise ValueError, h')) ∧
  (∃ ln lv' an av' h',
      sgd_momentum 0 1 (Some sample_momentum_config) odd_state_heap
      = (Ok (VArr ln, <["velocity" := VArr lv']> sample_momentum_config), h') ∧
      h' !! ln = Some an ∧ shape an = [2; 2] ∧
      h' !! lv' = Some av' ∧ shape av' = [2; 2]) ∧
  (∃ h', nesterov_momentum 0 1 (Some sample_momentum_config) clash_heap
         = (Raise ValueError, h')) ∧
  (∃ lc' ac' aw' h',
      rmsprop 0 1 (Some narrow_cache_config) odd_state_heap
      = (Ok (VArr 0, <["cache" := VArr lc']> narrow_cache_config), h') ∧
      h' !! lc' = Some ac' ∧ shape ac' = [2] ∧
      h' !! 0 = Some aw' ∧ shape aw' = [2]) ∧
  (∃ h', rmsprop 0 1 (Some clashing_cache_config) odd_state_heap
         = (Raise ValueError, h')) ∧
  (∃ h', adam 0 1 (Some sample_adam_config) clash_heap = (Raise ValueError, h')).
Proof.
  destruct shape_mismatch_by_broadcasting
    as (Hsgd & Hmom & Hnes & Hrms & Hadam & _).
  split_and!.
  - exact (Hsgd mismatch_heap 0 1 sample_sgd_config
             (NdArray [2] [1; 2]%R) (NdArray [1] [1%R]) 0.1%R
             eq_refl eq_refl eq_refl).
  - exact (Hsgd clash_heap 0 1 sample_sgd_config
             (NdArray [2] [1; 2]%R) (NdArray [3] [1; 1; 1]%R) 0.1%R
             eq_refl eq_refl eq_refl).
  - exact (Hmom odd_state_heap 0 1 sample_momentum_config
             (NdArray [2] [1; 2]%R) (NdArray [2] [0.1; -0.2]%R)
             2 (NdArray [2; 2] [0; 0; 0; 0]%R) 0.9%R 1e-2%R
             eq_refl eq_refl eq_refl eq_refl eq_refl eq_refl).
  - exact (Hnes clash_heap 0 1 sample_momentum_config
             (NdArray [2] [1; 2]%R) (NdArray [3] [1; 1; 1]%R)
             2 (NdArray [2] [0; 0]%R) 0.9%R 1e-2%R
             eq_refl eq_refl eq_refl eq_refl eq_refl eq_refl).
  - exact (Hrms odd_state_heap 0 1 narrow_cache_config
             (NdArray [2] [1; 2]%R) (NdArray [2] [0.1; -0.2]%R)
             3 (NdArray [1] [0%R]) 1e-2%R 0.99%R 1e-8%R
             eq_refl eq_refl eq_refl eq_refl eq_refl eq_refl eq_refl).
  - exact (Hrms odd_state_heap 0 1 clashing_cache_config
             (NdArray [2] [1; 2]%R) (NdArray [2] [0.1; -0.2]%R)
             4 (NdArray [3] [0; 0; 0]%R) 1e-2%R 0.99%R 1e-8%R
             eq_refl eq_refl eq_refl eq_refl eq_refl eq_refl eq_refl).
  - assert (pow_defined 0.9 1) as Hpow1
      by (apply pow_defined_unit; [apply Rabs_le; lra|done]).
    assert (pow_defined 0.999 1) as Hpow2
      by (apply pow_defined_unit; [apply Rabs_le; lra|done]).
    exact (Hadam clash_heap 0 1 sample_adam_config
             (NdArray [2] [1; 2]%R) (NdArray [3] [1; 1; 1]%R)
             2 (NdArray [2] [0; 0]%R) 3 (NdArray [2] [0; 0]%R)
             1e-3%R 0.9%R 0.999%R 1e-8%R 1%Z
             eq_refl eq_refl eq_refl eq_refl eq_refl eq_refl eq_refl
             eq_refl eq_refl eq_refl eq_refl Hpow1 Hpow2).
Defined.

(** ** Two momentum steps *)



(** ** The shape of the parameter *)

Section ShapeKept.

Implicit Types (h : heap) (w l : loc).

Lemma ks_extends {A} w (m : M A) : extends_store m → keeps_shape w m.
Proof.
  intros Hm h a Hw. destruct (Hm h) as [k ->]. exists a.
  split; [by apply lookup_app_l_Some|done].
Qed.

Lemma ks_bind {A B} w (m : M A) (f : A → M B) :
  keeps_shape w m → (∀ a, keeps_shape w (f a)) → keeps_shape w (m ≫= f).
Proof.
  intros Hm Hf h a Hw. rewrite bind_run.
  destruct (Hm h a Hw) as (a1 & H1 & Hs1).
  destruct (m h) as [[x|e|] h1] eqn:E; simpl in *; [|by exists a1..].
  destruct (Hf x h1 a1 H1) as (a2 & H2 & Hs2).
  exists a2. split; [done|congruence].
Qed.

Lemma np_binop_out_shape f a b r :
  np_binop_out f a b = Some r → shape r = shape a.
Proof.
  unfold np_binop_out. destruct (broadcast_shapes _ _) as [s|]; [|done].
  simpl. case_decide; [|done]. by intros [= <-].
Qed.

Lemma ks_np_isub w x : keeps_shape w (np_isub w x).
Proof.
  intros h a Hw. unfold np_isub. rewrite bind_run, (load_ok _ _ _ Hw).
  rewrite bind_run. destruct (ext_as_array x h) as [k Hk].
  destruct (as_array x h) as [[b|e|] h1] eqn:E; simpl in Hk; subst h1;
    [|exists a; split; [by apply lookup_app_l_Some|done]..].
  destruct (np_binop_out Rminus a b) as [r|] eqn:Er.
  - exists r. split; [|by eapply np_binop_out_shape].
    simpl. apply heap_lookup_store_eq with (a := a).
    by apply lookup_app_l_Some.
  - exists a. split; [by apply lookup_app_l_Some|done].
Qed.

End ShapeKept.

Ltac ks_step :=
  first [ apply ks_np_isub | apply ks_extends; ext_step ].

Ltac ks := repeat (apply ks_bind; [ks_step|intros ?]); ks_step.

(** X12. Whatever the arguments and however the call ends, after a call of
    any rule the store still holds an array at [w], of the shape it had:
    the rules that update [w] in place never reshape it, also when the
    gradient or the state has another shape. *)
Theorem parameter_keeps_its_shape w dw config :
  keeps_shape w (sgd w dw config) ∧
  keeps_shape w (sgd_momentum w dw config) ∧
  keeps_shape w (nesterov_momentum w dw config) ∧
  keeps_shape w (rmsprop w dw config) ∧
  keeps_shape w (adam w dw config).
Proof.
  split_and!.
  - unfold sgd. ks.
  - unfold sgd_momentum. ks.
  - unfold nesterov_momentum. ks.
  - unfold rmsprop, rmsprop_in. ks.
  - unfold adam, adam_in. ks.
Qed.

Lemma parameter_keeps_its_shape_witness :
  ∃ a', (rmsprop 0 1 None mismatch_heap).2 !! 0 = Some a' ∧ shape a' = [2].
Proof.
  destruct (parameter_keeps_its_shape 0 1 None) as (_ & _ & _ & Hrms & _).
  apply (Hrms mismatch_heap (NdArray [2] [1; 2]%R)). reflexivity.
Defined.
